(** * LevelParser: a shallow embedding of the level-file decoders

    The development follows [src/renderer/src/services/LevelParser.ts]:
    [parseCAM], [parseLFL], [parseSLK] and [parseDPH].

    JavaScript strings are sequences of UTF-16 code units, modelled as
    [list Z]; a [Uint8Array] is a [list byte]; a [Uint16Array] is a
    [list Z] whose stores wrap modulo 2^16.  The platform functions the
    parser calls ([trim], [split], [indexOf], [parseInt], [parseFloat],
    [TextDecoder.decode]) are modelled after ECMA-262 and the WHATWG
    Encoding standard.

    The two helpers of the terrain view that read the decoded grids,
    [getTerrainHeight] and [getColorForIndex], are embedded as well. *)

From Stdlib Require Import ZArith List Lia Bool.
From Stdlib Require Import QArith.QArith_base.
From Stdlib Require Import Strings.String Strings.Ascii Strings.Byte.
From stdpp Require Import base list gmap.

Open Scope Z_scope.

(** ** JavaScript strings *)

Module Js.

Definition jsstring := list Z.

(** A Rocq string literal read as a string of ASCII code units. *)
Definition lit (s : string) : jsstring :=
  List.map (fun b => Z.of_N (Byte.to_N b)) (list_byte_of_string s).

Fixpoint str_eqb (a b : jsstring) : bool :=
  match a, b with
  | [], [] => true
  | x :: a', y :: b' => (x =? y) && str_eqb a' b'
  | _, _ => false
  end.

(** [WhiteSpace] and [LineTerminator] of ECMA-262: what [trim] strips and
    what [\s] matches. *)
Definition is_ws (c : Z) : bool :=
  ((9 <=? c) && (c <=? 13)) || (c =? 32) || (c =? 160) || (c =? 5760)
  || ((8192 <=? c) && (c <=? 8202)) || (c =? 8232) || (c =? 8233)
  || (c =? 8239) || (c =? 8287) || (c =? 12288) || (c =? 65279).

Fixpoint trim_start (s : jsstring) : jsstring :=
  match s with
  | [] => []
  | c :: r => if is_ws c then trim_start r else s
  end.

Definition trim_end (s : jsstring) : jsstring := rev (trim_start (rev s)).

(** [String.prototype.trim] *)
Definition trim (s : jsstring) : jsstring := trim_end (trim_start s).

(** [String.prototype.startsWith] *)
Fixpoint startsWith (p s : jsstring) : bool :=
  match p, s with
  | [], _ => true
  | x :: p', y :: s' => (x =? y) && startsWith p' s'
  | _ :: _, [] => false
  end.

(** [s.split(c)] for a one-character separator [c]. *)
Fixpoint split_on (c : Z) (s : jsstring) : list jsstring :=
  match s with
  | [] => [[]]
  | x :: r =>
      if x =? c then [] :: split_on c r
      else match split_on c r with
           | l :: ls => (x :: l) :: ls
           | [] => [[x]]
           end
  end.

Definition NL : Z := 10.
Definition CR : Z := 13.

Definition lines (s : jsstring) : list jsstring := split_on NL s.

(** [s.split(/\s+/)]: [inws] tells that the previous character belonged
    to a separator run. *)
Fixpoint split_ws_from (inws : bool) (s : jsstring) : list jsstring :=
  match s with
  | [] => [[]]
  | x :: r =>
      if is_ws x then
        if inws then split_ws_from true r else [] :: split_ws_from true r
      else match split_ws_from false r with
           | l :: ls => (x :: l) :: ls
           | [] => [[x]]
           end
  end.

Definition split_ws (s : jsstring) : list jsstring := split_ws_from false s.

(** [s.indexOf(p, from)], with [None] for -1; [at_] is the index of the
    head of [s] in the whole string. *)
Fixpoint indexOf_at (p s : jsstring) (at_ : Z) : option Z :=
  if startsWith p s then Some at_
  else match s with
       | [] => None
       | _ :: r => indexOf_at p r (at_ + 1)
       end.

Definition indexOf (p s : jsstring) (from : Z) : option Z :=
  let k := Nat.min (Z.to_nat from) (length s) in
  indexOf_at p (drop k s) (Z.of_nat k).

(** [s.includes(c)] for one character. *)
Definition includes (c : Z) (s : jsstring) : bool := existsb (Z.eqb c) s.

(** [s.replace(/c/g, t)] for a one-character pattern. *)
Definition replace_all (c : Z) (t : jsstring) (s : jsstring) : jsstring :=
  flat_map (fun x => if x =? c then t else [x]) s.

(** [pieces.join(sep)] *)
Fixpoint join (sep : jsstring) (l : list jsstring) : jsstring :=
  match l with
  | [] => []
  | [a] => a
  | a :: r => a ++ sep ++ join sep r
  end.

Definition is_digit (c : Z) : bool := (48 <=? c) && (c <=? 57).

(** [/^\d+$/.test(s)] *)
Definition all_digits (s : jsstring) : bool :=
  match s with [] => false | _ => forallb is_digit s end.

(** ** Numbers

    [parseInt] yields NaN or an integer.  The integer is kept exactly: the
    rounding of integers beyond 2^53 to the nearest double is not
    modelled, so the embedding follows the code for tokens of magnitude
    up to 2^53. *)

Inductive jsint := INaN | IInt (z : Z).

Fixpoint take_while (f : Z -> bool) (s : jsstring) : jsstring * jsstring :=
  match s with
  | [] => ([], [])
  | c :: r => if f c then let '(a, b) := take_while f r in (c :: a, b)
              else ([], s)
  end.

Definition digit_val (c : Z) : Z :=
  if is_digit c then c - 48
  else if (97 <=? c) && (c <=? 102) then c - 87
  else c - 55.

Definition is_hex (c : Z) : bool :=
  is_digit c || ((97 <=? c) && (c <=? 102)) || ((65 <=? c) && (c <=? 70)).

Definition digits_val (radix : Z) (ds : jsstring) : Z :=
  fold_left (fun acc d => acc * radix + digit_val d) ds 0.

Definition strip_sign (s : jsstring) : bool * jsstring :=
  match s with
  | 45 :: r => (true, r)
  | 43 :: r => (false, r)
  | _ => (false, s)
  end.

(** [parseInt(tok)] without a radix; [None] is [undefined]. *)
Definition parseInt (tok : option jsstring) : jsint :=
  match tok with
  | None => INaN
  | Some s =>
      let '(neg, s1) := strip_sign (trim_start s) in
      let '(radix, s2) :=
        match s1 with
        | 48 :: 120 :: r => (16, r)
        | 48 :: 88 :: r => (16, r)
        | _ => (10, s1)
        end in
      let '(ds, _) := take_while (if radix =? 16 then is_hex else is_digit) s2 in
      match ds with
      | [] => INaN
      | _ => IInt (if neg then - digits_val radix ds else digits_val radix ds)
      end
  end.

(** [count--] *)
Definition idec (n : jsint) : jsint :=
  match n with INaN => INaN | IInt z => IInt (z - 1) end.

(** [count <= 0] *)
Definition ile0 (n : jsint) : bool :=
  match n with INaN => false | IInt z => z <=? 0 end.

Fixpoint pos_digits (fuel : nat) (n : Z) (acc : jsstring) : jsstring :=
  match fuel with
  | O => acc
  | S f => if n <? 10 then (48 + n) :: acc
           else pos_digits f (n / 10) ((48 + n mod 10) :: acc)
  end.

Definition nat_digits (n : Z) : jsstring :=
  pos_digits (S (Z.to_nat (Z.log2 n))) n [].

(** The string of a number in a template literal. *)
Definition istr (n : jsint) : jsstring :=
  match n with
  | INaN => lit "NaN"
  | IInt z => if z <? 0 then 45 :: nat_digits (- z) else nat_digits z
  end.

(** [parseFloat] yields NaN, an infinity, or the decimal number
    [(-1)^neg * mant * 10^exp10] its argument denotes; the rounding of
    that decimal to a double is not modelled, except that a number which
    rounds to zero counts as zero in [|| 0]. *)
Inductive jsfloat :=
| FNaN
| FInf (neg : bool)
| FDec (neg : bool) (mant : Z) (exp10 : Z).

Definition fzero : jsfloat := FDec false 0 0.

Definition parseFloat (tok : option jsstring) : jsfloat :=
  match tok with
  | None => FNaN
  | Some s =>
      let '(neg, s1) := strip_sign (trim_start s) in
      if startsWith (lit "Infinity") s1 then FInf neg
      else
        let '(ip, r1) := take_while is_digit s1 in
        let '(fp, r2) :=
          match r1 with
          | 46 :: r => take_while is_digit r
          | _ => ([], r1)
          end in
        match ip ++ fp with
        | [] => FNaN
        | ds =>
            let ex :=
              match r2 with
              | c :: r =>
                  if (c =? 101) || (c =? 69) then
                    let '(eneg, r') := strip_sign r in
                    let '(ed, _) := take_while is_digit r' in
                    match ed with
                    | [] => 0
                    | _ => if eneg then - digits_val 10 ed else digits_val 10 ed
                    end
                  else 0
              | [] => 0
              end in
            FDec neg (digits_val 10 ds) (ex - Z.of_nat (length fp))
        end
  end.

(** [isNaN(x)] *)
Definition isNaN (x : jsfloat) : bool :=
  match x with FNaN => true | _ => false end.

(** A decimal no larger than 2^-1075 rounds to (signed) zero. *)
Definition rounds_to_zero (m e : Z) : bool :=
  (m =? 0) || ((e <? 0) && (m * 2 ^ 1075 <=? 10 ^ (- e))).

(** [x || 0] *)
Definition or0 (x : jsfloat) : jsfloat :=
  match x with
  | FNaN => fzero
  | FInf _ => x
  | FDec _ m e => if rounds_to_zero m e then fzero else x
  end.

(** ** [TextDecoder.decode]: UTF-8 to UTF-16 code units

    The decoder of the WHATWG Encoding standard, with U+FFFD for every
    ill-formed sequence and a leading byte-order mark removed. *)

Record utf8_state := Utf8 {
  u_cp : Z; u_seen : Z; u_needed : Z; u_lower : Z; u_upper : Z }.

Definition utf8_init : utf8_state := Utf8 0 0 0 128 191.

Definition emit_cp (cp : Z) : jsstring :=
  if cp <=? 65535 then [cp]
  else [55296 + Z.shiftr (cp - 65536) 10; 56320 + Z.land (cp - 65536) 1023].

(** A byte met when no sequence is open. *)
Definition utf8_lead (b : Z) : jsstring * utf8_state :=
  if b <=? 127 then ([b], utf8_init)
  else if (194 <=? b) && (b <=? 223) then
    ([], Utf8 (Z.land b 31) 0 1 128 191)
  else if (224 <=? b) && (b <=? 239) then
    ([], Utf8 (Z.land b 15) 0 2 (if b =? 224 then 160 else 128)
              (if b =? 237 then 159 else 191))
  else if (240 <=? b) && (b <=? 244) then
    ([], Utf8 (Z.land b 7) 0 3 (if b =? 240 then 144 else 128)
              (if b =? 244 then 143 else 191))
  else ([65533], utf8_init).

Definition utf8_step (st : utf8_state) (b : Z) : jsstring * utf8_state :=
  if u_needed st =? 0 then utf8_lead b
  else if (b <? u_lower st) || (u_upper st <? b) then
    let '(out, st') := utf8_lead b in (65533 :: out, st')
  else
    let cp := Z.lor (Z.shiftl (u_cp st) 6) (Z.land b 63) in
    if u_seen st + 1 =? u_needed st then (emit_cp cp, utf8_init)
    else ([], Utf8 cp (u_seen st + 1) (u_needed st) 128 191).

Fixpoint utf8_run (st : utf8_state) (bs : list byte) : jsstring :=
  match bs with
  | [] => if u_needed st =? 0 then [] else [65533]
  | b :: r =>
      let '(out, st') := utf8_step st (Z.of_N (Byte.to_N b)) in
      out ++ utf8_run st' r
  end.

Definition decode (bs : list byte) : jsstring :=
  match utf8_run utf8_init bs with
  | c :: r => if c =? 65279 then r else c :: r
  | [] => []
  end.

End Js.

Import Js.

(** ** The decoders of [LevelParser] *)

Module LevelParser.

(** *** Data model *)

Record CamData := mkCam {
  ranking : option jsstring;
  objective : jsstring;
  spyInfo : jsstring;
  description : jsstring }.

Record LevelObject := mkObj {
  type : jsstring;
  x : jsfloat;
  y : jsfloat;
  z : jsfloat;
  rotation : option jsfloat;
  modelName : option jsstring }.

(** *** [parseCAM] *)

Inductive section := S_NONE | S_RANKING | S_OBJECTIVE | S_SPYINFO | S_DESCRIPTION.

Definition is_empty (s : jsstring) : bool :=
  match s with [] => true | _ => false end.

Definition set_ranking (d : CamData) (v : jsstring) : CamData :=
  mkCam (Some v) (objective d) (spyInfo d) (description d).
Definition add_objective (d : CamData) (v : jsstring) : CamData :=
  mkCam (ranking d) (objective d ++ v) (spyInfo d) (description d).
Definition add_spyInfo (d : CamData) (v : jsstring) : CamData :=
  mkCam (ranking d) (objective d) (spyInfo d ++ v) (description d).
Definition add_description (d : CamData) (v : jsstring) : CamData :=
  mkCam (ranking d) (objective d) (spyInfo d) (description d ++ v).

(** The body of the loop over the lines: the markers first, then the
    section the line falls in. *)
Definition cam_step (st : section * CamData) (line : jsstring) : section * CamData :=
  let '(sec, data) := st in
  let trim := Js.trim line in
  if str_eqb trim (lit "OBJECTIVE_BEGIN") then (S_OBJECTIVE, data)
  else if str_eqb trim (lit "OBJECTIVE_END") then (S_NONE, data)
  else if str_eqb trim (lit "SPYINFO_BEGIN") then (S_SPYINFO, data)
  else if str_eqb trim (lit "SPYINFO_END") then (S_NONE, data)
  else if str_eqb trim (lit "DESCRIPTION_BEGIN") then (S_DESCRIPTION, data)
  else if str_eqb trim (lit "DESCRIPTION_END") then (S_NONE, data)
  else if str_eqb trim (lit "CAMPAIGN_RANKING") then (S_RANKING, data)
  else
    match sec with
    | S_RANKING =>
        if negb (is_empty trim) then (S_NONE, set_ranking data trim) else st
    | S_OBJECTIVE =>
        if is_empty (objective data) && all_digits trim then st
        else (sec, add_objective data (line ++ [NL]))
    | S_SPYINFO =>
        if is_empty (spyInfo data) && all_digits trim then st
        else if startsWith (lit "PI4") trim then st
        else (sec, add_spyInfo data (line ++ [NL]))
    | S_DESCRIPTION =>
        if is_empty (description data) && all_digits trim then st
        else (sec, add_description data (line ++ [NL]))
    | S_NONE => st
    end.

Definition cam_lines (content : jsstring) : list jsstring :=
  let content := replace_all 65533 (lit "'") content in
  split_on NL (replace_all CR [] content).

Definition parseCAM (content : jsstring) : CamData :=
  snd (fold_left cam_step (cam_lines content) (S_NONE, mkCam None [] [] [])).

(** *** [parseLFL]

    A plain object used as a map: assigning a string to the key
    [__proto__] changes nothing.  [None] stands for the TypeError that
    [key.trim()] would raise were the destructured [key] undefined. *)

Definition obj_set (k v : jsstring) (m : gmap jsstring jsstring) : gmap jsstring jsstring :=
  if str_eqb k (lit "__proto__") then m else <[k := v]> m.

Definition lfl_step (config : option (gmap jsstring jsstring)) (line : jsstring)
  : option (gmap jsstring jsstring) :=
  match config with
  | None => None
  | Some m =>
      if startsWith (lit "#") (trim line) || negb (includes 58 line) then Some m
      else match split_on 58 line with
           | key :: values => Some (obj_set (trim key) (trim (join (lit ":") values)) m)
           | [] => None
           end
  end.

Definition parseLFL (content : jsstring) : option (gmap jsstring jsstring) :=
  fold_left lfl_step (split_on NL content) (Some ∅).

(** *** Typed arrays *)

Definition CELLS : nat := 256 * 256.

(** [new Uint16Array(n)] *)
Definition new_u16 (n : nat) : list Z := replicate n 0.

(** The value a [Uint16Array] keeps of a stored number. *)
Definition u16 (v : Z) : Z := v mod 65536.

(** [buffer[k]] in an integer context: an index outside the array reads
    [undefined], which [|], [<<] and a typed-array store turn into 0. *)
Definition byte_at (buffer : list byte) (k : Z) : Z :=
  if k <? 0 then 0
  else match buffer !! Z.to_nat k with
       | Some b => Z.of_N (Byte.to_N b)
       | None => 0
       end.

Definition blen (buffer : list byte) : Z := Z.of_nat (length buffer).

(** The values of [i] in [for (let i = from; i < from + n; i++)]. *)
Fixpoint zrange (from : Z) (n : nat) : list Z :=
  match n with
  | O => []
  | S n' => from :: zrange (from + 1) n'
  end.

(** [arr[i] = v] on a typed array: a store outside the array is
    ignored. *)
Definition store (arr : list Z) (i v : Z) : list Z :=
  if i <? 0 then arr else <[Z.to_nat i := u16 v]> arr.

(** *** [parseDPH] *)

Definition dph_cell (buffer : list byte) (heights : list Z) (i : Z) : list Z :=
  let offset := i * 2 in
  if offset + 1 <? blen buffer then
    store heights i (Z.lor (byte_at buffer offset) (Z.shiftl (byte_at buffer (offset + 1)) 8))
  else heights.

Definition parseDPH (buffer : list byte) : list Z :=
  fold_left (dph_cell buffer) (zrange 0 CELLS) (new_u16 CELLS).

(** *** [parseSLK]: the model table of the header *)

(** A pattern character under the [i] flag: a letter matches its two
    cases, any other character itself. *)
Definition ci_eqb (c p : Z) : bool :=
  (c =? p) || ((97 <=? p) && (p <=? 122) && (c =? p - 32)).

Fixpoint ci_prefix (p s : jsstring) : option jsstring :=
  match p, s with
  | [], _ => Some s
  | a :: p', c :: s' => if ci_eqb c a then ci_prefix p' s' else None
  | _ :: _, [] => None
  end.

(** [\.sdf\s+(\d+)$], case-insensitive; yields the digits. *)
Definition match_sdf_tail (s : jsstring) : option jsstring :=
  match ci_prefix (lit ".sdf") s with
  | None => None
  | Some r =>
      let '(ws, ds) := take_while is_ws r in
      if negb (is_empty ws) && all_digits ds then Some ds else None
  end.

(** What [.] does not match. *)
Definition is_line_terminator (c : Z) : bool :=
  (c =? 10) || (c =? 13) || (c =? 8232) || (c =? 8233).

(** [(.+?)] followed by the tail: the shortest name first. *)
Fixpoint match_sdf_name (name s : jsstring) : option (jsstring * jsstring) :=
  match s with
  | [] => None
  | c :: r =>
      if is_line_terminator c then None
      else match match_sdf_tail r with
           | Some ds => Some (name ++ [c], ds)
           | None => match_sdf_name (name ++ [c]) r
           end
  end.

(** [line.trim().match(/^models[\\\/](.+?)\.sdf\s+(\d+)$/i)] *)
Definition model_match (line : jsstring) : option (jsstring * jsstring) :=
  match ci_prefix (lit "models") (trim line) with
  | Some (c :: r) => if (c =? 92) || (c =? 47) then match_sdf_name [] r else None
  | _ => None
  end.

Definition model_step (tbl : gmap Z jsstring) (line : jsstring) : gmap Z jsstring :=
  match model_match line with
  | Some (modelName, ds) =>
      match parseInt (Some ds) with
      | IInt modelId => <[modelId := modelName]> tbl
      | INaN => tbl
      end
  | None => tbl
  end.

Definition model_table (ls : list jsstring) : gmap Z jsstring :=
  fold_left model_step ls ∅.

(** *** [parseSLK]: locating the binary block *)

(** [buffer.slice(0, 50000)] *)
Definition HEADER_WINDOW : nat := Z.to_nat 50000.

Definition headerText (buffer : list byte) : jsstring := decode (take HEADER_WINDOW buffer).

(** The scan for the dimension line; the texture count of the first line
    with three tokens of which the first two are [256]. *)
Fixpoint find_dim (ls : list jsstring) : option jsint :=
  match ls with
  | [] => None
  | l :: r =>
      match split_ws (trim l) with
      | [a; b; c] =>
          if str_eqb a (lit "256") && str_eqb b (lit "256") then Some (parseInt (Some c))
          else find_dim r
      | _ => find_dim r
      end
  end.

(** How often [for (let i = 0; i < textureCount; i++)] may run. *)
Definition iterations (n : jsint) : nat :=
  match n with INaN => O | IInt z => Z.to_nat z end.

(** The loop that skips the texture list; it stops early when the text
    has no further line break. *)
Fixpoint skip_lines (n : nat) (text : jsstring) (pos : Z) : Z :=
  match n with
  | O => pos
  | S n' =>
      match indexOf [NL] text pos with
      | None => pos
      | Some nextLine => skip_lines n' text (nextLine + 1)
      end
  end.

Definition dimString (textureCount : jsint) : jsstring :=
  lit "256 256 " ++ istr textureCount.

(** [binaryOffset], with [None] for -1. *)
Definition locate (text : jsstring) : option Z :=
  match find_dim (lines text) with
  | None => None
  | Some textureCount =>
      match indexOf (dimString textureCount) text 0 with
      | None => None
      | Some dimOffset =>
          let pos := match indexOf [NL] text dimOffset with
                     | Some k => k + 1
                     | None => 0
                     end in
          Some (skip_lines (iterations textureCount) text pos)
      end
  end.

(** *** [parseSLK]: the binary block *)

Definition texture_cell (buffer : list byte) (binaryOffset : Z) (arr : list Z) (i : Z) : list Z :=
  let recordOffset := binaryOffset + i * 6 in
  if recordOffset + 2 <=? blen buffer then
    store arr i (Z.lor (byte_at buffer recordOffset)
                       (Z.shiftl (byte_at buffer (recordOffset + 1)) 8))
  else arr.

Definition textures (buffer : list byte) (binaryOffset : Z) : list Z :=
  fold_left (texture_cell buffer binaryOffset) (zrange 0 CELLS) (new_u16 CELLS).

Definition LAYER5_WIDTH : Z := 257.

Definition height_cell (buffer : list byte) (LAYER5_OFFSET : Z) (row : Z)
    (arr : list Z) (col : Z) : list Z :=
  let srcIdx := LAYER5_OFFSET + row * LAYER5_WIDTH + col in
  let dstIdx := row * 256 + col in
  if srcIdx <? blen buffer then store arr dstIdx (byte_at buffer srcIdx)
  else arr.

Definition height_row (buffer : list byte) (LAYER5_OFFSET : Z) (arr : list Z) (row : Z) : list Z :=
  fold_left (height_cell buffer LAYER5_OFFSET row) (zrange 0 256) arr.

Definition layer5 (buffer : list byte) (binaryOffset : Z) : list Z :=
  let LAYER5_OFFSET := binaryOffset + 5 * 65536 in
  fold_left (height_row buffer LAYER5_OFFSET) (zrange 0 256) (new_u16 CELLS).

(** *** [parseSLK]: the footer *)

Inductive mode := M_NONE | M_SLOTS | M_CITADEL_BLOCK | M_CITADEL_UPGRADES | M_OBJECTS.

(** [currentCitadel]: [{ base?, upgrades }] *)
Record Citadel := mkCitadel {
  base : option LevelObject;
  upgrades : list LevelObject }.

Record footer_state := mkFooter {
  f_mode : mode;
  f_count : jsint;
  currentCitadel : option Citadel;
  f_objects : list LevelObject;
  f_citadels : list LevelObject }.

Definition footer_init : footer_state := mkFooter M_NONE (IInt 0) None [] [].

Definition with_mode (st : footer_state) (m : mode) : footer_state :=
  mkFooter m (f_count st) (currentCitadel st) (f_objects st) (f_citadels st).
Definition with_count (st : footer_state) (c : jsint) : footer_state :=
  mkFooter (f_mode st) c (currentCitadel st) (f_objects st) (f_citadels st).
Definition with_citadel (st : footer_state) (c : option Citadel) : footer_state :=
  mkFooter (f_mode st) (f_count st) c (f_objects st) (f_citadels st).
Definition push_objects (st : footer_state) (os : list LevelObject) : footer_state :=
  mkFooter (f_mode st) (f_count st) (currentCitadel st) (f_objects st ++ os) (f_citadels st).
Definition push_citadel (st : footer_state) (o : LevelObject) : footer_state :=
  mkFooter (f_mode st) (f_count st) (currentCitadel st) (f_objects st) (f_citadels st ++ [o]).

(** [if (currentCitadel && currentCitadel.base) { citadels.push(base);
    objects.push(...upgrades) }] *)
Definition flush (st : footer_state) : footer_state :=
  match currentCitadel st with
  | Some (mkCitadel (Some b) ups) => push_objects (push_citadel st b) ups
  | _ => st
  end.

(** [if (count <= 0) mode = m] *)
Definition leave_if_done (st : footer_state) (m : mode) : footer_state :=
  if ile0 (f_count st) then with_mode st m else st.

Definition slot_object (parts : list jsstring) : LevelObject :=
  mkObj (lit "SLOT") (parseFloat (parts !! 0%nat)) fzero (parseFloat (parts !! 1%nat))
        (Some (or0 (parseFloat (parts !! 2%nat)))) None.

Definition base_object (parts : list jsstring) : LevelObject :=
  mkObj (lit "CITADEL_BASE") (parseFloat (parts !! 1%nat)) fzero (parseFloat (parts !! 2%nat))
        (Some (or0 (parseFloat (parts !! 3%nat)))) None.

Definition upgrade_object (parts : list jsstring) : LevelObject :=
  mkObj (lit "CITADEL_UPGRADE") (parseFloat (parts !! 0%nat)) fzero (parseFloat (parts !! 1%nat))
        (Some (or0 (parseFloat (parts !! 2%nat)))) None.

(** [modelIdToName[id] || `Unknown_${id}`] *)
Definition model_name (tbl : gmap Z jsstring) (id : jsint) : jsstring :=
  let fallback := lit "Unknown_" ++ istr id in
  match id with
  | INaN => fallback
  | IInt n => match tbl !! n with
              | Some name => if is_empty name then fallback else name
              | None => fallback
              end
  end.

Definition placed_object (tbl : gmap Z jsstring) (parts : list jsstring) : LevelObject :=
  let id := parseInt (parts !! 0%nat) in
  mkObj (lit "OBJ_" ++ istr id) (parseFloat (parts !! 2%nat)) (parseFloat (parts !! 4%nat))
        (parseFloat (parts !! 3%nat)) (Some (or0 (parseFloat (parts !! 5%nat))))
        (Some (model_name tbl id)).

(** The body of the loop over the footer lines.  Every branch of the
    source that changes [mode] ends in [continue], so at most one of its
    mode blocks runs for a line: the one of the mode the line is met in. *)
Definition footer_step (tbl : gmap Z jsstring) (st : footer_state) (raw : jsstring)
  : footer_state :=
  let line := trim raw in
  if is_empty line || startsWith (lit "#") line then st
  else
    let parts := split_ws line in
    match f_mode st with
    | M_NONE =>
        if startsWith (lit "slots ") line then
          with_count (with_mode st M_SLOTS) (parseInt (parts !! 1%nat))
        else if startsWith (lit "citadel ") line then
          with_citadel (with_mode st M_CITADEL_BLOCK) (Some (mkCitadel None []))
        else if startsWith (lit "objects ") line then
          with_count (with_mode st M_OBJECTS) (parseInt (parts !! 1%nat))
        else st
    | M_SLOTS =>
        let st1 :=
          if (2 <=? length parts)%nat then
            let o := slot_object parts in
            if negb (isNaN (x o)) then
              with_count (push_objects st [o]) (idec (f_count st))
            else st
          else st in
        leave_if_done st1 M_NONE
    | M_CITADEL_BLOCK =>
        if startsWith (lit "base ") line then
          match currentCitadel st with
          | Some c => with_citadel st (Some (mkCitadel (Some (base_object parts)) (upgrades c)))
          | None => st
          end
        else if startsWith (lit "upgrades ") line then
          with_count (with_mode st M_CITADEL_UPGRADES) (parseInt (parts !! 1%nat))
        else if startsWith (lit "citadel ") line then
          with_citadel (flush st) (Some (mkCitadel None []))
        else if startsWith (lit "objects ") line then
          with_count (with_mode (flush st) M_OBJECTS) (parseInt (parts !! 1%nat))
        else st
    | M_CITADEL_UPGRADES =>
        let st1 :=
          if (3 <=? length parts)%nat then
            let o := upgrade_object parts in
            match currentCitadel st with
            | Some c =>
                if negb (isNaN (x o)) then
                  with_count
                    (with_citadel st (Some (mkCitadel (base c) (upgrades c ++ [o]))))
                    (idec (f_count st))
                else st
            | None => st
            end
          else st in
        leave_if_done st1 M_CITADEL_BLOCK
    | M_OBJECTS =>
        let st1 :=
          if (6 <=? length parts)%nat then
            let o := placed_object tbl parts in
            if negb (isNaN (x o)) then
              with_count (push_objects st [o]) (idec (f_count st))
            else st
          else st in
        leave_if_done st1 M_NONE
    end.

(** The footer phase: the text after the binary block, line by line, and
    the flush of a citadel still pending at the end. *)
Definition parseFooter (tbl : gmap Z jsstring) (footerBuffer : list byte) : footer_state :=
  flush (fold_left (footer_step tbl) (split_on NL (decode footerBuffer)) footer_init).

(** *** [parseSLK] *)

Record SlkData := mkSlk {
  terrain : list jsstring;
  objects : list LevelObject;
  citadels : list LevelObject;
  textureIndices : list Z;
  heights : list Z }.

Definition BLOCK_BYTES : Z := 256 * 256 * 6.

(** The calls of [console.log] between the phases are left out: they
    have no part in the result. *)
Definition parseSLK (buffer : list byte) : SlkData :=
  let text := headerText buffer in
  let modelIdToName := model_table (lines text) in
  match locate text with
  | None => mkSlk [] [] [] (new_u16 CELLS) (new_u16 CELLS)
  | Some binaryOffset =>
      let textureIndices := textures buffer binaryOffset in
      let heights := layer5 buffer binaryOffset in
      let footerStart := binaryOffset + BLOCK_BYTES in
      if footerStart <? blen buffer then
        let st := parseFooter modelIdToName (drop (Z.to_nat footerStart) buffer) in
        mkSlk [] (f_objects st) (f_citadels st) textureIndices heights
      else mkSlk [] [] [] textureIndices heights
  end.

End LevelParser.

Import LevelParser.

(** * The terrain view

    The two helpers of [TerrainView.tsx] that read the grids of
    [parseSLK]: the height of the terrain under a marker and the debug
    colour of a texture index. *)

Module TerrainView.

(** A double: NaN, an infinity, or the dyadic number [mant * 2^exp2]. *)
Inductive double := DNaN | DInf (neg : bool) | DFin (mant exp2 : Z).

(** An integral number, an infinity or NaN: the values [Math.floor]
    yields, and those of the index arithmetic (exact up to 2^53). *)
Inductive jsnum := NNaN | NInf (neg : bool) | NInt (z : Z).

Definition Math_floor (v : double) : jsnum :=
  match v with
  | DNaN => NNaN
  | DInf s => NInf s
  | DFin m e => NInt (Z.shiftl m e)
  end.

(** [Math.min(a, v)] and [Math.max(a, v)] for an integer [a]. *)
Definition Math_min (a : Z) (v : jsnum) : jsnum :=
  match v with
  | NNaN => NNaN
  | NInf true => NInf true
  | NInf false => NInt a
  | NInt z => NInt (Z.min a z)
  end.

Definition Math_max (a : Z) (v : jsnum) : jsnum :=
  match v with
  | NNaN => NNaN
  | NInf true => NInt a
  | NInf false => NInf false
  | NInt z => NInt (Z.max a z)
  end.

(** [v * k] for an integer [k], and [a + b]. *)
Definition times (v : jsnum) (k : Z) : jsnum :=
  match v with
  | NNaN => NNaN
  | NInf s => if k =? 0 then NNaN else NInf (xorb s (k <? 0))
  | NInt z => NInt (z * k)
  end.

Definition plus (a b : jsnum) : jsnum :=
  match a, b with
  | NNaN, _ | _, NNaN => NNaN
  | NInf s, NInf s' => if Bool.eqb s s' then NInf s else NNaN
  | NInf s, NInt _ | NInt _, NInf s => NInf s
  | NInt x, NInt y => NInt (x + y)
  end.

(** [heightMap[idx] || 0]: an index that is no index of the array reads
    [undefined]. *)
Definition sample (heightMap : list Z) (idx : jsnum) : Z :=
  match idx with
  | NInt i =>
      if i <? 0 then 0
      else match heightMap !! Z.to_nat i with
           | Some h => h
           | None => 0
           end
  | _ => 0
  end.

Definition getTerrainHeight (heightMap : option (list Z)) (gridX gridZ : double) : Z :=
  match heightMap with
  | None => 50
  | Some heightMap =>
      let size := 256 in
      let col := Math_max 0 (Math_min (size - 1) (Math_floor gridX)) in
      let row := Math_max 0 (Math_min (size - 1) (Math_floor gridZ)) in
      let idx := plus (times row size) col in
      let rawH := sample heightMap idx in
      (255 - rawH) * 1
  end.

(** A colour: its three components, each an exact fraction (the
    rounding of the quotient to a double is not modelled). *)
Record Color := mkColor { c_r : Q; c_g : Q; c_b : Q }.

(** [%] on integers takes the sign of the dividend.  The index is a
    value of a [Uint16Array]: the three products stay far below 2^53,
    where the arithmetic of doubles is that of the integers. *)
Definition getColorForIndex (index : Z) : Color :=
  let r := Qmake (Z.rem (index * 12345) 255) 255 in
  let g := Qmake (Z.rem (index * 67890) 255) 255 in
  let b := Qmake (Z.rem (index * 54321) 255) 255 in
  mkColor r g b.

End TerrainView.

Import TerrainView.

(** The bytes of an ASCII text, for writing buffers down. *)
Definition bytes_of (s : string) : list byte := list_byte_of_string s.

(** * Vocabulary of the properties *)

(** ** The composite file *)

(** A line with exactly three whitespace-separated tokens of which the
    first two are [256]. *)
Definition dim_shaped (l : jsstring) : Prop :=
  exists c, split_ws (trim l) = [lit "256"; lit "256"; c].

(** The cells of the three grids that the input bytes reach. *)
Definition dph_covered (buffer : list byte) (i : nat) : Prop :=
  Z.of_nat i * 2 + 1 < blen buffer.

(** Record [i] of the located binary block lies within the buffer. *)
Definition texture_covered (buffer : list byte) (i : nat) : Prop :=
  exists off, locate (headerText buffer) = Some off
              /\ off + Z.of_nat i * 6 + 2 <= blen buffer.

(** The byte of layer 5 for [(row, col)] lies within the buffer. *)
Definition height_covered (buffer : list byte) (row col : nat) : Prop :=
  exists off, locate (headerText buffer) = Some off
              /\ off + 5 * 65536 + Z.of_nat row * 257 + Z.of_nat col < blen buffer.

(** ** The footer *)

Definition citadel_base_5_5 : LevelObject :=
  mkObj (lit "CITADEL_BASE") (FDec false 5 0) fzero (FDec false 5 0) (Some fzero) None.

Definition citadel_upgrade_1_1 : LevelObject :=
  mkObj (lit "CITADEL_UPGRADE") (FDec false 1 0) fzero (FDec false 1 0) (Some fzero) None.

(** A footer with one citadel and one upgrade, and a whole file that
    carries it: a header for three textures, a binary block of zero bytes
    and the footer. *)
Definition citadel_footer : list byte := bytes_of "citadel 0
base 5 5 0
upgrades 1
1 1 0 9
".

Definition citadel_file : list byte :=
  bytes_of "256 256 3
grass.tga
rock.tga
sand.tga
" ++ replicate (Z.to_nat BLOCK_BYTES) x00%byte ++ citadel_footer.

(** One citadel base at (5,5,0) in the citadels, one upgrade at (1,1,0)
    in the objects, and the upgrade not among the citadels. *)
Definition one_citadel_one_upgrade (st : footer_state) : Prop :=
  f_citadels st = [citadel_base_5_5]
  /\ f_objects st = [citadel_upgrade_1_1]
  /\ ~ In citadel_upgrade_1_1 (f_citadels st).

(** The sections that count their records down. *)
Definition counted (m : mode) : bool :=
  match m with M_SLOTS | M_CITADEL_UPGRADES | M_OBJECTS => true | _ => false end.

(** The token read as the x coordinate in a counted section. *)
Definition x_token (m : mode) (parts : list jsstring) : option jsstring :=
  match m with M_OBJECTS => parts !! 2%nat | _ => parts !! 0%nat end.

(** The tokens a counted section parses as numbers. *)
Definition numeric_tokens (m : mode) (parts : list jsstring) : list (option jsstring) :=
  match m with
  | M_OBJECTS => [parts !! 0%nat; parts !! 2%nat; parts !! 3%nat; parts !! 4%nat; parts !! 5%nat]
  | _ => [parts !! 0%nat; parts !! 1%nat; parts !! 2%nat]
  end.

(** The least number of tokens a record line has. *)
Definition shape (m : mode) : nat :=
  match m with M_SLOTS => 2 | M_CITADEL_UPGRADES => 3 | M_OBJECTS => 6 | _ => 0 end.

(** The line left no record behind and the count is what it was. *)
Definition line_skipped (st st' : footer_state) : Prop :=
  f_objects st' = f_objects st
  /\ f_citadels st' = f_citadels st
  /\ currentCitadel st' = currentCitadel st
  /\ f_count st' = f_count st.

(** ** The narrative file *)

(** The text of a field: its lines, each closed by a line break. *)
Definition flat (ks : list jsstring) : jsstring :=
  concat (List.map (fun l => l ++ [NL]) ks).

(** The seven section markers. *)
Definition markers : list jsstring :=
  [lit "OBJECTIVE_BEGIN"; lit "OBJECTIVE_END"; lit "SPYINFO_BEGIN"; lit "SPYINFO_END";
   lit "DESCRIPTION_BEGIN"; lit "DESCRIPTION_END"; lit "CAMPAIGN_RANKING"].

Definition is_marker (t : jsstring) : bool := existsb (str_eqb t) markers.

(** The branch of [cam_step] for a line that is no marker. *)
Definition in_section (sec : section) (data : CamData) (line : jsstring) : section * CamData :=
  match sec with
  | S_RANKING =>
      if negb (is_empty (trim line)) then (S_NONE, set_ranking data (trim line)) else (sec, data)
  | S_OBJECTIVE =>
      if is_empty (objective data) && all_digits (trim line) then (sec, data)
      else (sec, add_objective data (line ++ [NL]))
  | S_SPYINFO =>
      if is_empty (spyInfo data) && all_digits (trim line) then (sec, data)
      else if startsWith (lit "PI4") (trim line) then (sec, data)
      else (sec, add_spyInfo data (line ++ [NL]))
  | S_DESCRIPTION =>
      if is_empty (description data) && all_digits (trim line) then (sec, data)
      else (sec, add_description data (line ++ [NL]))
  | S_NONE => (sec, data)
  end.

(** A line of [cam_lines]: no line break, no carriage return, no
    replacement character. *)
Definition clean (l : jsstring) : Prop := ~ In NL l /\ ~ In CR l /\ ~ In 65533 l.

(** A kept line, and the list of the lines kept in a field: the first
    one is no number, since a number met while the field was empty was
    dropped. *)
Definition content_line (l : jsstring) : Prop := clean l /\ is_marker (trim l) = false.

(** The first kept line of a field is no line-count header. *)
Definition head_not_number (ks : list jsstring) : Prop :=
  match ks with [] => True | l :: _ => all_digits (trim l) = false end.

(** The spy-info section keeps no [PI4] line. *)
Definition not_pi4 (l : jsstring) : Prop := startsWith (lit "PI4") (trim l) = false.

(** What the loop of [parseCAM] maintains for a multi-line field. *)
Definition field_ok (pi4 : bool) (c : jsstring) : Prop :=
  exists ks, c = flat ks /\ Forall content_line ks /\ head_not_number ks
             /\ (pi4 = true -> Forall not_pi4 ks).

(** The ranking is a trimmed, non-blank line that is no marker. *)
Definition ranking_ok (r : option jsstring) : Prop :=
  match r with
  | None => True
  | Some t => clean t /\ is_marker t = false /\ trim t = t /\ t <> []
  end.

(** The invariant of the loop of [parseCAM]. *)
Definition cam_inv (d : CamData) : Prop :=
  field_ok false (objective d) /\ field_ok true (spyInfo d)
  /\ field_ok false (description d) /\ ranking_ok (ranking d).

(** No line of [c] is, once trimmed, a marker. *)
Definition marker_free (c : jsstring) : Prop :=
  Forall (fun l => ~ In (trim l) markers) (lines c).

(** ** The locator

    The locator in the words of the specification: from a position, the
    position just past the next line terminator, and the position past
    exactly [n] further lines; there is none when the text has too few
    line terminators. *)
Definition past_line (text : jsstring) (pos : Z) : option Z :=
  match indexOf [NL] text pos with
  | Some k => Some (k + 1)
  | None => None
  end.

Fixpoint past_lines (n : nat) (text : jsstring) (pos : Z) : option Z :=
  match n with
  | O => Some pos
  | S n' =>
      match past_line text pos with
      | Some p => past_lines n' text p
      | None => None
      end
  end.

(** The offset of the specification: the position of the string
    [256 256 N], advanced past its line terminator and then past exactly
    [N] lines. *)
Definition spec_offset (text : jsstring) (N : jsint) : option Z :=
  match indexOf (dimString N) text 0 with
  | None => None
  | Some dimOffset =>
      match past_line text dimOffset with
      | Some p => past_lines (iterations N) text p
      | None => None
      end
  end.

(** The header text around its dimension line: [pre] are the lines
    before it, none of them shaped like a dimension line; [dl] is the
    dimension line and [rest] what follows its line terminator. *)
Definition header_split (text : jsstring) (pre : list jsstring) (dl rest : jsstring) : Prop :=
  text = flat pre ++ dl ++ NL :: rest
  /\ Forall (fun l => ~ In NL l /\ ~ dim_shaped l) pre
  /\ ~ In NL dl.

(** What [parseSLK] reads from the footer starting at [start]. *)
Definition footer_at (buffer : list byte) (start : Z) : list LevelObject * list LevelObject :=
  if start <? blen buffer then
    let st := parseFooter (model_table (lines (headerText buffer)))
                          (drop (Z.to_nat start) buffer) in
    (f_objects st, f_citadels st)
  else ([], []).

(** ** Headers of ASCII lines *)

Definition byteZ (b : byte) : Z := Z.of_N (Byte.to_N b).

(** Bytes that decode to themselves. *)
Definition ascii_bytes (bs : list byte) : Prop := Forall (fun b => byteZ b <= 127) bs.

(** Lines of bytes, each closed by a line feed. *)
Definition flatb (ls : list (list byte)) : list byte :=
  concat (List.map (fun l => l ++ [x0a]%byte) ls).

(** The dimension line of a file with three textures. *)
Definition DIM3 : jsstring := lit "256 256 3".

(** A line of ASCII text: no byte above 127, no line feed. *)
Definition text_line (l : list byte) : Prop :=
  Forall (fun b => byteZ b <= 127 /\ byteZ b <> NL) l.

(** [text_line], as a test. *)
Definition text_lineb (l : list byte) : bool :=
  forallb (fun b => (byteZ b <=? 127) && negb (byteZ b =? NL)) l.

(** ** Three files with the dimension line [256 256 3], three texture
    lines and an all-zero binary block *)

(** 4999 lines of ten bytes before the dimension line: the 50000 bytes
    read as text end with the dimension line, and the texture lines lie
    beyond them. *)
Definition long_header_file : list byte :=
  flatb (replicate 4999 (bytes_of "xxxxxxxxx")
         ++ [bytes_of "256 256 3"; bytes_of "a"; bytes_of "b"; bytes_of "c"])
  ++ replicate (Z.to_nat BLOCK_BYTES) x00%byte.

(** A texture line with a two-byte character (U+00E9 in UTF-8). *)
Definition accent_file : list byte :=
  flatb [bytes_of "256 256 3"; [xc3; xa9]%byte; bytes_of "b"; bytes_of "c"]
  ++ replicate (Z.to_nat BLOCK_BYTES) x00%byte.

(** The string [256 256 3] inside a line before the dimension line. *)
Definition echo_file : list byte :=
  flatb [bytes_of "x 256 256 3"; bytes_of "256 256 3"; bytes_of "a"; bytes_of "b"; bytes_of "c"]
  ++ replicate (Z.to_nat BLOCK_BYTES) x00%byte.

(** ** The decoder of the header text *)

(** A byte of an open UTF-8 sequence that has produced no code unit
    yet. *)
Definition pending (st : utf8_state) : nat :=
  if u_needed st =? 0 then 0%nat else 1%nat.

(** ** Records of the footer *)

(** The footer phase on the lines of the footer text. *)
Definition footer_run (tbl : gmap Z jsstring) (ls : list jsstring) : footer_state :=
  flush (fold_left (footer_step tbl) ls footer_init).

(** The rotation is present and is a number. *)
Definition rotation_is_number (o : LevelObject) : Prop :=
  exists r, rotation o = Some r /\ isNaN r = false.

(** What the citadels list holds. *)
Definition citadel_record (o : LevelObject) : Prop :=
  type o = lit "CITADEL_BASE" /\ y o = fzero /\ modelName o = None
  /\ rotation_is_number o.

(** What a pending citadel keeps as upgrades. *)
Definition upgrade_record (o : LevelObject) : Prop :=
  type o = lit "CITADEL_UPGRADE" /\ y o = fzero /\ modelName o = None
  /\ isNaN (x o) = false /\ rotation_is_number o.

(** What the objects list holds: a slot, an upgrade, or a placed object
    with a model name. *)
Definition object_record (o : LevelObject) : Prop :=
  isNaN (x o) = false /\ rotation_is_number o
  /\ ((type o = lit "SLOT" /\ y o = fzero /\ modelName o = None)
      \/ (type o = lit "CITADEL_UPGRADE" /\ y o = fzero /\ modelName o = None)
      \/ (exists id name, type o = lit "OBJ_" ++ istr id
                          /\ modelName o = Some name /\ name <> [])).

(** The invariant of the loop over the footer lines. *)
Definition footer_inv (st : footer_state) : Prop :=
  Forall object_record (f_objects st)
  /\ Forall citadel_record (f_citadels st)
  /\ match currentCitadel st with
     | Some c => Forall upgrade_record (upgrades c)
                 /\ match base c with Some b => citadel_record b | None => True end
     | None => True
     end.

(** A line the footer loop passes over: blank, or a comment. *)
Definition skippable (raw : jsstring) : bool :=
  is_empty (trim raw) || startsWith (lit "#") (trim raw).

(** A line that yields a slot in a slots section. *)
Definition slot_line (raw : jsstring) : bool :=
  negb (skippable raw)
  && (2 <=? length (split_ws (trim raw)))%nat
  && negb (isNaN (parseFloat (split_ws (trim raw) !! 0%nat))).

(** The slot of a line. *)
Definition slot_of (raw : jsstring) : LevelObject := slot_object (split_ws (trim raw)).

(** The line opens no citadel. *)
Definition not_citadel_line (raw : jsstring) : Prop :=
  startsWith (lit "citadel ") (trim raw) = false.

(** The modes in which the pending citadel is left alone. *)
Definition outside_citadel (m : mode) : bool :=
  match m with M_NONE | M_SLOTS | M_OBJECTS => true | _ => false end.

(** ** The configuration file *)

(** What [parseLFL] keeps of a definition: a trimmed key without colon,
    other than [__proto__], and a trimmed value, both within a line. *)
Definition lfl_entry (k v : jsstring) : Prop :=
  trim k = k /\ trim v = v /\ ~ In 58 k /\ ~ In NL k /\ ~ In NL v /\ k <> lit "__proto__".

(** ** The narrative file, written out *)

(** The markers that open a section. *)
Definition opener (t : jsstring) : bool :=
  existsb (str_eqb t)
    [lit "OBJECTIVE_BEGIN"; lit "SPYINFO_BEGIN"; lit "DESCRIPTION_BEGIN"; lit "CAMPAIGN_RANKING"].

(** A text of whole lines, free of carriage returns and replacement
    characters. *)
Definition whole_lines (c : jsstring) : Prop :=
  ~ In CR c /\ ~ In 65533 c /\ (c = [] \/ exists c', c = c' ++ [NL]).

(** The line of a ranking, the line-count header of a section, and the
    lines a section keeps. *)
Definition ranking_line (r : jsstring) : Prop :=
  clean r /\ is_marker (trim r) = false /\ is_empty (trim r) = false.

Definition count_header (n : jsstring) : Prop :=
  clean n /\ all_digits (trim n) = true.

Definition section_lines (pi4 : bool) (ks : list jsstring) : Prop :=
  Forall content_line ks /\ head_not_number ks /\ (pi4 = true -> Forall not_pi4 ks).

(** A narrative file with a ranking and the three sections, each with
    its line-count header. *)
Definition cam_file (r n1 n2 n3 : jsstring) (ko ks kd : list jsstring) : jsstring :=
  flat ([lit "CAMPAIGN_RANKING"; r; lit "OBJECTIVE_BEGIN"; n1] ++ ko
        ++ [lit "OBJECTIVE_END"; lit "SPYINFO_BEGIN"; n2] ++ ks
        ++ [lit "SPYINFO_END"; lit "DESCRIPTION_BEGIN"; n3] ++ kd
        ++ [lit "DESCRIPTION_END"]).

(** ** The model table *)

(** [s] is [p] up to the case of its letters. *)
Definition ci_equal (p s : jsstring) : Prop := ci_prefix p s = Some [].

(** A name without a dot and without a line terminator. *)
Definition plain_name (name : jsstring) : bool :=
  negb (is_empty name)
  && forallb (fun c => negb (c =? 46) && negb (is_line_terminator c)) name.

(** The number a [models] line ends with is one a double holds exactly
    (every integer up to 2^53 is). *)
Definition exact_id (l : jsstring) : bool :=
  match model_match l with
  | Some (_, ds) => digits_val 10 ds <=? 2 ^ 53
  | None => true
  end.

(** An entry of the model table: the number of a [models] line of the
    header and the name of that line. *)
Definition table_entry (ls : list jsstring) (id : Z) (name : jsstring) : Prop :=
  0 <= id /\ name <> []
  /\ exists l ds, In l ls /\ model_match l = Some (name, ds) /\ id = digits_val 10 ds.

(** * Properties *)

(** ** The models of the platform functions, on a few inputs *)

Example trim_ex : trim (lit "  a b  ") = lit "a b".
Proof. reflexivity. Qed.

Example split_ws_ex : split_ws (lit "10  20 x") = [lit "10"; lit "20"; lit "x"].
Proof. reflexivity. Qed.

Example parseInt_ex :
  parseInt (Some (lit "12abc")) = IInt 12 /\ parseInt (Some (lit "0x1f")) = IInt 31
  /\ parseInt (Some (lit "abc")) = INaN /\ parseInt None = INaN.
Proof. repeat split; reflexivity. Qed.

Example parseFloat_ex :
  parseFloat (Some (lit "12.5e-3x")) = FDec false 125 (-4)
  /\ parseFloat (Some (lit "-.5")) = FDec true 5 (-1)
  /\ parseFloat (Some (lit "east")) = FNaN
  /\ or0 (parseFloat None) = fzero.
Proof. repeat split; reflexivity. Qed.

Example decode_ex :
  decode [x41; xc3; xa9; xff; xf0; x9f; x98; x80; xc3]%byte
  = [65; 233; 65533; 55357; 56832; 65533].
Proof. reflexivity. Qed.

Example indexOf_ex :
  indexOf (lit "b") (lit "abcb") 2 = Some 3 /\ indexOf (lit "b") (lit "abcb") 9 = None.
Proof. split; reflexivity. Qed.

Example model_match_ex :
  model_match (lit "  Models\tank.sdf  12 ") = Some (lit "tank", lit "12").
Proof. reflexivity. Qed.

Example parseSLK_little_endian_ex :
  take 2 (textureIndices
            (parseSLK (bytes_of "256 256 0
" ++ [x01; x02; x00; x00; x00; x00; x03; x04]%byte)))
  = [513; 1027].
Proof. vm_compute. reflexivity. Qed.

Example parseDPH_ex : take 3 (parseDPH [x01; x02; x03; x04; x05]%byte) = [513; 1027; 0].
Proof. vm_compute. reflexivity. Qed.

Example model_match_dot_ex :
  model_match (lit "MODELS/a.sdf.SDF 7") = Some (lit "a.sdf", lit "7")
  /\ model_match (lit "models/a_sdf 7") = None.
Proof. split; reflexivity. Qed.

Example footer_slots_ex :
  f_objects (parseFooter ∅ (bytes_of "slots 2
10 20 0
30 40 90
"))
  = [mkObj (lit "SLOT") (FDec false 10 0) fzero (FDec false 20 0) (Some fzero) None;
     mkObj (lit "SLOT") (FDec false 30 0) fzero (FDec false 40 0)
           (Some (FDec false 90 0)) None].
Proof. vm_compute. reflexivity. Qed.

(** ** Arrays filled by a loop *)

Section Fill.

Variable I : Type.
Variable cell : list Z -> I -> list Z.

Lemma fold_cell_length (l : list I) (a : list Z) :
  (forall a i, length (cell a i) = length a) ->
  length (fold_left cell l a) = length a.
Proof.
  intros Hc. revert a. induction l as [|i l IH]; intros a; simpl; [reflexivity|].
  rewrite IH. apply Hc.
Qed.

Lemma fold_cell_Forall (P : Z -> Prop) (l : list I) (a : list Z) :
  (forall a i, Forall P a -> Forall P (cell a i)) ->
  Forall P a -> Forall P (fold_left cell l a).
Proof.
  intros Hc. revert a. induction l as [|i l IH]; intros a Ha; simpl; [exact Ha|].
  apply IH, Hc, Ha.
Qed.

End Fill.

Lemma fold_left_ext {A B : Type} (f g : A -> B -> A) (l : list B) (a : A) :
  (forall a i, f a i = g a i) -> fold_left f l a = fold_left g l a.
Proof.
  intros H. revert a. induction l as [|i l IH]; intros a; cbn [fold_left]; [reflexivity|].
  now rewrite H, IH.
Qed.

(** A loop over [zrange] is the loop over the same naturals. *)
Lemma fold_zrange {A : Type} (f : A -> Z -> A) (n s : nat) (a : A) :
  fold_left f (zrange (Z.of_nat s) n) a = fold_left (fun a i => f a (Z.of_nat i)) (seq s n) a.
Proof.
  revert s a. induction n as [|n IH]; intros s a; [reflexivity|].
  cbn [zrange seq fold_left].
  replace (Z.of_nat s + 1) with (Z.of_nat (S s)) by lia. apply IH.
Qed.

Lemma store_length (arr : list Z) (i v : Z) : length (store arr i v) = length arr.
Proof. unfold store. destruct (i <? 0); [reflexivity|apply length_insert]. Qed.

Lemma store_insert (arr : list Z) (i v : Z) :
  0 <= i -> store arr i v = <[Z.to_nat i := u16 v]> arr.
Proof. intros H. unfold store. destruct (Z.ltb_spec i 0); [lia|reflexivity]. Qed.

Lemma Forall_insert_Z (P : Z -> Prop) (a : list Z) (i : nat) (v : Z) :
  Forall P a -> P v -> Forall P (<[i := v]> a).
Proof.
  revert i. induction a as [|h t IH]; intros i Ha Hv; simpl; [constructor|].
  inversion Ha; subst. destruct i; simpl; constructor; auto.
Qed.

(** A loop over [s, s+n) that stores [v i] at [d + i] when [c i] holds. *)
Lemma fill_lookup (c : nat -> bool) (v : nat -> Z) (d : nat) (n : nat) :
  forall (s : nat) (a : list Z) (j : nat),
    (d + s + n <= length a)%nat ->
    fold_left (fun a i => if c i then <[(d + i)%nat := v i]> a else a) (seq s n) a !! j
    = if bool_decide (d + s <= j < d + s + n)%nat && c (j - d)%nat
      then Some (v (j - d)%nat) else a !! j.
Proof.
  induction n as [|n IH]; intros s a j Hlen; simpl.
  - rewrite bool_decide_eq_false_2 by lia. reflexivity.
  - rewrite IH.
    2:{ destruct (c s); [rewrite length_insert|]; lia. }
    destruct (bool_decide (d + S s <= j < d + S s + n)%nat) eqn:E1.
    + apply bool_decide_eq_true_1 in E1.
      rewrite (bool_decide_eq_true_2 (d + s <= j < d + s + S n)%nat) by lia.
      simpl. destruct (c (j - d)%nat); [reflexivity|].
      destruct (c s); [|reflexivity].
      apply list_lookup_insert_ne. lia.
    + apply bool_decide_eq_false_1 in E1. simpl.
      destruct (decide (j = d + s)%nat) as [->|Hne].
      * rewrite (bool_decide_eq_true_2 (d + s <= d + s < d + s + S n)%nat) by lia.
        replace (d + s - d)%nat with s by lia. simpl.
        destruct (c s); [|reflexivity].
        apply list_lookup_insert_eq. lia.
      * rewrite (bool_decide_eq_false_2 (d + s <= j < d + s + S n)%nat) by lia.
        simpl. destruct (c s); [|reflexivity].
        apply list_lookup_insert_ne. lia.
Qed.

Lemma zfill_lookup (c : Z -> bool) (v : Z -> Z) (n : nat) (a : list Z) (j : nat) :
  (n <= length a)%nat ->
  fold_left (fun a i => if c i then store a i (v i) else a) (zrange 0 n) a !! j
  = if bool_decide (j < n)%nat && c (Z.of_nat j) then Some (u16 (v (Z.of_nat j))) else a !! j.
Proof.
  intros Hn. change (zrange 0 n) with (zrange (Z.of_nat 0) n). rewrite fold_zrange.
  rewrite (fold_left_ext _
    (fun a i => if c (Z.of_nat i) then <[(0 + i)%nat := u16 (v (Z.of_nat i))]> a else a)).
  2:{ intros a' i. rewrite store_insert by lia. now rewrite Nat2Z.id. }
  rewrite (fill_lookup (fun i => c (Z.of_nat i)) (fun i => u16 (v (Z.of_nat i))) 0 n 0 a j)
    by exact Hn.
  replace (j - 0)%nat with j by lia.
  destruct (decide (j < n)%nat) as [Hj|Hj].
  - rewrite !bool_decide_eq_true_2 by lia. reflexivity.
  - rewrite !bool_decide_eq_false_2 by lia. reflexivity.
Qed.

Lemma byte_at_range (buffer : list byte) (k : Z) : 0 <= byte_at buffer k <= 255.
Proof.
  unfold byte_at. destruct (k <? 0); [lia|].
  destruct (buffer !! Z.to_nat k) as [b|]; [|lia].
  pose proof (Byte.to_N_bounded b). lia.
Qed.

Lemma u16_byte (buffer : list byte) (k : Z) : u16 (byte_at buffer k) = byte_at buffer k.
Proof.
  unfold u16. pose proof (byte_at_range buffer k). apply Z.mod_small. lia.
Qed.

(** The little-endian pair of two bytes fits 16 bits. *)
Lemma le16_range (b0 b1 : Z) :
  0 <= b0 <= 255 -> 0 <= b1 <= 255 -> 0 <= Z.lor b0 (Z.shiftl b1 8) < 65536.
Proof.
  intros H0 H1. split.
  - apply Z.lor_nonneg. split; [lia|]. apply Z.shiftl_nonneg. lia.
  - destruct (Z.eq_dec (Z.lor b0 (Z.shiftl b1 8)) 0) as [->|Hnz]; [lia|].
    apply (Z.log2_lt_cancel _ 65536). change (Z.log2 65536) with 16.
    assert (Hl : Z.log2 (Z.lor b0 (Z.shiftl b1 8))
                 = Z.max (Z.log2 b0) (Z.log2 (Z.shiftl b1 8))).
    { apply Z.log2_lor; [lia|]. apply Z.shiftl_nonneg. lia. }
    rewrite Hl.
    assert (Z.log2 b0 < 16).
    { destruct (Z.eq_dec b0 0) as [->|]; [simpl; lia|].
      apply Z.log2_lt_pow2; lia. }
    assert (Z.log2 (Z.shiftl b1 8) < 16).
    { rewrite Z.shiftl_mul_pow2 by lia.
      destruct (Z.eq_dec b1 0) as [->|]; [simpl; lia|].
      apply Z.log2_lt_pow2; lia. }
    lia.
Qed.

Lemma u16_le16 (buffer : list byte) (k k' : Z) :
  u16 (Z.lor (byte_at buffer k) (Z.shiftl (byte_at buffer k') 8))
  = Z.lor (byte_at buffer k) (Z.shiftl (byte_at buffer k') 8).
Proof.
  unfold u16. apply Z.mod_small, le16_range; apply byte_at_range.
Qed.

(** ** [parseDPH] *)

Lemma parseDPH_length (buffer : list byte) : length (parseDPH buffer) = CELLS.
Proof.
  unfold parseDPH. rewrite fold_cell_length.
  - apply length_replicate.
  - intros a i. unfold dph_cell. destruct (_ <? _); [apply store_length|reflexivity].
Qed.

(** Cell [i] holds the little-endian pair at [2i] when both bytes exist,
    and 0 otherwise. *)
Lemma parseDPH_lookup (buffer : list byte) (i : nat) :
  (i < CELLS)%nat ->
  parseDPH buffer !! i
  = Some (if Z.of_nat i * 2 + 1 <? blen buffer
          then Z.lor (byte_at buffer (Z.of_nat i * 2))
                     (Z.shiftl (byte_at buffer (Z.of_nat i * 2 + 1)) 8)
          else 0).
Proof.
  intros Hi. unfold parseDPH, dph_cell. cbv zeta.
  set (n := CELLS) in *. clearbody n.
  pose proof (zfill_lookup (fun i => i * 2 + 1 <? blen buffer)
    (fun i => Z.lor (byte_at buffer (i * 2)) (Z.shiftl (byte_at buffer (i * 2 + 1)) 8))
    n (new_u16 n) i) as H.
  cbv beta in H. rewrite H by (unfold new_u16; rewrite length_replicate; lia). clear H.
  rewrite bool_decide_eq_true_2 by lia. cbn [andb].
  destruct (Z.of_nat i * 2 + 1 <? blen buffer).
  - now rewrite u16_le16.
  - unfold new_u16. now rewrite lookup_replicate_2.
Qed.

(** ** The grids of [parseSLK] *)

Lemma textures_length (buffer : list byte) (off : Z) : length (textures buffer off) = CELLS.
Proof.
  unfold textures. rewrite fold_cell_length.
  - apply length_replicate.
  - intros a i. unfold texture_cell. destruct (_ <=? _); [apply store_length|reflexivity].
Qed.

(** Cell [i] holds the little-endian pair that opens the 6-byte record
    [i] of the block at [off], and 0 when the record passes the end of
    the buffer. *)
Lemma textures_lookup (buffer : list byte) (off : Z) (i : nat) :
  (i < CELLS)%nat ->
  textures buffer off !! i
  = Some (if off + Z.of_nat i * 6 + 2 <=? blen buffer
          then Z.lor (byte_at buffer (off + Z.of_nat i * 6))
                     (Z.shiftl (byte_at buffer (off + Z.of_nat i * 6 + 1)) 8)
          else 0).
Proof.
  intros Hi. unfold textures, texture_cell. cbv zeta.
  set (n := CELLS) in *. clearbody n.
  pose proof (zfill_lookup (fun i => off + i * 6 + 2 <=? blen buffer)
    (fun i => Z.lor (byte_at buffer (off + i * 6))
                    (Z.shiftl (byte_at buffer (off + i * 6 + 1)) 8))
    n (new_u16 n) i) as H.
  cbv beta in H. rewrite H by (unfold new_u16; rewrite length_replicate; lia). clear H.
  rewrite bool_decide_eq_true_2 by lia. cbn [andb].
  destruct (off + Z.of_nat i * 6 + 2 <=? blen buffer).
  - now rewrite u16_le16.
  - unfold new_u16. now rewrite lookup_replicate_2.
Qed.

Lemma height_row_length (buffer : list byte) (l5 : Z) (a : list Z) (row : Z) :
  length (height_row buffer l5 a row) = length a.
Proof.
  unfold height_row. apply fold_cell_length.
  intros a' i. unfold height_cell. destruct (_ <? _); [apply store_length|reflexivity].
Qed.

Lemma layer5_length (buffer : list byte) (off : Z) : length (layer5 buffer off) = CELLS.
Proof.
  unfold layer5. rewrite fold_cell_length.
  - apply length_replicate.
  - intros a i. apply height_row_length.
Qed.

(** Two nested loops over a grid of width [w], row after row. *)
Lemma grid_lookup (c : nat -> nat -> bool) (v : nat -> nat -> Z) (w : nat) :
  (0 < w)%nat ->
  forall (nrows s : nat) (a : list Z) (j : nat),
    ((s + nrows) * w <= length a)%nat ->
    fold_left (fun a r =>
                 fold_left (fun a col => if c r col then <[(r * w + col)%nat := v r col]> a else a)
                           (seq 0 w) a)
              (seq s nrows) a !! j
    = if bool_decide (s * w <= j < (s + nrows) * w)%nat && c (Nat.div j w) (Nat.modulo j w)
      then Some (v (Nat.div j w) (Nat.modulo j w)) else a !! j.
Proof.
  intros Hw. induction nrows as [|n IH]; intros s a j Hlen.
  - simpl. rewrite bool_decide_eq_false_2 by lia. reflexivity.
  - cbn [seq fold_left].
    set (a1 := fold_left _ (seq 0 w) a).
    assert (Hrow : forall k, a1 !! k
              = if bool_decide (s * w + 0 <= k < s * w + 0 + w)%nat && c s (k - s * w)%nat
                then Some (v s (k - s * w)%nat) else a !! k).
    { intros k. unfold a1. apply (fill_lookup (c s) (v s) (s * w) w 0 a k). nia. }
    assert (Hlen1 : length a1 = length a).
    { unfold a1. apply fold_cell_length. intros a' i.
      destruct (c s i); [apply length_insert|reflexivity]. }
    rewrite IH by (rewrite Hlen1; nia).
    rewrite Hrow.
    destruct (decide (s * w <= j < s * w + w)%nat) as [Hin|Hout].
    + assert (Hd : Nat.div j w = s).
      { symmetry. apply (Nat.div_unique j w s (j - s * w)); lia. }
      assert (Hm : Nat.modulo j w = (j - s * w)%nat).
      { symmetry. apply (Nat.mod_unique j w s (j - s * w)); lia. }
      rewrite (bool_decide_eq_false_2 (S s * w <= j < (S s + n) * w)%nat) by nia.
      rewrite (bool_decide_eq_true_2 (s * w + 0 <= j < s * w + 0 + w)%nat) by lia.
      rewrite (bool_decide_eq_true_2 (s * w <= j < (s + S n) * w)%nat) by nia.
      rewrite Hd, Hm. reflexivity.
    + rewrite (bool_decide_eq_false_2 (s * w + 0 <= j < s * w + 0 + w)%nat) by lia.
      simpl andb at 2.
      destruct (decide (S s * w <= j < (S s + n) * w)%nat) as [Hin'|Hout'].
      * rewrite (bool_decide_eq_true_2 (S s * w <= j < (S s + n) * w)%nat) by exact Hin'.
        rewrite (bool_decide_eq_true_2 (s * w <= j < (s + S n) * w)%nat) by nia.
        destruct (c _ _); reflexivity.
      * rewrite (bool_decide_eq_false_2 (S s * w <= j < (S s + n) * w)%nat) by exact Hout'.
        rewrite (bool_decide_eq_false_2 (s * w <= j < (s + S n) * w)%nat) by nia.
        reflexivity.
Qed.

Lemma zgrid_lookup (c : Z -> Z -> bool) (v : Z -> Z -> Z) (w : nat) (wz : Z) :
  (0 < w)%nat -> wz = Z.of_nat w ->
  forall (nrows : nat) (a : list Z) (j : nat),
    (nrows * w <= length a)%nat ->
    fold_left (fun a r =>
                 fold_left (fun a col => if c r col then store a (r * wz + col) (v r col) else a)
                           (zrange 0 w) a)
              (zrange 0 nrows) a !! j
    = if bool_decide (j < nrows * w)%nat
         && c (Z.of_nat (Nat.div j w)) (Z.of_nat (Nat.modulo j w))
      then Some (u16 (v (Z.of_nat (Nat.div j w)) (Z.of_nat (Nat.modulo j w))))
      else a !! j.
Proof.
  intros Hw -> nrows a j Hlen.
  change (zrange 0 nrows) with (zrange (Z.of_nat 0) nrows). rewrite fold_zrange.
  rewrite (fold_left_ext _
    (fun a r =>
       fold_left (fun a col =>
                    if c (Z.of_nat r) (Z.of_nat col)
                    then <[(r * w + col)%nat := u16 (v (Z.of_nat r) (Z.of_nat col))]> a
                    else a)
                 (seq 0 w) a)).
  2:{ intros a' r. change (zrange 0 w) with (zrange (Z.of_nat 0) w). rewrite fold_zrange.
      apply fold_left_ext. intros a'' col. rewrite store_insert by lia.
      replace (Z.to_nat (Z.of_nat r * Z.of_nat w + Z.of_nat col)) with (r * w + col)%nat by lia.
      reflexivity. }
  rewrite (grid_lookup (fun r col => c (Z.of_nat r) (Z.of_nat col))
             (fun r col => u16 (v (Z.of_nat r) (Z.of_nat col))) w Hw nrows 0 a j)
    by (cbn [Nat.add]; exact Hlen).
  destruct (decide (j < nrows * w)%nat) as [Hj|Hj].
  - rewrite !bool_decide_eq_true_2 by lia. reflexivity.
  - rewrite !bool_decide_eq_false_2 by lia. reflexivity.
Qed.

(** Cell [(row, col)] holds the byte of layer 5 at stride 257, and 0 when
    that byte lies past the end of the buffer. *)
Lemma layer5_lookup (buffer : list byte) (off : Z) (row col : nat) :
  (row < 256)%nat -> (col < 256)%nat ->
  layer5 buffer off !! (row * 256 + col)%nat
  = Some (let srcIdx := off + 5 * 65536 + Z.of_nat row * 257 + Z.of_nat col in
          if srcIdx <? blen buffer then byte_at buffer srcIdx else 0).
Proof.
  intros Hr Hc. unfold layer5, height_row, height_cell, LAYER5_WIDTH. cbv zeta.
  set (l5 := off + 5 * 65536).
  pose proof (zgrid_lookup
    (fun r c => l5 + r * 257 + c <? blen buffer)
    (fun r c => byte_at buffer (l5 + r * 257 + c))
    256 256 ltac:(lia) eq_refl 256 (new_u16 CELLS) (row * 256 + col)%nat) as H.
  cbv beta in H. rewrite H; clear H.
  2:{ unfold new_u16. rewrite length_replicate. unfold CELLS. lia. }
  assert (Hd : Nat.div (row * 256 + col) 256 = row).
  { symmetry. apply (Nat.div_unique _ 256 row col); lia. }
  assert (Hm : Nat.modulo (row * 256 + col) 256 = col).
  { symmetry. apply (Nat.mod_unique _ 256 row col); lia. }
  rewrite Hd, Hm.
  rewrite bool_decide_eq_true_2 by lia. cbn [andb].
  destruct (l5 + Z.of_nat row * 257 + Z.of_nat col <? blen buffer).
  - now rewrite u16_byte.
  - unfold new_u16. rewrite lookup_replicate_2; [reflexivity|unfold CELLS; lia].
Qed.

(** ** Strings: basic facts *)

Lemma str_eqb_eq (a b : jsstring) : str_eqb a b = true <-> a = b.
Proof.
  revert b. induction a as [|x a IH]; intros [|y b]; simpl; split; intros H;
    try reflexivity; try discriminate.
  - apply andb_true_iff in H as [Hx Hr]. apply Z.eqb_eq in Hx. apply IH in Hr. congruence.
  - inversion H; subst. rewrite Z.eqb_refl. simpl. now apply IH.
Qed.

Lemma str_eqb_refl (a : jsstring) : str_eqb a a = true.
Proof. now apply str_eqb_eq. Qed.

Lemma split_on_nonempty (c : Z) (s : jsstring) : split_on c s <> [].
Proof.
  destruct s as [|x r]; simpl; [discriminate|].
  destruct (x =? c); [discriminate|]. destruct (split_on c r); discriminate.
Qed.

(** ** The dimension line is absent *)

Lemma find_dim_none (ls : list jsstring) :
  Forall (fun l => ~ dim_shaped l) ls -> find_dim ls = None.
Proof.
  induction 1 as [|l ls Hl _ IH]; simpl; [reflexivity|].
  destruct (split_ws (trim l)) as [|a [|b [|c [|d r]]]] eqn:E; try exact IH.
  destruct (str_eqb a (lit "256")) eqn:Ea; [|exact IH].
  destruct (str_eqb b (lit "256")) eqn:Eb; [|exact IH].
  apply str_eqb_eq in Ea, Eb. subst. exfalso. apply Hl. exists c. exact E.
Qed.

Lemma new_u16_zero (n : nat) : Forall (fun v => v = 0) (new_u16 n).
Proof. unfold new_u16. apply Forall_forall. intros v Hv. apply elem_of_replicate in Hv. tauto. Qed.

(** C2. When no line of the header text has exactly three
    whitespace-separated tokens of which the first two are [256],
    [parseSLK] returns its default result: texture indices and heights all
    zero, no objects and no citadels. *)
Theorem parseSLK_without_dimension_line (buffer : list byte) :
  Forall (fun l => ~ dim_shaped l) (lines (headerText buffer)) ->
  Forall (fun v => v = 0) (textureIndices (parseSLK buffer))
  /\ Forall (fun v => v = 0) (heights (parseSLK buffer))
  /\ length (textureIndices (parseSLK buffer)) = CELLS
  /\ length (heights (parseSLK buffer)) = CELLS
  /\ objects (parseSLK buffer) = []
  /\ citadels (parseSLK buffer) = [].
Proof.
  intros H. unfold parseSLK, locate. rewrite (find_dim_none _ H).
  cbn [textureIndices heights objects citadels].
  repeat (apply conj); try apply new_u16_zero; try apply length_replicate; reflexivity.
Qed.

Lemma parseSLK_without_dimension_line_witness :
  let buffer := bytes_of "models\tank.sdf 4
256 256
slots 1
1 2 3
" in
  Forall (fun v => v = 0) (textureIndices (parseSLK buffer))
  /\ Forall (fun v => v = 0) (heights (parseSLK buffer))
  /\ length (textureIndices (parseSLK buffer)) = CELLS
  /\ length (heights (parseSLK buffer)) = CELLS
  /\ objects (parseSLK buffer) = []
  /\ citadels (parseSLK buffer) = [].
Proof.
  intros buffer. apply (parseSLK_without_dimension_line buffer).
  assert (E : lines (headerText buffer)
              = [lit "models\tank.sdf 4"; lit "256 256"; lit "slots 1"; lit "1 2 3"; []])
    by (vm_compute; reflexivity).
  rewrite E.
  repeat constructor; intros [c Hc]; vm_compute in Hc; discriminate.
Defined.

(** ** Heights are bytes *)

Lemma layer5_bytes (buffer : list byte) (off : Z) :
  Forall (fun h => 0 <= h <= 255) (layer5 buffer off).
Proof.
  unfold layer5. apply fold_cell_Forall.
  - intros a row Ha. unfold height_row. apply fold_cell_Forall; [|exact Ha].
    intros a' col Ha'. unfold height_cell. destruct (_ <? _); [|exact Ha'].
    unfold store. destruct (_ <? 0); [exact Ha'|].
    apply Forall_insert_Z; [exact Ha'|]. rewrite u16_byte. apply byte_at_range.
  - eapply Forall_impl; [apply new_u16_zero|]. cbv beta. intros; lia.
Qed.

(** C10. Every cell of the heights array of [parseSLK] is a single byte,
    at most 255, while [parseDPH] builds 16-bit values: cell 0 of the two
    bytes 0x00 0x01 is 256. *)
Theorem parseSLK_heights_at_most_255 (buffer : list byte) :
  Forall (fun h => 0 <= h <= 255) (heights (parseSLK buffer))
  /\ parseDPH [x00; x01]%byte !! 0%nat = Some 256.
Proof.
  split.
  - unfold parseSLK. destruct (locate _) as [off|]; cbn [heights].
    + destruct (_ <? _); cbn [heights]; apply layer5_bytes.
    + eapply Forall_impl; [apply new_u16_zero|]. cbv beta. intros; lia.
  - rewrite parseDPH_lookup by (unfold CELLS; lia). reflexivity.
Qed.

(** ** Totality and the size of the grids *)

Lemma lfl_step_some (m : gmap jsstring jsstring) (line : jsstring) :
  is_Some (lfl_step (Some m) line).
Proof.
  unfold lfl_step. destruct (_ || _); [eauto|].
  destruct (split_on 58 line) as [|key values] eqn:E; [|eauto].
  now apply split_on_nonempty in E.
Qed.

Lemma parseLFL_total (content : jsstring) : is_Some (parseLFL content).
Proof.
  unfold parseLFL. generalize (∅ : gmap jsstring jsstring) as m.
  induction (split_on NL content) as [|l ls IH]; intros m; cbn [fold_left]; [eauto|].
  destruct (lfl_step_some m l) as [m' ->]. apply IH.
Qed.

Lemma parseSLK_textureIndices (buffer : list byte) :
  textureIndices (parseSLK buffer)
  = match locate (headerText buffer) with
    | Some off => textures buffer off
    | None => new_u16 CELLS
    end.
Proof.
  unfold parseSLK. destruct (locate _) as [off|]; [|reflexivity].
  destruct (_ <? _); reflexivity.
Qed.

Lemma parseSLK_heights (buffer : list byte) :
  heights (parseSLK buffer)
  = match locate (headerText buffer) with
    | Some off => layer5 buffer off
    | None => new_u16 CELLS
    end.
Proof.
  unfold parseSLK. destruct (locate _) as [off|]; [|reflexivity].
  destruct (_ <? _); reflexivity.
Qed.

Lemma parseSLK_lengths (buffer : list byte) :
  length (textureIndices (parseSLK buffer)) = CELLS
  /\ length (heights (parseSLK buffer)) = CELLS.
Proof.
  rewrite parseSLK_textureIndices, parseSLK_heights.
  destruct (locate _) as [off|].
  - split; [apply textures_length|apply layer5_length].
  - unfold new_u16. split; apply length_replicate.
Qed.

Lemma CELLS_val : Z.of_nat CELLS = 65536.
Proof. unfold CELLS. rewrite Nat2Z.inj_mul. reflexivity. Qed.

(** C3. The decoders return for every input.  [parseCAM], [parseSLK] and
    [parseDPH] have no operation that can throw and are total functions;
    [parseLFL] never reaches the [TypeError] of its destructuring.  The
    grids of [parseSLK] and [parseDPH] have 65536 cells, and a cell that
    the input bytes do not reach is 0. *)
Theorem decoders_total_grids_zero_filled
    (content : jsstring) (buffer : list byte) (i row col : nat) :
  (i < CELLS)%nat -> (row < 256)%nat -> (col < 256)%nat ->
  is_Some (parseLFL content)
  /\ (exists cam, parseCAM content = cam)
  /\ (exists slk, parseSLK buffer = slk)
  /\ Z.of_nat (length (textureIndices (parseSLK buffer))) = 65536
  /\ Z.of_nat (length (heights (parseSLK buffer))) = 65536
  /\ Z.of_nat (length (parseDPH buffer)) = 65536
  /\ (~ dph_covered buffer i -> parseDPH buffer !! i = Some 0)
  /\ (~ texture_covered buffer i -> textureIndices (parseSLK buffer) !! i = Some 0)
  /\ (~ height_covered buffer row col ->
      heights (parseSLK buffer) !! (row * 256 + col)%nat = Some 0).
Proof.
  intros Hi Hr Hc.
  destruct (parseSLK_lengths buffer) as [Lt Lh].
  repeat (apply conj).
  - apply parseLFL_total.
  - eauto.
  - eauto.
  - rewrite Lt. apply CELLS_val.
  - rewrite Lh. apply CELLS_val.
  - rewrite parseDPH_length. apply CELLS_val.
  - intros Hn. rewrite parseDPH_lookup by exact Hi.
    unfold dph_covered in Hn. destruct (Z.ltb_spec (Z.of_nat i * 2 + 1) (blen buffer)); [lia|reflexivity].
  - intros Hn. unfold texture_covered in Hn. rewrite parseSLK_textureIndices.
    destruct (locate (headerText buffer)) as [off|].
    + rewrite textures_lookup by exact Hi.
      destruct (Z.leb_spec (off + Z.of_nat i * 6 + 2) (blen buffer)); [|reflexivity].
      exfalso. apply Hn. eauto.
    + unfold new_u16. now rewrite lookup_replicate_2.
  - intros Hn. unfold height_covered in Hn. rewrite parseSLK_heights.
    destruct (locate (headerText buffer)) as [off|].
    + rewrite layer5_lookup by assumption. cbv zeta.
      destruct (Z.ltb_spec (off + 5 * 65536 + Z.of_nat row * 257 + Z.of_nat col) (blen buffer));
        [|reflexivity].
      exfalso. apply Hn. eauto.
    + unfold new_u16. rewrite lookup_replicate_2; [reflexivity|unfold CELLS; lia].
Qed.

Lemma decoders_total_grids_zero_filled_witness :
  let buffer := [x07; x01; x09]%byte in
  ~ dph_covered buffer 1 /\ ~ texture_covered buffer 0 /\ ~ height_covered buffer 0 0
  /\ is_Some (parseLFL [])
  /\ parseDPH buffer !! 1%nat = Some 0
  /\ textureIndices (parseSLK buffer) !! 0%nat = Some 0
  /\ heights (parseSLK buffer) !! 0%nat = Some 0.
Proof.
  intros buffer.
  assert (Hi : (1 < CELLS)%nat) by (unfold CELLS; lia).
  assert (Hi0 : (0 < CELLS)%nat) by (unfold CELLS; lia).
  assert (H0 : (0 < 256)%nat) by lia.
  assert (Hd : ~ dph_covered buffer 1) by (unfold dph_covered, blen, buffer; simpl; lia).
  assert (Hl : locate (headerText buffer) = None) by (vm_compute; reflexivity).
  assert (Ht : ~ texture_covered buffer 0).
  { intros [off [Ho _]]. rewrite Hl in Ho. discriminate. }
  assert (Hh : ~ height_covered buffer 0 0).
  { intros [off [Ho _]]. rewrite Hl in Ho. discriminate. }
  pose proof (decoders_total_grids_zero_filled [] buffer 1 0 0 Hi H0 H0) as T1.
  pose proof (decoders_total_grids_zero_filled [] buffer 0 0 0 Hi0 H0 H0) as T0.
  destruct T1 as (L & _ & _ & _ & _ & _ & D & _ & _).
  destruct T0 as (_ & _ & _ & _ & _ & _ & _ & T & H).
  exact (conj Hd (conj Ht (conj Hh (conj L (conj (D Hd) (conj (T Ht) (H Hh))))))).
Defined.

(** ** The footer of [parseSLK] *)

(** C1, as stated, fails: a line that is only [citadel] does not start
    with [citadel ] once trimmed, the parser stays outside any block and
    the footer yields no citadel and no object. *)
Lemma bare_citadel_line_opens_no_block :
  let st := parseFooter ∅ (bytes_of "citadel
base 5 5 0
upgrades 1
1 1 0 9
") in
  f_citadels st = [] /\ f_objects st = [] /\ ~ one_citadel_one_upgrade st.
Proof.
  intros st.
  assert (Ec : f_citadels st = []) by (vm_compute; reflexivity).
  assert (Eo : f_objects st = []) by (vm_compute; reflexivity).
  split; [exact Ec|]. split; [exact Eo|].
  intros [Hc _]. rewrite Ec in Hc. discriminate.
Qed.

Lemma citadel_footer_result (tbl : gmap Z jsstring) :
  f_citadels (parseFooter tbl citadel_footer) = [citadel_base_5_5]
  /\ f_objects (parseFooter tbl citadel_footer) = [citadel_upgrade_1_1].
Proof. split; vm_compute; reflexivity. Qed.

(** ** Counted sections and unparsable tokens *)

Lemma leave_if_done_skipped (st : footer_state) (m : mode) : line_skipped st (leave_if_done st m).
Proof. unfold leave_if_done, line_skipped. destruct (ile0 _); simpl; auto. Qed.

(** C4, as stated, fails: only the x token is tested.  In a slots section
    with two records left, the line [10 20 abc] (rotation unparsable)
    gives a slot with rotation 0, and the line [10 abc 0] (z unparsable)
    gives a slot whose z is NaN; in an objects section the lines
    [abc 8 1 2 3 4] (id unparsable) and [33 8 1 2 abc 4] (y unparsable)
    give an object each.  Every one of these lines has the shape of a
    record and a numeric token that does not parse, and is emitted and
    counted: the count goes from 2 to 1. *)
Lemma unparsable_tokens_still_emit :
  let slots := mkFooter M_SLOTS (IInt 2) None [] [] in
  let objs := mkFooter M_OBJECTS (IInt 2) None [] [] in
  ((shape M_SLOTS <= length (split_ws (trim (lit "10 20 abc"))))%nat
   /\ In (Some (lit "abc")) (numeric_tokens M_SLOTS (split_ws (trim (lit "10 20 abc"))))
   /\ parseFloat (Some (lit "abc")) = FNaN
   /\ f_objects (footer_step ∅ slots (lit "10 20 abc"))
      = [mkObj (lit "SLOT") (FDec false 10 0) fzero (FDec false 20 0) (Some fzero) None]
   /\ f_count (footer_step ∅ slots (lit "10 20 abc")) = IInt 1
   /\ ~ line_skipped slots (footer_step ∅ slots (lit "10 20 abc")))
  /\ ((shape M_SLOTS <= length (split_ws (trim (lit "10 abc 0"))))%nat
      /\ In (Some (lit "abc")) (numeric_tokens M_SLOTS (split_ws (trim (lit "10 abc 0"))))
      /\ f_objects (footer_step ∅ slots (lit "10 abc 0"))
         = [mkObj (lit "SLOT") (FDec false 10 0) fzero FNaN (Some fzero) None]
      /\ f_count (footer_step ∅ slots (lit "10 abc 0")) = IInt 1
      /\ ~ line_skipped slots (footer_step ∅ slots (lit "10 abc 0")))
  /\ ((shape M_OBJECTS <= length (split_ws (trim (lit "abc 8 1 2 3 4"))))%nat
      /\ In (Some (lit "abc")) (numeric_tokens M_OBJECTS (split_ws (trim (lit "abc 8 1 2 3 4"))))
      /\ parseInt (Some (lit "abc")) = INaN
      /\ f_objects (footer_step ∅ objs (lit "abc 8 1 2 3 4"))
         = [mkObj (lit "OBJ_NaN") (FDec false 1 0) (FDec false 3 0) (FDec false 2 0)
                  (Some (FDec false 4 0)) (Some (lit "Unknown_NaN"))]
      /\ f_count (footer_step ∅ objs (lit "abc 8 1 2 3 4")) = IInt 1
      /\ ~ line_skipped objs (footer_step ∅ objs (lit "abc 8 1 2 3 4")))
  /\ ((shape M_OBJECTS <= length (split_ws (trim (lit "33 8 1 2 abc 4"))))%nat
      /\ In (Some (lit "abc")) (numeric_tokens M_OBJECTS (split_ws (trim (lit "33 8 1 2 abc 4"))))
      /\ f_objects (footer_step ∅ objs (lit "33 8 1 2 abc 4"))
         = [mkObj (lit "OBJ_33") (FDec false 1 0) FNaN (FDec false 2 0)
                  (Some (FDec false 4 0)) (Some (lit "Unknown_33"))]
      /\ f_count (footer_step ∅ objs (lit "33 8 1 2 abc 4")) = IInt 1
      /\ ~ line_skipped objs (footer_step ∅ objs (lit "33 8 1 2 abc 4"))).
Proof.
  cbv zeta.
  repeat (apply conj);
    try (vm_compute; reflexivity);
    try (vm_compute; lia);
    try (vm_compute; tauto);
    try (intros [H _]; vm_compute in H; discriminate).
Qed.

(** C4, amended: in a counted section a line whose x-coordinate token
    (the first token of a slot or upgrade line, the third of an object
    line) does not parse emits no record and leaves the count as it was.
    Nothing is said of a line whose x parses and another token does
    not. *)
Theorem unparsable_x_skips_line
    (tbl : gmap Z jsstring) (st : footer_state) (raw : jsstring) :
  counted (f_mode st) = true ->
  isNaN (parseFloat (x_token (f_mode st) (split_ws (trim raw)))) = true ->
  line_skipped st (footer_step tbl st raw).
Proof.
  intros Hm Hx. unfold footer_step.
  destruct (is_empty (trim raw) || startsWith (lit "#") (trim raw)).
  { unfold line_skipped; auto. }
  destruct (f_mode st) eqn:Em; try discriminate; cbn [x_token] in Hx.
  - destruct (2 <=? length _)%nat; [|apply leave_if_done_skipped].
    cbn [x slot_object]. rewrite Hx. apply leave_if_done_skipped.
  - destruct (3 <=? length _)%nat; [|apply leave_if_done_skipped].
    cbn [x upgrade_object]. rewrite Hx.
    destruct (currentCitadel st); apply leave_if_done_skipped.
  - destruct (6 <=? length _)%nat; [|apply leave_if_done_skipped].
    cbn [x placed_object]. rewrite Hx. apply leave_if_done_skipped.
Qed.

Lemma unparsable_x_skips_line_witness :
  let st := mkFooter M_OBJECTS (IInt 2) None [] [] in
  line_skipped st (footer_step ∅ st (lit "33 8 east 12 4 90")).
Proof.
  intros st.
  apply (unparsable_x_skips_line ∅ st (lit "33 8 east 12 4 90")); vm_compute; reflexivity.
Defined.

(** ** [parseCAM]: the line-count header *)

(** C5 does not hold of the code: the test for the header is that the
    section's text is still empty, so every numeric line is dropped until
    a line is kept.  Here both [3] and [4] are dropped, not [3] alone. *)
Theorem parseCAM_drops_every_leading_number :
  objective (parseCAM (lit "OBJECTIVE_BEGIN
3
4
text
OBJECTIVE_END
")) = lit "text
".
Proof. vm_compute. reflexivity. Qed.

(** ** Strings: [trim] and [split] *)

Lemma trim_start_app_last (l : jsstring) (c : Z) :
  trim_start (l ++ [c])
  = match trim_start l with
    | [] => if is_ws c then [] else [c]
    | t => t ++ [c]
    end.
Proof.
  induction l as [|x l IH]; simpl; [reflexivity|].
  destruct (is_ws x); [exact IH|reflexivity].
Qed.

(** [trim_end] by recursion from the front. *)
Lemma trim_end_cons (c : Z) (r : jsstring) :
  trim_end (c :: r)
  = match trim_end r with
    | [] => if is_ws c then [] else [c]
    | t => c :: t
    end.
Proof.
  unfold trim_end. simpl rev. rewrite trim_start_app_last.
  destruct (trim_start (rev r)) as [|y t] eqn:E.
  - simpl. destruct (is_ws c); reflexivity.
  - rewrite rev_app_distr. simpl.
    destruct (rev t ++ [y]) eqn:E'; [|reflexivity].
    now destruct (rev t).
Qed.

Lemma trim_end_nil : trim_end [] = [].
Proof. reflexivity. Qed.

Lemma trim_end_idem (s : jsstring) : trim_end (trim_end s) = trim_end s.
Proof.
  induction s as [|c r IH]; [reflexivity|].
  rewrite trim_end_cons. destruct (trim_end r) as [|y t] eqn:E.
  - destruct (is_ws c) eqn:Ec; [reflexivity|].
    rewrite trim_end_cons, trim_end_nil, Ec. reflexivity.
  - rewrite trim_end_cons, IH. reflexivity.
Qed.

Lemma trim_start_head (s : jsstring) :
  match trim_start s with [] => True | c :: _ => is_ws c = false end.
Proof.
  induction s as [|c r IH]; simpl; [exact I|].
  destruct (is_ws c) eqn:E; [exact IH|exact E].
Qed.

Lemma trim_start_fix (s : jsstring) :
  match s with [] => True | c :: _ => is_ws c = false end -> trim_start s = s.
Proof. destruct s as [|c r]; simpl; [reflexivity|]. now intros ->. Qed.

Lemma trim_end_head (s : jsstring) :
  match s with [] => True | c :: _ => is_ws c = false end ->
  match trim_end s with [] => True | c :: _ => is_ws c = false end.
Proof.
  destruct s as [|c r]; [intros _; exact I|]. intros Hc.
  rewrite trim_end_cons. destruct (trim_end r); [rewrite Hc|]; exact Hc.
Qed.

Lemma trim_idem (s : jsstring) : trim (trim s) = trim s.
Proof.
  unfold trim at 1. fold (trim s).
  rewrite (trim_start_fix (trim s)).
  - unfold trim. apply trim_end_idem.
  - unfold trim. apply trim_end_head, trim_start_head.
Qed.

Lemma trim_start_In (x : Z) (s : jsstring) : In x (trim_start s) -> In x s.
Proof.
  induction s as [|c r IH]; simpl; [tauto|].
  destruct (is_ws c); simpl; tauto.
Qed.

Lemma trim_In (x : Z) (s : jsstring) : In x (trim s) -> In x s.
Proof.
  unfold trim, trim_end. intros H.
  apply trim_start_In. apply in_rev. apply trim_start_In. apply in_rev in H. exact H.
Qed.

Lemma split_on_none (c : Z) (s : jsstring) : ~ In c s -> split_on c s = [s].
Proof.
  induction s as [|x r IH]; intros H; simpl; [reflexivity|].
  destruct (Z.eqb_spec x c) as [->|Hne]; [exfalso; apply H; now left|].
  rewrite IH; [reflexivity|]. intros Hin. apply H. now right.
Qed.

Lemma split_on_app_sep (c : Z) (l rest : jsstring) :
  ~ In c l -> split_on c (l ++ c :: rest) = l :: split_on c rest.
Proof.
  induction l as [|x l IH]; intros H; simpl.
  - now rewrite Z.eqb_refl.
  - destruct (Z.eqb_spec x c) as [->|Hne]; [exfalso; apply H; now left|].
    rewrite IH; [reflexivity|]. intros Hin. apply H. now right.
Qed.

(** Every piece of a split is free of the separator and made of
    characters of the string. *)
Lemma split_on_pieces (c : Z) (s : jsstring) :
  Forall (fun l => ~ In c l /\ forall x, In x l -> In x s) (split_on c s).
Proof.
  induction s as [|x r IH]; simpl.
  - constructor; [|constructor]. split; [tauto|tauto].
  - destruct (Z.eqb_spec x c) as [->|Hne].
    + constructor; [split; simpl; tauto|].
      eapply Forall_impl; [exact IH|]. simpl. intros l [H1 H2]. split; [exact H1|].
      intros y Hy. right. now apply H2.
    + destruct (split_on c r) as [|l ls] eqn:E; [now apply split_on_nonempty in E|].
      inversion IH as [|? ? [H1 H2] Hls]; subst. constructor.
      * split.
        -- intros [Hx|Hin]; [congruence|tauto].
        -- intros y [->|Hy]; [now left|right; now apply H2].
      * eapply Forall_impl; [exact Hls|]. simpl. intros l' [H1' H2']. split; [exact H1'|].
        intros y Hy. right. now apply H2'.
Qed.

Lemma flat_app (ks : list jsstring) (l : jsstring) : flat (ks ++ [l]) = flat ks ++ (l ++ [NL]).
Proof. unfold flat. rewrite List.map_app, concat_app. simpl. now rewrite app_nil_r. Qed.

Lemma flat_empty (ks : list jsstring) : is_empty (flat ks) = true -> ks = [].
Proof.
  destruct ks as [|l ks]; [reflexivity|]. unfold flat. simpl.
  destruct l; simpl; discriminate.
Qed.

Lemma split_on_flat (ks : list jsstring) (rest : jsstring) :
  Forall (fun l => ~ In NL l) ks ->
  split_on NL (flat ks ++ rest) = ks ++ split_on NL rest.
Proof.
  induction 1 as [|l ks Hl _ IH]; [reflexivity|].
  unfold flat. simpl. rewrite <- !app_assoc. simpl.
  rewrite split_on_app_sep by exact Hl. f_equal. exact IH.
Qed.

(** ** [parseCAM]: what a field can hold *)

Lemma is_marker_spec (t : jsstring) : is_marker t = true <-> In t markers.
Proof.
  unfold is_marker. rewrite existsb_exists. split.
  - intros [m [Hm He]]. apply str_eqb_eq in He. now subst.
  - intros H. exists t. split; [exact H|apply str_eqb_refl].
Qed.

Lemma cam_step_content (sec : section) (data : CamData) (line : jsstring) :
  is_marker (trim line) = false ->
  cam_step (sec, data) line = in_section sec data line.
Proof.
  intros H. unfold is_marker, markers in H. cbn [existsb] in H.
  repeat (apply orb_false_iff in H; destruct H as [? H]).
  unfold cam_step. cbv zeta.
  repeat match goal with E : str_eqb _ _ = false |- _ => rewrite E; clear E end.
  destruct sec; reflexivity.
Qed.

Lemma cam_step_marker (sec : section) (data : CamData) (line : jsstring) :
  is_marker (trim line) = true -> snd (cam_step (sec, data) line) = data.
Proof.
  intros H. unfold is_marker, markers in H. cbn [existsb] in H.
  unfold cam_step. cbv zeta.
  repeat (destruct (str_eqb (trim line) _); [reflexivity|]).
  discriminate H.
Qed.

Lemma replace_all_In (c : Z) (t s : jsstring) (x : Z) :
  In x (replace_all c t s) -> (In x s /\ x <> c) \/ In x t.
Proof.
  unfold replace_all. rewrite in_flat_map. intros [y [Hy Hx]].
  destruct (Z.eqb_spec y c) as [->|Hne]; [now right|].
  destruct Hx as [->|[]]. left. tauto.
Qed.

Lemma replace_all_id (c : Z) (t s : jsstring) : ~ In c s -> replace_all c t s = s.
Proof.
  induction s as [|x r IH]; intros H; simpl; [reflexivity|].
  destruct (Z.eqb_spec x c) as [->|Hne]; [exfalso; apply H; now left|].
  simpl. f_equal. apply IH. intros Hin. apply H. now right.
Qed.

Lemma cam_lines_clean (content : jsstring) : Forall clean (cam_lines content).
Proof.
  unfold cam_lines. eapply Forall_impl; [apply split_on_pieces|].
  cbv beta. intros l [Hnl Hsub]. split; [exact Hnl|]. split.
  - intros Hin. apply Hsub in Hin. apply replace_all_In in Hin as [[_ Hne]|[]]. now apply Hne.
  - intros Hin. apply Hsub in Hin. apply replace_all_In in Hin as [[Hin _]|[]].
    apply replace_all_In in Hin as [[_ Hne]|Hq]; [now apply Hne|].
    vm_compute in Hq. destruct Hq as [Hq|[]]. discriminate Hq.
Qed.

Lemma field_ok_nil (pi4 : bool) : field_ok pi4 [].
Proof. exists []. split; [reflexivity|]. split; [constructor|]. split; [exact I|]. intros _. constructor. Qed.

Lemma field_ok_add (pi4 : bool) (c line : jsstring) :
  field_ok pi4 c -> content_line line ->
  is_empty c && all_digits (trim line) = false ->
  (pi4 = true -> not_pi4 line) ->
  field_ok pi4 (c ++ (line ++ [NL])).
Proof.
  intros [ks (-> & Hk & Hh & Hp)] Hl Hd Hpi.
  exists (ks ++ [line]). split; [now rewrite flat_app|]. split; [|split].
  - apply Forall_app. split; [exact Hk|]. constructor; [exact Hl|constructor].
  - destruct ks as [|k ks]; [|exact Hh]. simpl in *. exact Hd.
  - intros E. apply Forall_app. split; [now apply Hp|].
    constructor; [now apply Hpi|constructor].
Qed.

Lemma clean_trim (l : jsstring) : clean l -> clean (trim l).
Proof.
  intros (H1 & H2 & H3). repeat split; intros H; apply trim_In in H; tauto.
Qed.

Lemma cam_step_inv (sec : section) (d : CamData) (line : jsstring) :
  clean line -> cam_inv d -> cam_inv (snd (cam_step (sec, d) line)).
Proof.
  intros Hc Hd. destruct (is_marker (trim line)) eqn:Em.
  { now rewrite cam_step_marker. }
  rewrite cam_step_content by exact Em.
  destruct Hd as (Ho & Hs & Hde & Hr).
  assert (Hcl : content_line line) by (split; assumption).
  destruct sec; cbn [in_section].
  - exact (conj Ho (conj Hs (conj Hde Hr))).
  - destruct (is_empty (trim line)) eqn:Ee; cbn [negb snd];
      [exact (conj Ho (conj Hs (conj Hde Hr)))|].
    refine (conj Ho (conj Hs (conj Hde _))). cbn [ranking set_ranking ranking_ok].
    split; [apply clean_trim, Hc|]. split; [exact Em|]. split; [apply trim_idem|].
    intros E. rewrite E in Ee. discriminate.
  - destruct (_ && _) eqn:E; cbn [snd]; [exact (conj Ho (conj Hs (conj Hde Hr)))|].
    refine (conj _ (conj Hs (conj Hde Hr))). cbn [objective add_objective].
    apply field_ok_add; auto. discriminate.
  - destruct (_ && _) eqn:E; cbn [snd]; [exact (conj Ho (conj Hs (conj Hde Hr)))|].
    destruct (startsWith _ _) eqn:Ep; cbn [snd]; [exact (conj Ho (conj Hs (conj Hde Hr)))|].
    refine (conj Ho (conj _ (conj Hde Hr))). cbn [spyInfo add_spyInfo].
    apply field_ok_add; auto.
  - destruct (_ && _) eqn:E; cbn [snd]; [exact (conj Ho (conj Hs (conj Hde Hr)))|].
    refine (conj Ho (conj Hs (conj _ Hr))). cbn [description add_description].
    apply field_ok_add; auto. discriminate.
Qed.

Lemma cam_fold_inv (ls : list jsstring) (sec : section) (d : CamData) :
  Forall clean ls -> cam_inv d -> cam_inv (snd (fold_left cam_step ls (sec, d))).
Proof.
  revert sec d. induction ls as [|l ls IH]; intros sec d Hls Hd; [exact Hd|].
  inversion Hls; subst. cbn [fold_left].
  destruct (cam_step (sec, d) l) as [sec' d'] eqn:E.
  apply IH; [assumption|].
  replace d' with (snd (cam_step (sec, d) l)) by now rewrite E.
  now apply cam_step_inv.
Qed.

Lemma parseCAM_inv (content : jsstring) : cam_inv (parseCAM content).
Proof.
  unfold parseCAM. apply cam_fold_inv; [apply cam_lines_clean|].
  exact (conj (field_ok_nil false) (conj (field_ok_nil true) (conj (field_ok_nil false) I))).
Qed.

Lemma field_ok_marker_free (pi4 : bool) (c : jsstring) : field_ok pi4 c -> marker_free c.
Proof.
  intros [ks (-> & Hk & _)]. unfold marker_free, lines.
  rewrite <- (app_nil_r (flat ks)). rewrite split_on_flat.
  - apply Forall_app. split.
    + eapply Forall_impl; [exact Hk|]. cbv beta. intros l [_ Hm] Hin.
      apply is_marker_spec in Hin. congruence.
    + constructor; [|constructor]. intros Hin. apply is_marker_spec in Hin.
      vm_compute in Hin. discriminate.
  - eapply Forall_impl; [exact Hk|]. cbv beta. intros l [[H _] _]. exact H.
Qed.

(** C9. No line of a field of the record that [parseCAM] returns is, once
    trimmed, one of the seven section markers. *)
Theorem parseCAM_fields_hold_no_marker (content : jsstring) :
  marker_free (objective (parseCAM content))
  /\ marker_free (spyInfo (parseCAM content))
  /\ marker_free (description (parseCAM content))
  /\ match ranking (parseCAM content) with
     | Some r => marker_free r
     | None => True
     end.
Proof.
  destruct (parseCAM_inv content) as (Ho & Hs & Hd & Hr).
  split; [|split; [|split]]; try (eapply field_ok_marker_free; eassumption).
  destruct (ranking (parseCAM content)) as [r|]; [|exact I].
  destruct Hr as ((Hnl & _) & Hm & Ht & _).
  unfold marker_free, lines. rewrite split_on_none by exact Hnl.
  constructor; [|constructor]. rewrite Ht. intros Hin.
  apply is_marker_spec in Hin. congruence.
Qed.

(** ** [parseCAM]: decoding a decoded section again *)

Lemma flat_In (x : Z) (ks : list jsstring) :
  In x (flat ks) -> x = NL \/ exists l, In l ks /\ In x l.
Proof.
  unfold flat. rewrite in_concat. intros [p [Hp Hx]].
  apply in_map_iff in Hp as [l [<- Hl]].
  apply in_app_iff in Hx as [Hx|[<-|[]]]; [right; eauto|now left].
Qed.

Lemma flat_nonempty (ks : list jsstring) : ks <> [] -> is_empty (flat ks) = false.
Proof.
  intros H. destruct (is_empty (flat ks)) eqn:E; [|reflexivity].
  now apply flat_empty in E.
Qed.

(** The lines of a section put back between two marker lines. *)
Lemma cam_lines_section (B E : jsstring) (ks : list jsstring) :
  clean B -> clean E -> Forall clean ks ->
  cam_lines (B ++ NL :: flat ks ++ E) = B :: ks ++ [E].
Proof.
  intros (Bn & Bc & Bf) (En & Ec & Ef) Hk. unfold cam_lines.
  assert (Hall : forall x, In x (B ++ NL :: flat ks ++ E) ->
                           x = NL \/ In x B \/ In x E \/ exists l, In l ks /\ In x l).
  { intros x Hx. apply in_app_iff in Hx as [Hx|[<-|Hx]]; [tauto|tauto|].
    apply in_app_iff in Hx as [Hx|Hx]; [|tauto].
    apply flat_In in Hx as [->|Hx]; tauto. }
  rewrite Forall_forall in Hk.
  rewrite (replace_all_id 65533).
  2:{ intros Hx. apply Hall in Hx as [Hx|[Hx|[Hx|[l [Hl Hx]]]]];
        [discriminate Hx|tauto|tauto|]. apply list_elem_of_In, Hk in Hl. now destruct Hl as (_ & _ & Hl). }
  rewrite (replace_all_id CR).
  2:{ intros Hx. apply Hall in Hx as [Hx|[Hx|[Hx|[l [Hl Hx]]]]];
        [discriminate Hx|tauto|tauto|]. apply list_elem_of_In, Hk in Hl. now destruct Hl as (_ & Hl & _). }
  rewrite split_on_app_sep by exact Bn. f_equal.
  rewrite split_on_flat.
  - now rewrite split_on_none by exact En.
  - apply Forall_forall. intros l Hl. apply Hk in Hl. now destruct Hl.
Qed.

Lemma refold_objective (ks pre : list jsstring) (r : option jsstring) (s dd : jsstring) :
  Forall content_line ks -> pre <> [] \/ head_not_number ks ->
  fold_left cam_step ks (S_OBJECTIVE, mkCam r (flat pre) s dd)
  = (S_OBJECTIVE, mkCam r (flat (pre ++ ks)) s dd).
Proof.
  revert pre. induction ks as [|l ks IH]; intros pre Hk Hh; cbn [fold_left].
  - now rewrite app_nil_r.
  - inversion Hk as [|? ? [_ Hm] Hk']; subst.
    rewrite cam_step_content by exact Hm. cbn [in_section objective].
    assert (E : is_empty (flat pre) && all_digits (trim l) = false).
    { destruct Hh as [Hp|Hh]; [now rewrite flat_nonempty|].
      cbn [head_not_number] in Hh. rewrite Hh. apply andb_false_r. }
    rewrite E. unfold add_objective. cbn [ranking objective spyInfo description].
    rewrite <- flat_app. rewrite IH; [|exact Hk'|left; now destruct pre].
    now rewrite <- app_assoc.
Qed.

Lemma refold_spyInfo (ks pre : list jsstring) (r : option jsstring) (o dd : jsstring) :
  Forall content_line ks -> Forall not_pi4 ks -> pre <> [] \/ head_not_number ks ->
  fold_left cam_step ks (S_SPYINFO, mkCam r o (flat pre) dd)
  = (S_SPYINFO, mkCam r o (flat (pre ++ ks)) dd).
Proof.
  revert pre. induction ks as [|l ks IH]; intros pre Hk Hp Hh; cbn [fold_left].
  - now rewrite app_nil_r.
  - inversion Hk as [|? ? [_ Hm] Hk']; subst. inversion Hp as [|? ? Hl Hp']; subst.
    rewrite cam_step_content by exact Hm. cbn [in_section spyInfo].
    assert (E : is_empty (flat pre) && all_digits (trim l) = false).
    { destruct Hh as [Hq|Hh]; [now rewrite flat_nonempty|].
      cbn [head_not_number] in Hh. rewrite Hh. apply andb_false_r. }
    rewrite E. unfold not_pi4 in Hl. rewrite Hl.
    unfold add_spyInfo. cbn [ranking objective spyInfo description].
    rewrite <- flat_app. rewrite IH; [|exact Hk'|exact Hp'|left; now destruct pre].
    now rewrite <- app_assoc.
Qed.

Lemma refold_description (ks pre : list jsstring) (r : option jsstring) (o s : jsstring) :
  Forall content_line ks -> pre <> [] \/ head_not_number ks ->
  fold_left cam_step ks (S_DESCRIPTION, mkCam r o s (flat pre))
  = (S_DESCRIPTION, mkCam r o s (flat (pre ++ ks))).
Proof.
  revert pre. induction ks as [|l ks IH]; intros pre Hk Hh; cbn [fold_left].
  - now rewrite app_nil_r.
  - inversion Hk as [|? ? [_ Hm] Hk']; subst.
    rewrite cam_step_content by exact Hm. cbn [in_section description].
    assert (E : is_empty (flat pre) && all_digits (trim l) = false).
    { destruct Hh as [Hp|Hh]; [now rewrite flat_nonempty|].
      cbn [head_not_number] in Hh. rewrite Hh. apply andb_false_r. }
    rewrite E. unfold add_description. cbn [ranking objective spyInfo description].
    rewrite <- flat_app. rewrite IH; [|exact Hk'|left; now destruct pre].
    now rewrite <- app_assoc.
Qed.

Lemma lit_clean (s : string) :
  forallb (fun c => negb ((c =? NL) || (c =? CR) || (c =? 65533))) (lit s) = true ->
  clean (lit s).
Proof.
  intros H. rewrite forallb_forall in H.
  repeat split; intros Hin; apply H in Hin; vm_compute in Hin; discriminate.
Qed.

Lemma content_lines_clean (ks : list jsstring) : Forall content_line ks -> Forall clean ks.
Proof. intros H. eapply Forall_impl; [exact H|]. now intros l [Hl _]. Qed.

(** C8, as stated, fails: the text of a decoded section holds no marker,
    so fed to [parseCAM] as it is, it lies outside every section and
    nothing of it is kept.  The objective decoded here is the line
    [Take the hill.]; decoding that text again gives the empty record. *)
Lemma refed_section_decodes_to_nothing :
  let content := lit "OBJECTIVE_BEGIN
Take the hill.
OBJECTIVE_END
" in
  objective (parseCAM content) = lit "Take the hill.
"
  /\ parseCAM (objective (parseCAM content)) = mkCam None [] [] []
  /\ objective (parseCAM (objective (parseCAM content))) <> objective (parseCAM content).
Proof.
  cbv zeta. repeat (apply conj); try (vm_compute; reflexivity).
  vm_compute. discriminate.
Qed.

(** C8, amended: the text of a decoded section, put back between the
    markers of that section, decodes to itself; so does a decoded ranking
    after its marker. *)
Theorem parseCAM_section_redecodes (content : jsstring) :
  objective (parseCAM (lit "OBJECTIVE_BEGIN" ++ NL :: objective (parseCAM content)
                       ++ lit "OBJECTIVE_END"))
  = objective (parseCAM content)
  /\ spyInfo (parseCAM (lit "SPYINFO_BEGIN" ++ NL :: spyInfo (parseCAM content)
                        ++ lit "SPYINFO_END"))
     = spyInfo (parseCAM content)
  /\ description (parseCAM (lit "DESCRIPTION_BEGIN" ++ NL :: description (parseCAM content)
                            ++ lit "DESCRIPTION_END"))
     = description (parseCAM content)
  /\ match ranking (parseCAM content) with
     | Some r => ranking (parseCAM (lit "CAMPAIGN_RANKING" ++ NL :: r)) = Some r
     | None => True
     end.
Proof.
  destruct (parseCAM_inv content) as (Ho & Hs & Hd & Hr).
  split; [|split; [|split]].
  - destruct Ho as [ks (-> & Hk & Hh & _)]. unfold parseCAM at 1.
    rewrite cam_lines_section;
      [|apply lit_clean; reflexivity|apply lit_clean; reflexivity|now apply content_lines_clean].
    cbn [fold_left].
    change (cam_step (S_NONE, mkCam None [] [] []) (lit "OBJECTIVE_BEGIN"))
      with (S_OBJECTIVE, mkCam None (flat []) [] []).
    rewrite fold_left_app, refold_objective by auto. reflexivity.
  - destruct Hs as [ks (-> & Hk & Hh & Hp)]. unfold parseCAM at 1.
    rewrite cam_lines_section;
      [|apply lit_clean; reflexivity|apply lit_clean; reflexivity|now apply content_lines_clean].
    cbn [fold_left].
    change (cam_step (S_NONE, mkCam None [] [] []) (lit "SPYINFO_BEGIN"))
      with (S_SPYINFO, mkCam None [] (flat []) []).
    rewrite fold_left_app, refold_spyInfo by auto. reflexivity.
  - destruct Hd as [ks (-> & Hk & Hh & _)]. unfold parseCAM at 1.
    rewrite cam_lines_section;
      [|apply lit_clean; reflexivity|apply lit_clean; reflexivity|now apply content_lines_clean].
    cbn [fold_left].
    change (cam_step (S_NONE, mkCam None [] [] []) (lit "DESCRIPTION_BEGIN"))
      with (S_DESCRIPTION, mkCam None [] [] (flat [])).
    rewrite fold_left_app, refold_description by auto. reflexivity.
  - destruct (ranking (parseCAM content)) as [r|]; [|exact I].
    destruct Hr as ((Hnl & Hcr & Hff) & Hm & Ht & Hne).
    unfold parseCAM, cam_lines.
    assert (Hall : forall x, In x (lit "CAMPAIGN_RANKING" ++ NL :: r) ->
                             x = NL \/ In x (lit "CAMPAIGN_RANKING") \/ In x r).
    { intros x Hx. apply in_app_iff in Hx as [Hx|[<-|Hx]]; tauto. }
    destruct (lit_clean "CAMPAIGN_RANKING" eq_refl) as (Mn & Mc & Mf).
    rewrite (replace_all_id 65533).
    2:{ intros Hx. apply Hall in Hx as [Hx|[Hx|Hx]]; [discriminate Hx|tauto|tauto]. }
    rewrite (replace_all_id CR).
    2:{ intros Hx. apply Hall in Hx as [Hx|[Hx|Hx]]; [discriminate Hx|tauto|tauto]. }
    rewrite split_on_app_sep by exact Mn. rewrite split_on_none by exact Hnl.
    cbn [fold_left].
    change (cam_step (S_NONE, mkCam None [] [] []) (lit "CAMPAIGN_RANKING"))
      with (S_RANKING, mkCam None [] [] []).
    rewrite cam_step_content by (rewrite Ht; exact Hm).
    cbn [in_section]. rewrite Ht.
    destruct r as [|c r']; [congruence|]. reflexivity.
Qed.

(** ** Locating the binary block *)

(** The loop of the code passes as many of the [n] lines as the text
    has. *)
Lemma skip_lines_spec (n : nat) (text : jsstring) (pos : Z) :
  exists k : nat,
    past_lines k text pos = Some (skip_lines n text pos)
    /\ (k = n \/ ((k < n)%nat /\ past_line text (skip_lines n text pos) = None)).
Proof.
  revert pos. induction n as [|n IH]; intros pos.
  - exists O. split; [reflexivity|now left].
  - cbn [skip_lines]. destruct (indexOf [NL] text pos) as [nl|] eqn:E.
    + destruct (IH (nl + 1)) as [k [Hk Hend]].
      exists (S k). split.
      * cbn [past_lines]. unfold past_line. rewrite E. exact Hk.
      * destruct Hend as [->|[Hlt Hnone]]; [now left|right; split; [lia|exact Hnone]].
    + exists O. split; [reflexivity|]. right. split; [lia|].
      unfold past_line. now rewrite E.
Qed.

(** When the text has the [N] lines, the code computes the offset of the
    specification. *)
Lemma locate_refines_spec (text : jsstring) (N : jsint) (off : Z) :
  find_dim (lines text) = Some N -> spec_offset text N = Some off -> locate text = Some off.
Proof.
  unfold locate, spec_offset. intros -> H.
  destruct (indexOf (dimString N) text 0) as [d|]; [|discriminate].
  unfold past_line in H. destruct (indexOf [NL] text d) as [k|]; [|discriminate].
  f_equal. revert H. generalize (k + 1). generalize (iterations N) as n.
  induction n as [|n IH]; intros pos H; cbn [skip_lines past_lines] in *; [congruence|].
  unfold past_line in H. destruct (indexOf [NL] text pos) as [nl|]; [|discriminate].
  now apply IH.
Qed.

Lemma parseSLK_uses_offset (buffer : list byte) (off : Z) :
  locate (headerText buffer) = Some off ->
  textureIndices (parseSLK buffer) = textures buffer off
  /\ heights (parseSLK buffer) = layer5 buffer off
  /\ (objects (parseSLK buffer), citadels (parseSLK buffer))
     = footer_at buffer (off + BLOCK_BYTES).
Proof.
  intros H. unfold parseSLK, footer_at. rewrite H.
  destruct (_ <? _); repeat (apply conj); reflexivity.
Qed.

(** C6, as stated, fails: the header [256 256 2] is followed by one line
    only; the code stops at the last line break it finds and takes the
    offset 14, past one line, while no position lies past two lines. *)
Lemma offset_with_short_texture_list :
  let text := headerText (bytes_of "256 256 2
foo
") in
  find_dim (lines text) = Some (IInt 2)
  /\ spec_offset text (IInt 2) = None
  /\ locate text = Some 14
  /\ locate text <> spec_offset text (IInt 2).
Proof.
  cbv zeta.
  assert (E1 : spec_offset (headerText (bytes_of "256 256 2
foo
")) (IInt 2) = None) by (vm_compute; reflexivity).
  assert (E2 : locate (headerText (bytes_of "256 256 2
foo
")) = Some 14) by (vm_compute; reflexivity).
  repeat (apply conj); try assumption.
  - vm_compute. reflexivity.
  - rewrite E1, E2. discriminate.
Qed.

(** ** A header of ASCII lines *)

Lemma utf8_run_ascii (bs : list byte) :
  ascii_bytes bs -> utf8_run utf8_init bs = List.map byteZ bs.
Proof.
  induction 1 as [|b bs Hb _ IH]; [reflexivity|].
  cbn [utf8_run List.map]. fold (byteZ b).
  unfold utf8_step. cbn [u_needed utf8_init]. rewrite Z.eqb_refl.
  unfold utf8_lead. destruct (Z.leb_spec (byteZ b) 127); [|lia].
  rewrite IH. reflexivity.
Qed.

Lemma decode_ascii (bs : list byte) : ascii_bytes bs -> decode bs = List.map byteZ bs.
Proof.
  intros H. unfold decode. rewrite utf8_run_ascii by exact H.
  destruct bs as [|b bs]; [reflexivity|]. cbn [List.map].
  inversion H; subst. destruct (Z.eqb_spec (byteZ b) 65279); [lia|reflexivity].
Qed.

Lemma map_flatb (ls : list (list byte)) :
  List.map byteZ (flatb ls) = flat (List.map (List.map byteZ) ls).
Proof.
  unfold flatb, flat. induction ls as [|l ls IH]; [reflexivity|].
  cbn [List.map concat]. rewrite List.map_app, IH, List.map_app. reflexivity.
Qed.

Lemma flat_app2 (a b : list jsstring) : flat (a ++ b) = flat a ++ flat b.
Proof. unfold flat. now rewrite List.map_app, concat_app. Qed.

Lemma find_dim_skip (a b : list jsstring) :
  Forall (fun l => ~ dim_shaped l) a -> find_dim (a ++ b) = find_dim b.
Proof.
  induction 1 as [|l ls Hl _ IH]; [reflexivity|]. cbn [app find_dim].
  destruct (split_ws (trim l)) as [|x [|y [|c [|e r]]]] eqn:E; try exact IH.
  destruct (str_eqb x (lit "256")) eqn:Ea; [|exact IH].
  destruct (str_eqb y (lit "256")) eqn:Eb; [|exact IH].
  apply str_eqb_eq in Ea, Eb. subst. exfalso. apply Hl. exists c. exact E.
Qed.

(** *** [indexOf] across lines *)

Lemma indexOf_0 (p s : jsstring) : indexOf p s 0 = indexOf_at p s 0.
Proof. reflexivity. Qed.

Lemma indexOf_at_shift (p s : jsstring) (k k' : Z) :
  indexOf_at p s k = None -> indexOf_at p s k' = None.
Proof.
  revert k k'. induction s as [|c r IH]; intros k k'; cbn [indexOf_at].
  - destruct (startsWith p []); [discriminate|reflexivity].
  - destruct (startsWith p (c :: r)); [discriminate|]. apply IH.
Qed.

Lemma startsWith_app_sep (p s r : jsstring) (c : Z) :
  ~ In c p -> startsWith p (s ++ c :: r) = true -> startsWith p s = true.
Proof.
  revert s. induction p as [|x p IH]; intros s Hc H; [reflexivity|].
  destruct s as [|y s]; cbn [app startsWith] in *.
  - apply andb_true_iff in H as [Hx _]. apply Z.eqb_eq in Hx. subst.
    exfalso. apply Hc. now left.
  - apply andb_true_iff in H as [Hx Hr]. rewrite Hx. cbn [andb].
    apply (IH s); [|exact Hr]. intros Hin. apply Hc. now right.
Qed.

(** A line without the pattern is passed over, when the pattern holds no
    line feed. *)
Lemma indexOf_at_skip_line (p l rest : jsstring) (k : Z) :
  p <> [] -> ~ In NL p -> indexOf_at p l 0 = None ->
  indexOf_at p (l ++ NL :: rest) k = indexOf_at p rest (k + Z.of_nat (length l) + 1).
Proof.
  intros Hp Hnl. revert k. induction l as [|y l IH]; intros k Hnone.
  - cbn [app length indexOf_at].
    destruct (startsWith p (NL :: rest)) eqn:E.
    + destruct p as [|x p]; [congruence|]. cbn [startsWith] in E.
      apply andb_true_iff in E as [Hx _]. apply Z.eqb_eq in Hx. subst.
      exfalso. apply Hnl. now left.
    + f_equal. lia.
  - cbn [indexOf_at] in Hnone. destruct (startsWith p (y :: l)) eqn:Es; [discriminate|].
    cbn [app indexOf_at].
    destruct (startsWith p (y :: l ++ NL :: rest)) eqn:E.
    + apply (startsWith_app_sep p (y :: l) rest NL Hnl) in E. congruence.
    + rewrite IH by (eapply indexOf_at_shift; exact Hnone).
      f_equal. cbn [length]. lia.
Qed.

Lemma indexOf_at_skip_lines (p : jsstring) (ls : list jsstring) (rest : jsstring) (k : Z) :
  p <> [] -> ~ In NL p -> Forall (fun l => indexOf p l 0 = None) ls ->
  indexOf_at p (flat ls ++ rest) k = indexOf_at p rest (k + Z.of_nat (length (flat ls))).
Proof.
  intros Hp Hnl H. revert k. induction H as [|l ls Hl _ IH]; intros k.
  - cbn. f_equal. lia.
  - unfold flat. cbn [List.map concat]. fold (flat ls).
    rewrite <- !app_assoc. cbn [app].
    rewrite indexOf_at_skip_line by assumption.
    rewrite IH. f_equal. rewrite !length_app. cbn [length]. lia.
Qed.

Lemma startsWith_self (p r : jsstring) : startsWith p (p ++ r) = true.
Proof. induction p as [|x p IH]; [reflexivity|]. cbn. now rewrite Z.eqb_refl, IH. Qed.

Lemma indexOf_from_length (p a b : jsstring) :
  indexOf p (a ++ b) (Z.of_nat (length a)) = indexOf_at p b (Z.of_nat (length a)).
Proof.
  unfold indexOf. rewrite Nat2Z.id.
  replace (Nat.min (length a) (length (a ++ b))) with (length a)
    by (rewrite length_app; lia).
  now rewrite drop_app_length.
Qed.

Lemma indexOf_at_nl (l r : jsstring) (k : Z) :
  ~ In NL l -> indexOf_at [NL] (l ++ NL :: r) k = Some (k + Z.of_nat (length l)).
Proof.
  revert k. induction l as [|y l IH]; intros k H.
  - cbn. f_equal. lia.
  - cbn [app indexOf_at startsWith].
    destruct (Z.eqb_spec NL y) as [E|E]; [exfalso; apply H; now left|].
    cbn [andb]. rewrite IH by (intros Hin; apply H; now right).
    f_equal. cbn [length]. lia.
Qed.

(** The skip loop passes the lines of a list that the text holds. *)
Lemma skip_lines_flat (ls : list jsstring) (a r : jsstring) :
  Forall (fun l => ~ In NL l) ls ->
  skip_lines (length ls) (a ++ flat ls ++ r) (Z.of_nat (length a))
  = Z.of_nat (length (a ++ flat ls)).
Proof.
  intros H. revert a. induction H as [|l ls Hl _ IH]; intros a.
  - cbn. now rewrite app_nil_r.
  - cbn [length skip_lines]. unfold flat. cbn [List.map concat]. fold (flat ls).
    rewrite <- !app_assoc. cbn [app].
    rewrite indexOf_from_length, indexOf_at_nl by exact Hl.
    replace (Z.of_nat (length a) + Z.of_nat (length l) + 1)
      with (Z.of_nat (length (a ++ l ++ [NL])))
      by (rewrite !length_app; cbn [length]; lia).
    replace (a ++ l ++ NL :: flat ls ++ r) with ((a ++ l ++ [NL]) ++ flat ls ++ r)
      by (rewrite <- !app_assoc; reflexivity).
    rewrite IH. f_equal. rewrite <- !app_assoc. reflexivity.
Qed.

(** *** The offset of a well-formed header *)

Lemma indexOf_at_self (p r : jsstring) (k : Z) : indexOf_at p (p ++ r) k = Some k.
Proof.
  destruct (p ++ r) as [|c s] eqn:E; cbn [indexOf_at]; rewrite <- E, startsWith_self;
    reflexivity.
Qed.

Lemma DIM3_no_NL : ~ In NL DIM3.
Proof. vm_compute. intuition discriminate. Qed.

Lemma find_dim_DIM3 (ls : list jsstring) : find_dim (DIM3 :: ls) = Some (IInt 3).
Proof.
  cbn [find_dim].
  replace (split_ws (trim DIM3)) with [lit "256"; lit "256"; lit "3"] by reflexivity.
  rewrite str_eqb_refl. reflexivity.
Qed.

(** Lines [pre], the dimension line, three texture lines, and a rest
    without line feed: the offset is the length of the lines. *)
Lemma locate_header (pre : list jsstring) (t1 t2 t3 rest : jsstring) :
  Forall (fun l => ~ In NL l) (pre ++ [t1; t2; t3]) ->
  ~ In NL rest ->
  Forall (fun l => ~ dim_shaped l) pre ->
  Forall (fun l => indexOf DIM3 l 0 = None) pre ->
  locate (flat (pre ++ [DIM3; t1; t2; t3]) ++ rest)
  = Some (Z.of_nat (length (flat (pre ++ [DIM3; t1; t2; t3])))).
Proof.
  intros Hnl Hrest Hdim Hocc.
  apply Forall_app in Hnl as [Hpre Ht].
  assert (Hall : Forall (fun l => ~ In NL l) (pre ++ [DIM3; t1; t2; t3])).
  { apply Forall_app. split; [exact Hpre|]. constructor; [apply DIM3_no_NL|exact Ht]. }
  unfold locate, lines.
  rewrite split_on_flat by exact Hall.
  rewrite <- app_assoc, find_dim_skip by exact Hdim.
  cbn [app]. rewrite find_dim_DIM3.
  change (dimString (IInt 3)) with DIM3. change (iterations (IInt 3)) with (length [t1; t2; t3]).
  replace (flat (pre ++ [DIM3; t1; t2; t3]))
    with (flat pre ++ flat [DIM3] ++ flat [t1; t2; t3])
    by (rewrite <- !flat_app2; reflexivity).
  set (body := flat [t1; t2; t3]).
  rewrite indexOf_0. rewrite <- !app_assoc.
  rewrite indexOf_at_skip_lines;
    [|discriminate|apply DIM3_no_NL|exact Hocc].
  replace (flat [DIM3] ++ body ++ rest) with (DIM3 ++ NL :: body ++ rest)
    by (unfold flat; cbn [List.map concat]; rewrite <- !app_assoc; reflexivity).
  rewrite indexOf_at_self. rewrite Z.add_0_l.
  rewrite indexOf_from_length, indexOf_at_nl by apply DIM3_no_NL.
  f_equal.
  replace (Z.of_nat (length (flat pre)) + Z.of_nat (length DIM3) + 1)
    with (Z.of_nat (length (flat pre ++ DIM3 ++ [NL])))
    by (rewrite !length_app; cbn [length]; lia).
  replace (flat pre ++ DIM3 ++ NL :: body ++ rest)
    with ((flat pre ++ DIM3 ++ [NL]) ++ body ++ rest)
    by (rewrite <- !app_assoc; reflexivity).
  unfold body. rewrite skip_lines_flat by exact Ht.
  f_equal. unfold flat at 4. cbn [List.map concat]. rewrite <- !app_assoc. reflexivity.
Qed.

(** *** The offset, from the dimension line *)

Lemma indexOf_nl_in_line (a l r : jsstring) (j : nat) :
  ~ In NL l -> (j <= length l)%nat ->
  indexOf [NL] (a ++ l ++ NL :: r) (Z.of_nat (length a + j))
  = Some (Z.of_nat (length (a ++ l ++ [NL])) - 1).
Proof.
  intros Hl Hj. unfold indexOf. rewrite Nat2Z.id.
  replace (Nat.min (length a + j) (length (a ++ l ++ NL :: r))) with (length a + j)%nat
    by (rewrite !length_app; cbn [length]; lia).
  rewrite drop_app_ge by lia.
  replace (length a + j - length a)%nat with j by lia.
  rewrite drop_app_le by exact Hj.
  rewrite indexOf_at_nl.
  - f_equal. rewrite !length_app, length_drop. cbn [length]. lia.
  - intros H. apply Hl. apply list_elem_of_In. apply list_elem_of_In in H.
    eapply (subseteq_drop j l); exact H.
Qed.

Lemma find_dim_at_line (pre : list jsstring) (dl c : jsstring) (after : list jsstring) :
  Forall (fun l => ~ In NL l /\ ~ dim_shaped l) pre ->
  split_ws (trim dl) = [lit "256"; lit "256"; c] ->
  find_dim (pre ++ dl :: after) = Some (parseInt (Some c)).
Proof.
  intros Hpre Hdl. rewrite find_dim_skip.
  - cbn [find_dim]. rewrite Hdl, !str_eqb_refl. reflexivity.
  - eapply Forall_impl; [exact Hpre|]. now intros l [_ H].
Qed.

(** A header whose first occurrence of the string [256 256 3] lies in a
    line before the dimension line: the offset found, 26, is where the
    third texture line starts.  The amended C6 is about the headers in
    which the string first occurs in the dimension line. *)
Example string_before_dimension_line_ex :
  locate (headerText (bytes_of "x 256 256 3
256 256 3
a
b
c
")) = Some 26.
Proof. vm_compute. reflexivity. Qed.

(** C6, amended: when the dimension line [256 256 N] is found, ends with
    a line terminator and is where the string [256 256 N] first occurs,
    the offset is the position of that string, advanced past the line
    terminator of the dimension line and then past [N] further lines, or
    past the [k < N] lines that remain when the text has no more; that
    one offset is where the texture indices, the layer-5 heights and the
    footer are read from.  [N] ranges over the integers a double holds
    exactly. *)
Theorem binary_offset_located
    (buffer : list byte) (pre : list jsstring) (dl c rest : jsstring) (N : Z) (j : nat) :
  header_split (headerText buffer) pre dl rest ->
  split_ws (trim dl) = [lit "256"; lit "256"; c] ->
  parseInt (Some c) = IInt N ->
  Z.abs N <= 2 ^ 53 ->
  indexOf (dimString (IInt N)) (headerText buffer) 0
  = Some (Z.of_nat (length (flat pre) + j)) ->
  (j <= length dl)%nat ->
  exists (k : nat) (off : Z),
    find_dim (lines (headerText buffer)) = Some (IInt N)
    /\ past_line (headerText buffer) (Z.of_nat (length (flat pre) + j))
       = Some (Z.of_nat (length (flat pre ++ dl ++ [NL])))
    /\ locate (headerText buffer) = Some off
    /\ past_lines k (headerText buffer) (Z.of_nat (length (flat pre ++ dl ++ [NL]))) = Some off
    /\ (k = Z.to_nat N
        \/ ((k < Z.to_nat N)%nat /\ past_line (headerText buffer) off = None))
    /\ textureIndices (parseSLK buffer) = textures buffer off
    /\ heights (parseSLK buffer) = layer5 buffer off
    /\ (objects (parseSLK buffer), citadels (parseSLK buffer))
       = footer_at buffer (off + BLOCK_BYTES).
Proof.
  intros (Htext & Hpre & Hdl) Hshape HN _ Hd Hj.
  set (text := headerText buffer) in *.
  set (p := Z.of_nat (length (flat pre ++ dl ++ [NL]))).
  assert (Hf : find_dim (lines text) = Some (IInt N)).
  { unfold lines. rewrite Htext, split_on_flat.
    - rewrite split_on_app_sep by exact Hdl.
      rewrite (find_dim_at_line pre dl c _ Hpre Hshape). now rewrite HN.
    - eapply Forall_impl; [exact Hpre|]. now intros l [H _]. }
  assert (Hnl : indexOf [NL] text (Z.of_nat (length (flat pre) + j)) = Some (p - 1)).
  { rewrite Htext. apply indexOf_nl_in_line; assumption. }
  assert (Hp : past_line text (Z.of_nat (length (flat pre) + j)) = Some p).
  { unfold past_line. rewrite Hnl. f_equal. lia. }
  destruct (skip_lines_spec (Z.to_nat N) text p) as [k [Hk Hend]].
  assert (Hl : locate text = Some (skip_lines (Z.to_nat N) text p)).
  { unfold locate. rewrite Hf, Hd, Hnl. cbn [iterations]. do 2 f_equal. lia. }
  exists k, (skip_lines (Z.to_nat N) text p).
  split; [exact Hf|]. split; [exact Hp|]. split; [exact Hl|].
  split; [exact Hk|]. split; [exact Hend|].
  now apply parseSLK_uses_offset.
Qed.

Lemma binary_offset_located_witness :
  let buffer := bytes_of "models\tank.sdf 3
  256 256 1
grass.tga
" in
  let pre := [lit "models\tank.sdf 3"] in
  let dl := lit "  256 256 1" in
  exists (k : nat) (off : Z),
    find_dim (lines (headerText buffer)) = Some (IInt 1)
    /\ past_line (headerText buffer) (Z.of_nat (length (flat pre) + 2))
       = Some (Z.of_nat (length (flat pre ++ dl ++ [NL])))
    /\ locate (headerText buffer) = Some off
    /\ past_lines k (headerText buffer) (Z.of_nat (length (flat pre ++ dl ++ [NL]))) = Some off
    /\ (k = Z.to_nat 1
        \/ ((k < Z.to_nat 1)%nat /\ past_line (headerText buffer) off = None))
    /\ textureIndices (parseSLK buffer) = textures buffer off
    /\ heights (parseSLK buffer) = layer5 buffer off
    /\ (objects (parseSLK buffer), citadels (parseSLK buffer))
       = footer_at buffer (off + BLOCK_BYTES).
Proof.
  cbv zeta.
  apply (binary_offset_located _ [lit "models\tank.sdf 3"] (lit "  256 256 1") (lit "1")
           (lit "grass.tga
") 1 2).
  - split; [vm_compute; reflexivity|]. split.
    + repeat constructor.
      * vm_compute. intuition discriminate.
      * intros [c Hc]. vm_compute in Hc. discriminate.
    + vm_compute. intuition discriminate.
  - reflexivity.
  - reflexivity.
  - vm_compute. discriminate.
  - vm_compute. reflexivity.
  - vm_compute. lia.
Defined.

(** *** An all-zero rest *)

Lemma map_byteZ_zeros (m : nat) : List.map byteZ (replicate m x00%byte) = replicate m 0.
Proof. induction m as [|m IH]; [reflexivity|]. cbn [replicate List.map]. now rewrite IH. Qed.

Lemma zeros_ascii (m : nat) : ascii_bytes (replicate m x00%byte).
Proof.
  apply Forall_forall. intros b Hb. apply elem_of_replicate in Hb as [-> _].
  vm_compute. discriminate.
Qed.

Lemma zeros_no_NL (m : nat) : ~ In NL (replicate m 0).
Proof.
  intros H. apply list_elem_of_In, elem_of_replicate in H as [H _]. discriminate H.
Qed.

Lemma byte_at_zero_tail (header : list byte) (n : nat) (k : Z) :
  blen header <= k -> byte_at (header ++ replicate n x00%byte) k = 0.
Proof.
  intros Hk. unfold byte_at, blen in *. destruct (Z.ltb_spec k 0); [reflexivity|].
  rewrite lookup_app_r by lia.
  destruct (replicate n x00%byte !! (Z.to_nat k - length header)%nat) as [b|] eqn:E;
    [|reflexivity].
  apply lookup_replicate_1 in E as [-> _]. reflexivity.
Qed.

Lemma trim_keeps_head (c : Z) (r : jsstring) :
  is_ws c = false -> exists r', trim (c :: r) = c :: r'.
Proof.
  intros Hc. unfold trim. rewrite (trim_start_fix (c :: r)) by exact Hc.
  rewrite trim_end_cons. rewrite Hc. destruct (trim_end r); eauto.
Qed.

(** A footer of zero bytes holds one line, which opens no section. *)
Lemma parseFooter_zeros (tbl : gmap Z jsstring) (k : nat) :
  parseFooter tbl (replicate k x00%byte) = footer_init.
Proof.
  unfold parseFooter. rewrite decode_ascii by apply zeros_ascii.
  rewrite map_byteZ_zeros, split_on_none by apply zeros_no_NL.
  cbn [fold_left]. destruct k as [|k].
  - reflexivity.
  - cbn [replicate]. unfold footer_step.
    destruct (trim_keeps_head 0 (replicate k 0) eq_refl) as [r' ->].
    reflexivity.
Qed.

Lemma Forall_zero_lookup (l : list Z) (n : nat) :
  length l = n -> (forall i, (i < n)%nat -> l !! i = Some 0) -> Forall (fun v => v = 0) l.
Proof.
  intros Hlen H. apply Forall_lookup. intros i v Hi.
  assert (Hlt : (i < n)%nat) by (rewrite <- Hlen; eapply lookup_lt_Some; exact Hi).
  rewrite (H i Hlt) in Hi. congruence.
Qed.

Lemma textures_zero_tail (header : list byte) (n : nat) :
  Forall (fun v => v = 0) (textures (header ++ replicate n x00%byte) (blen header)).
Proof.
  apply (Forall_zero_lookup _ CELLS); [apply textures_length|].
  intros i Hi. rewrite textures_lookup by exact Hi.
  rewrite !byte_at_zero_tail by lia. now destruct (_ <=? _).
Qed.

Lemma layer5_zero_tail (header : list byte) (n : nat) :
  Forall (fun v => v = 0) (layer5 (header ++ replicate n x00%byte) (blen header)).
Proof.
  apply (Forall_zero_lookup _ CELLS); [apply layer5_length|].
  intros j Hj.
  assert (Hr : (Nat.div j 256 < 256)%nat).
  { apply Nat.Div0.div_lt_upper_bound. exact Hj. }
  assert (Hc : (Nat.modulo j 256 < 256)%nat) by (apply Nat.mod_upper_bound; lia).
  rewrite (Nat.div_mod j 256) at 1 by lia.
  rewrite (Nat.mul_comm 256). rewrite layer5_lookup by assumption. cbv zeta.
  rewrite byte_at_zero_tail by lia. now destruct (_ <? _).
Qed.

Lemma text_line_ascii (l : list byte) : text_line l -> ascii_bytes l.
Proof. intros H. eapply Forall_impl; [exact H|]. now intros b [Hb _]. Qed.

Lemma text_line_no_NL (l : list byte) : text_line l -> ~ In NL (List.map byteZ l).
Proof.
  intros H Hin. apply in_map_iff in Hin as [b [Hb Hin]].
  unfold text_line in H. rewrite Forall_forall in H. apply list_elem_of_In, H in Hin. tauto.
Qed.

Lemma flatb_ascii (ls : list (list byte)) : Forall ascii_bytes ls -> ascii_bytes (flatb ls).
Proof.
  induction 1 as [|l ls Hl _ IH]; [constructor|].
  unfold flatb. cbn [List.map concat]. apply Forall_app. split; [|exact IH].
  apply Forall_app. split; [exact Hl|]. constructor; [|constructor].
  vm_compute. discriminate.
Qed.

(** The offset of a buffer with a well-formed header: the header is
    followed by [n] zero bytes and then by [tail], which the text window
    does not reach. *)
Lemma locate_well_formed
    (pre : list (list byte)) (t1 t2 t3 : list byte) (n : nat) (tail : list byte) :
  let header := flatb (pre ++ [bytes_of "256 256 3"; t1; t2; t3]) in
  Forall text_line (pre ++ [t1; t2; t3]) ->
  (length header <= HEADER_WINDOW)%nat ->
  Forall (fun l => ~ dim_shaped (List.map byteZ l)) pre ->
  Forall (fun l => indexOf DIM3 (List.map byteZ l) 0 = None) pre ->
  tail = [] \/ (HEADER_WINDOW <= length header + n)%nat ->
  locate (headerText (header ++ replicate n x00%byte ++ tail)) = Some (blen header).
Proof.
  intros header Hlines Hfit Hdim Hocc Htail.
  apply Forall_app in Hlines as [Hpre Ht].
  assert (Hascii : ascii_bytes header).
  { apply flatb_ascii, Forall_app. split.
    - eapply Forall_impl; [exact Hpre|]. apply text_line_ascii.
    - constructor.
      + apply Forall_forall. intros b Hb. vm_compute in Hb.
        repeat (apply elem_of_cons in Hb as [->|Hb]; [vm_compute; discriminate|]).
        now apply elem_of_nil in Hb.
      + eapply Forall_impl; [exact Ht|]. apply text_line_ascii. }
  set (m := Nat.min (HEADER_WINDOW - length header) n).
  assert (Htake : take (HEADER_WINDOW - length header) (replicate n x00%byte ++ tail)
                  = replicate m x00%byte).
  { destruct Htail as [->|Hbig].
    - rewrite app_nil_r. apply take_replicate.
    - rewrite take_app_le by (rewrite length_replicate; lia). apply take_replicate. }
  assert (Htext : headerText (header ++ replicate n x00%byte ++ tail)
                  = flat (List.map (List.map byteZ) pre
                          ++ [DIM3; List.map byteZ t1; List.map byteZ t2; List.map byteZ t3])
                    ++ replicate m 0).
  { unfold headerText. rewrite take_app_ge by exact Hfit. rewrite Htake.
    rewrite decode_ascii by (apply Forall_app; split; [exact Hascii|apply zeros_ascii]).
    rewrite List.map_app, map_byteZ_zeros. f_equal.
    unfold header. rewrite map_flatb, List.map_app. reflexivity. }
  rewrite Htext. rewrite locate_header.
  - f_equal. unfold blen. f_equal.
    replace (length header) with (length (List.map byteZ header)) by apply length_map.
    unfold header. rewrite map_flatb, List.map_app. reflexivity.
  - apply Forall_app. split.
    + apply Forall_forall. intros l Hl. apply list_elem_of_In, in_map_iff in Hl as [l0 [<- Hl0]].
      apply text_line_no_NL. rewrite Forall_forall in Hpre. now apply Hpre, list_elem_of_In.
    + inversion Ht as [|? ? H1 Ht']; subst. inversion Ht' as [|? ? H2 Ht'']; subst.
      inversion Ht'' as [|? ? H3 _]; subst.
      repeat constructor; now apply text_line_no_NL.
  - apply zeros_no_NL.
  - apply Forall_forall. intros l Hl. apply list_elem_of_In, in_map_iff in Hl as [l0 [<- Hl0]].
    rewrite Forall_forall in Hdim. now apply Hdim, list_elem_of_In.
  - apply Forall_forall. intros l Hl. apply list_elem_of_In, in_map_iff in Hl as [l0 [<- Hl0]].
    rewrite Forall_forall in Hocc. now apply Hocc, list_elem_of_In.
Qed.

(** C7, as stated, fails: the offset of the binary block is a position
    in the text decoded from the first 50000 bytes.  In
    [long_header_file] the texture lines lie beyond those bytes: the
    offset found is 50000, six bytes before the block, and texture cell
    0 is read from the first texture line.  In [accent_file] a two-byte
    character makes the text one unit shorter than the bytes, and in
    [echo_file] the string [256 256 3] occurs before the dimension line:
    cell 0 is read from the header there too. *)
Lemma zero_block_read_from_header :
  (blen (flatb (replicate 4999 (bytes_of "xxxxxxxxx")
                ++ [bytes_of "256 256 3"; bytes_of "a"; bytes_of "b"; bytes_of "c"])) = 50006
   /\ locate (headerText long_header_file) = Some 50000
   /\ textureIndices (parseSLK long_header_file) !! 0%nat = Some 2657
   /\ ~ Forall (fun v => v = 0) (textureIndices (parseSLK long_header_file)))
  /\ (locate (headerText accent_file) = Some 16
      /\ textureIndices (parseSLK accent_file) !! 0%nat = Some 10)
  /\ (locate (headerText echo_file) = Some 26
      /\ textureIndices (parseSLK echo_file) !! 0%nat = Some 2659).
Proof.
  assert (L1 : locate (headerText long_header_file) = Some 50000) by (vm_compute; reflexivity).
  assert (L2 : locate (headerText accent_file) = Some 16) by (vm_compute; reflexivity).
  assert (L3 : locate (headerText echo_file) = Some 26) by (vm_compute; reflexivity).
  assert (T1 : textureIndices (parseSLK long_header_file) !! 0%nat = Some 2657).
  { rewrite parseSLK_textureIndices, L1, textures_lookup by (unfold CELLS; lia).
    vm_compute. reflexivity. }
  assert (T2 : textureIndices (parseSLK accent_file) !! 0%nat = Some 10).
  { rewrite parseSLK_textureIndices, L2, textures_lookup by (unfold CELLS; lia).
    vm_compute. reflexivity. }
  assert (T3 : textureIndices (parseSLK echo_file) !! 0%nat = Some 2659).
  { rewrite parseSLK_textureIndices, L3, textures_lookup by (unfold CELLS; lia).
    vm_compute. reflexivity. }
  apply conj; [|exact (conj (conj L2 T2) (conj L3 T3))].
  apply conj; [vm_compute; reflexivity|].
  apply conj; [exact L1|]. apply conj; [exact T1|].
  intros H. pose proof (Forall_lookup_1 _ _ _ _ H T1) as E. discriminate E.
Qed.

(** C7, amended: a buffer made of ASCII header lines, the dimension line
    [256 256 3], three texture lines and then zero bytes only: when the
    header fits the 50000 bytes that are read as text and no earlier line
    is shaped like a dimension line or holds the string [256 256 3],
    [parseSLK] yields texture indices and heights all zero, no object and
    no citadel. *)
Theorem zero_block_decodes_to_zero
    (pre : list (list byte)) (t1 t2 t3 : list byte) (n : nat) :
  Forall text_line (pre ++ [t1; t2; t3]) ->
  (length (flatb (pre ++ [bytes_of "256 256 3"; t1; t2; t3])) <= HEADER_WINDOW)%nat ->
  Forall (fun l => ~ dim_shaped (List.map byteZ l)) pre ->
  Forall (fun l => indexOf DIM3 (List.map byteZ l) 0 = None) pre ->
  let buffer := flatb (pre ++ [bytes_of "256 256 3"; t1; t2; t3]) ++ replicate n x00%byte in
  Forall (fun v => v = 0) (textureIndices (parseSLK buffer))
  /\ Forall (fun v => v = 0) (heights (parseSLK buffer))
  /\ length (textureIndices (parseSLK buffer)) = CELLS
  /\ length (heights (parseSLK buffer)) = CELLS
  /\ objects (parseSLK buffer) = []
  /\ citadels (parseSLK buffer) = [].
Proof.
  intros Hlines Hfit Hdim Hocc.
  pose proof (locate_well_formed pre t1 t2 t3 n [] Hlines Hfit Hdim Hocc (or_introl eq_refl))
    as Hloc.
  rewrite app_nil_r in Hloc.
  set (header := flatb (pre ++ [bytes_of "256 256 3"; t1; t2; t3])) in *.
  intros buffer. fold buffer in Hloc.
  destruct (parseSLK_uses_offset buffer _ Hloc) as (Etex & Ehe & Efoot).
  destruct (parseSLK_lengths buffer) as [Lt Lh].
  assert (Hfooter : footer_at buffer (blen header + BLOCK_BYTES) = ([], [])).
  { unfold footer_at. destruct (_ <? _); [|reflexivity].
    assert (Hdrop : exists k, drop (Z.to_nat (blen header + BLOCK_BYTES)) buffer
                              = replicate k x00%byte).
    { unfold buffer. rewrite drop_app_ge by (unfold blen, BLOCK_BYTES; lia).
      rewrite drop_replicate. eauto. }
    destruct Hdrop as [k ->]. cbv zeta. rewrite parseFooter_zeros. reflexivity. }
  rewrite Hfooter in Efoot. inversion Efoot as [[Eo Ec]].
  rewrite Etex, Ehe.
  split; [apply textures_zero_tail|]. split; [apply layer5_zero_tail|].
  split; [now rewrite <- Etex|]. split; [now rewrite <- Ehe|].
  split; reflexivity.
Qed.

Lemma text_lineb_ok (l : list byte) : text_lineb l = true -> text_line l.
Proof.
  unfold text_lineb, text_line. rewrite forallb_forall. intros H.
  apply Forall_forall. intros b Hb. apply list_elem_of_In, H in Hb.
  apply andb_true_iff in Hb as [H1 H2]. apply Z.leb_le in H1.
  apply negb_true_iff, Z.eqb_neq in H2. tauto.
Qed.

Lemma zero_block_decodes_to_zero_witness :
  let buffer :=
    flatb ([bytes_of "models\tank.sdf 4"; bytes_of "2560 256 3 1"]
           ++ [bytes_of "256 256 3"; bytes_of "grass.tga"; bytes_of "rock.tga";
               bytes_of "sand.tga"])
    ++ replicate 64 x00%byte in
  Forall (fun v => v = 0) (textureIndices (parseSLK buffer))
  /\ Forall (fun v => v = 0) (heights (parseSLK buffer))
  /\ length (textureIndices (parseSLK buffer)) = CELLS
  /\ length (heights (parseSLK buffer)) = CELLS
  /\ objects (parseSLK buffer) = []
  /\ citadels (parseSLK buffer) = [].
Proof.
  apply (zero_block_decodes_to_zero
           [bytes_of "models\tank.sdf 4"; bytes_of "2560 256 3 1"]
           (bytes_of "grass.tga") (bytes_of "rock.tga") (bytes_of "sand.tga") 64).
  - repeat (first [apply List.Forall_nil
                   | apply List.Forall_cons; [apply text_lineb_ok; reflexivity|]]).
  - apply Nat.leb_le. vm_compute. reflexivity.
  - repeat constructor; intros [c Hc]; vm_compute in Hc; discriminate.
  - repeat constructor; vm_compute; reflexivity.
Defined.

(** ** The citadel footer of a whole file *)

Lemma citadel_file_offset : locate (headerText citadel_file) = Some 38.
Proof.
  pose proof (locate_well_formed [] (bytes_of "grass.tga") (bytes_of "rock.tga")
                (bytes_of "sand.tga") (Z.to_nat BLOCK_BYTES) citadel_footer) as H.
  cbv zeta in H. apply H; clear H.
  - repeat (first [apply List.Forall_nil
                   | apply List.Forall_cons; [apply text_lineb_ok; reflexivity|]]).
  - apply Nat.leb_le. vm_compute. reflexivity.
  - constructor.
  - constructor.
  - right. unfold HEADER_WINDOW, BLOCK_BYTES. lia.
Qed.

Lemma citadel_file_footer :
  footer_at citadel_file (38 + BLOCK_BYTES)
  = (let st := parseFooter (model_table (lines (headerText citadel_file))) citadel_footer in
     (f_objects st, f_citadels st)).
Proof.
  unfold footer_at.
  set (header := bytes_of "256 256 3
grass.tga
rock.tga
sand.tga
").
  assert (Hh : length header = 38%nat) by reflexivity.
  assert (Hf : (0 < length citadel_footer)%nat) by (vm_compute; lia).
  assert (Hlen : blen citadel_file
                 = 38 + BLOCK_BYTES + Z.of_nat (length citadel_footer)).
  { unfold blen, citadel_file. fold header.
    rewrite !length_app, length_replicate, Hh. unfold BLOCK_BYTES. lia. }
  destruct (Z.ltb_spec (38 + BLOCK_BYTES) (blen citadel_file)) as [_|Hge]; [|lia].
  assert (Hdrop : drop (Z.to_nat (38 + BLOCK_BYTES)) citadel_file = citadel_footer).
  { unfold citadel_file. fold header. rewrite app_assoc.
    apply drop_app_length'. rewrite length_app, length_replicate, Hh.
    unfold BLOCK_BYTES. lia. }
  rewrite Hdrop. reflexivity.
Qed.

(** C1, amended: with a token after the keyword ([citadel 0]) the footer
    yields one citadel base at (5,5,0) in the citadels and one upgrade at
    (1,1,0) in the objects, whatever the model table; and so does
    [parseSLK] on a whole file that ends in this footer. *)
Theorem citadel_footer_decodes (tbl : gmap Z jsstring) :
  one_citadel_one_upgrade (parseFooter tbl citadel_footer)
  /\ citadels (parseSLK citadel_file) = [citadel_base_5_5]
  /\ objects (parseSLK citadel_file) = [citadel_upgrade_1_1].
Proof.
  split.
  - unfold one_citadel_one_upgrade.
    destruct (citadel_footer_result tbl) as [-> ->].
    split; [reflexivity|]. split; [reflexivity|].
    intros [H|[]]. discriminate H.
  - destruct (parseSLK_uses_offset citadel_file 38 citadel_file_offset) as (_ & _ & E).
    rewrite citadel_file_footer in E. cbv zeta in E.
    destruct (citadel_footer_result (model_table (lines (headerText citadel_file))))
      as [Ec Eo].
    rewrite Ec, Eo in E. apply pair_equal_spec in E as [Hobj Hcit].
    exact (conj Hcit Hobj).
Qed.

(** * Further properties of the decoders *)

(** ** The grids, cell by cell *)

Lemma le16_value (b0 b1 : Z) :
  0 <= b0 <= 255 -> 0 <= b1 -> Z.lor b0 (Z.shiftl b1 8) = b0 + 256 * b1.
Proof.
  intros H0 H1. rewrite Z.shiftl_mul_pow2 by lia.
  assert (Hland : Z.land b0 (b1 * 2 ^ 8) = 0).
  { apply Z.bits_inj'. intros n Hn. rewrite Z.land_spec, Z.bits_0.
    destruct (Z.lt_ge_cases n 8) as [Hlt|Hge].
    - rewrite (Z.mul_pow2_bits_low b1 8 n) by lia. apply andb_false_r.
    - assert (Hb : Z.testbit b0 n = false).
      { destruct (Z.eq_dec b0 0) as [->|Hnz]; [apply Z.bits_0|].
        apply Z.bits_above_log2; [lia|].
        assert (Z.log2 b0 < 8) by (apply Z.log2_lt_pow2; lia). lia. }
      rewrite Hb. reflexivity. }
  rewrite <- Z.lxor_lor by exact Hland.
  rewrite <- Z.add_nocarry_lxor by exact Hland. lia.
Qed.

(** X1. [parseDPH]: cell [i] is the 16-bit little-endian value of the
    bytes [2i] and [2i+1] when both lie in the buffer, and 0 otherwise. *)
Theorem parseDPH_cell_little_endian (buffer : list byte) (i : nat) :
  (i < CELLS)%nat ->
  exists v,
    parseDPH buffer !! i = Some v
    /\ 0 <= v < 65536
    /\ v = if Z.of_nat i * 2 + 1 <? blen buffer
           then byte_at buffer (Z.of_nat i * 2) + 256 * byte_at buffer (Z.of_nat i * 2 + 1)
           else 0.
Proof.
  intros Hi. rewrite parseDPH_lookup by exact Hi.
  pose proof (byte_at_range buffer (Z.of_nat i * 2)) as H0.
  pose proof (byte_at_range buffer (Z.of_nat i * 2 + 1)) as H1.
  eexists. split; [reflexivity|].
  destruct (Z.of_nat i * 2 + 1 <? blen buffer).
  - rewrite le16_value by lia. split; [lia|reflexivity].
  - split; [lia|reflexivity].
Qed.

Lemma parseDPH_cell_little_endian_witness :
  exists v, parseDPH [x34; x12; xff]%byte !! 0%nat = Some v /\ 0 <= v < 65536 /\ v = 4660.
Proof.
  assert (Hi : (0 < CELLS)%nat) by (unfold CELLS; lia).
  destruct (parseDPH_cell_little_endian [x34; x12; xff]%byte 0 Hi) as [v (Hv & Hr & He)].
  exists v. split; [exact Hv|]. split; [exact Hr|]. rewrite He. reflexivity.
Defined.

Lemma byte_at_take (buffer : list byte) (n : nat) (k : Z) :
  k < Z.of_nat n -> byte_at (take n buffer) k = byte_at buffer k.
Proof.
  intros Hk. unfold byte_at. destruct (Z.ltb_spec k 0); [reflexivity|].
  rewrite lookup_take_lt by lia. reflexivity.
Qed.

(** X2. [parseDPH] reads the first 131072 bytes only: the grid of a
    buffer is the grid of its first 2 * 65536 bytes. *)
Theorem parseDPH_reads_128K (buffer : list byte) :
  parseDPH buffer = parseDPH (take (2 * CELLS) buffer).
Proof.
  apply list_eq. intros i.
  destruct (Nat.lt_ge_cases i CELLS) as [Hi|Hi].
  - rewrite !parseDPH_lookup by exact Hi. f_equal.
    unfold blen. rewrite length_take.
    pose proof CELLS_val as HC.
    destruct (Z.ltb_spec (Z.of_nat i * 2 + 1) (Z.of_nat (length buffer))) as [Hlt|Hge];
      destruct (Z.ltb_spec (Z.of_nat i * 2 + 1)
                  (Z.of_nat (Nat.min (2 * CELLS) (length buffer)))) as [Hlt'|Hge'];
      try lia.
    rewrite !byte_at_take by lia. reflexivity.
  - rewrite !(proj2 (lookup_ge_None _ _)) by (rewrite parseDPH_length; exact Hi).
    reflexivity.
Qed.

(** ** The binary block of [parseSLK], cell by cell *)

(** X3. When the binary block is located at [off], texture cell [i] is
    the 16-bit little-endian value of the first two bytes of the 6-byte
    record [i], and 0 when those two bytes do not both lie in the
    buffer. *)
Theorem textureIndices_cell_little_endian (buffer : list byte) (off : Z) (i : nat) :
  locate (headerText buffer) = Some off ->
  (i < CELLS)%nat ->
  textureIndices (parseSLK buffer) !! i
  = Some (if off + Z.of_nat i * 6 + 2 <=? blen buffer
          then byte_at buffer (off + Z.of_nat i * 6)
               + 256 * byte_at buffer (off + Z.of_nat i * 6 + 1)
          else 0).
Proof.
  intros Hloc Hi. rewrite parseSLK_textureIndices, Hloc, textures_lookup by exact Hi.
  pose proof (byte_at_range buffer (off + Z.of_nat i * 6)) as H0.
  pose proof (byte_at_range buffer (off + Z.of_nat i * 6 + 1)) as H1.
  rewrite le16_value by lia. reflexivity.
Qed.

(** X4. When the binary block is located at [off], the height of cell
    [(row, col)] is the byte at [off + 5 * 65536 + row * 257 + col]: the
    source rows are 257 bytes apart, so the 257th byte of every source row
    is read by no cell; a byte past the end of the buffer gives 0. *)
Theorem heights_cell_stride_257 (buffer : list byte) (off : Z) (row col : nat) :
  locate (headerText buffer) = Some off ->
  (row < 256)%nat -> (col < 256)%nat ->
  heights (parseSLK buffer) !! (row * 256 + col)%nat
  = Some (if off + 327680 + Z.of_nat row * 257 + Z.of_nat col <? blen buffer
          then byte_at buffer (off + 327680 + Z.of_nat row * 257 + Z.of_nat col)
          else 0).
Proof.
  intros Hloc Hr Hc. rewrite parseSLK_heights, Hloc, layer5_lookup by assumption.
  reflexivity.
Qed.

Lemma textureIndices_cell_little_endian_witness :
  textureIndices (parseSLK (bytes_of "256 256 0
" ++ [x01; x02; x00; x00; x00; x00; x03; x04; x09]%byte)) !! 1%nat = Some 1027
  /\ textureIndices (parseSLK (bytes_of "256 256 0
" ++ [x01; x02; x00; x00; x00; x00; x03; x04; x09]%byte)) !! 2%nat = Some 0.
Proof.
  assert (Hc : (2 < CELLS)%nat) by (unfold CELLS; lia).
  split.
  - rewrite (textureIndices_cell_little_endian _ 10 1);
      [reflexivity|vm_compute; reflexivity|lia].
  - rewrite (textureIndices_cell_little_endian _ 10 2);
      [reflexivity|vm_compute; reflexivity|lia].
Defined.

Lemma heights_cell_stride_257_witness :
  heights (parseSLK (bytes_of "256 256 0
")) !! (3 * 256 + 4)%nat = Some 0.
Proof.
  rewrite (heights_cell_stride_257 _ 10 3 4);
    [reflexivity|vm_compute; reflexivity|lia|lia].
Defined.

(** ** The offset of the binary block *)

Lemma indexOf_at_bounds (p s : jsstring) (k r : Z) :
  indexOf_at p s k = Some r -> k <= r <= k + Z.of_nat (length s).
Proof.
  revert k. induction s as [|c s IH]; intros k; cbn [indexOf_at].
  - destruct (startsWith p []); [|discriminate]. intros [= <-]. cbn [length]. lia.
  - destruct (startsWith p (c :: s)).
    + intros [= <-]. lia.
    + intros H. apply IH in H. cbn [length]. lia.
Qed.

Lemma indexOf_at_char_bounds (c : Z) (s : jsstring) (k r : Z) :
  indexOf_at [c] s k = Some r -> k <= r < k + Z.of_nat (length s).
Proof.
  revert k. induction s as [|x s IH]; intros k; cbn [indexOf_at startsWith].
  - discriminate.
  - destruct ((c =? x) && true).
    + intros [= <-]. cbn [length]. lia.
    + intros H. apply IH in H. cbn [length]. lia.
Qed.

Lemma indexOf_bounds (p s : jsstring) (from r : Z) :
  indexOf p s from = Some r -> 0 <= r <= Z.of_nat (length s).
Proof.
  unfold indexOf. intros H. apply indexOf_at_bounds in H.
  rewrite length_drop in H. lia.
Qed.

Lemma indexOf_char_bounds (c : Z) (s : jsstring) (from r : Z) :
  indexOf [c] s from = Some r -> 0 <= r < Z.of_nat (length s).
Proof.
  unfold indexOf. intros H. apply indexOf_at_char_bounds in H.
  rewrite length_drop in H. lia.
Qed.

Lemma skip_lines_bounds (n : nat) (text : jsstring) (pos : Z) :
  0 <= pos <= Z.of_nat (length text) ->
  0 <= skip_lines n text pos <= Z.of_nat (length text).
Proof.
  revert pos. induction n as [|n IH]; intros pos Hpos; cbn [skip_lines]; [exact Hpos|].
  destruct (indexOf [NL] text pos) as [nl|] eqn:E; [|exact Hpos].
  apply indexOf_char_bounds in E. apply IH. lia.
Qed.

Lemma locate_text_bounds (text : jsstring) (off : Z) :
  locate text = Some off -> 0 <= off <= Z.of_nat (length text).
Proof.
  unfold locate. destruct (find_dim (lines text)) as [N|]; [|discriminate].
  destruct (indexOf (dimString N) text 0) as [d|]; [|discriminate].
  intros [= <-]. apply skip_lines_bounds.
  destruct (indexOf [NL] text d) as [k|] eqn:E; [|lia].
  apply indexOf_char_bounds in E. lia.
Qed.

(** The decoder yields at most one code unit for each byte, counting the
    byte of an open sequence. *)
Lemma utf8_lead_length (b : Z) :
  (length (fst (utf8_lead b)) + pending (snd (utf8_lead b)) <= 1)%nat.
Proof.
  unfold utf8_lead.
  destruct (b <=? 127); [cbn; lia|].
  destruct (_ && _); [cbn; lia|].
  destruct (_ && _); [cbn; lia|].
  destruct (_ && _); cbn; lia.
Qed.

Lemma emit_cp_length (cp : Z) : (length (emit_cp cp) <= 2)%nat.
Proof. unfold emit_cp. destruct (_ <=? _); cbn; lia. Qed.

Lemma utf8_run_length (bs : list byte) (st : utf8_state) :
  (length (utf8_run st bs) <= length bs + pending st)%nat.
Proof.
  revert st. induction bs as [|b bs IH]; intros st; cbn [utf8_run length].
  - unfold pending. destruct (u_needed st =? 0); cbn; lia.
  - unfold utf8_step. unfold pending at 1.
    destruct (u_needed st =? 0) eqn:En.
    + pose proof (utf8_lead_length (Z.of_N (Byte.to_N b))) as Hl.
      destruct (utf8_lead (Z.of_N (Byte.to_N b))) as [out st']. cbn [fst snd] in Hl.
      rewrite length_app. specialize (IH st'). lia.
    + destruct (_ || _).
      * pose proof (utf8_lead_length (Z.of_N (Byte.to_N b))) as Hl.
        destruct (utf8_lead (Z.of_N (Byte.to_N b))) as [out st']. cbn [fst snd] in Hl.
        rewrite length_app. cbn [length]. specialize (IH st'). lia.
      * destruct (_ =? u_needed st).
        -- rewrite length_app. pose proof (emit_cp_length
             (Z.lor (Z.shiftl (u_cp st) 6) (Z.land (Z.of_N (Byte.to_N b)) 63))) as He.
           specialize (IH utf8_init). unfold pending in IH.
           cbn [u_needed utf8_init] in IH. rewrite Z.eqb_refl in IH. lia.
        -- cbn [app]. specialize (IH (Utf8 (Z.lor (Z.shiftl (u_cp st) 6)
                                                  (Z.land (Z.of_N (Byte.to_N b)) 63))
                                           (u_seen st + 1) (u_needed st) 128 191)).
           unfold pending in IH. cbn [u_needed] in IH. rewrite En in IH. lia.
Qed.

Lemma decode_length (bs : list byte) : (length (decode bs) <= length bs)%nat.
Proof.
  unfold decode. pose proof (utf8_run_length bs utf8_init) as H.
  unfold pending in H. cbn [u_needed utf8_init] in H. rewrite Z.eqb_refl in H.
  destruct (utf8_run utf8_init bs) as [|c r]; [cbn; lia|].
  destruct (c =? 65279); cbn [length] in *; lia.
Qed.

Lemma headerText_length (buffer : list byte) :
  Z.of_nat (length (headerText buffer)) <= 50000
  /\ Z.of_nat (length (headerText buffer)) <= blen buffer.
Proof.
  unfold headerText, blen. pose proof (decode_length (take HEADER_WINDOW buffer)) as H.
  rewrite length_take in H.
  set (n := length (decode (take HEADER_WINDOW buffer))) in *.
  unfold HEADER_WINDOW in H. lia.
Qed.

(** X5. The offset of the binary block is never negative, never beyond
    the 50000 bytes read as text and never beyond the end of the
    buffer. *)
Theorem binary_offset_within_header (buffer : list byte) (off : Z) :
  locate (headerText buffer) = Some off ->
  0 <= off <= 50000 /\ off <= blen buffer.
Proof.
  intros H. apply locate_text_bounds in H.
  pose proof (headerText_length buffer). lia.
Qed.

Lemma binary_offset_within_header_witness :
  0 <= 10 <= 50000 /\ 10 <= blen (bytes_of "256 256 0
").
Proof.
  apply (binary_offset_within_header (bytes_of "256 256 0
") 10). vm_compute. reflexivity.
Defined.

(** X6. A buffer no longer than the binary block (393216 bytes) has no
    footer: [parseSLK] returns no object and no citadel for it, whatever
    its header. *)
Theorem no_footer_in_short_buffer (buffer : list byte) :
  blen buffer <= BLOCK_BYTES ->
  objects (parseSLK buffer) = [] /\ citadels (parseSLK buffer) = [].
Proof.
  intros Hlen. unfold parseSLK.
  destruct (locate (headerText buffer)) as [off|] eqn:E; [|split; reflexivity].
  apply locate_text_bounds in E.
  destruct (Z.ltb_spec (off + BLOCK_BYTES) (blen buffer)); [lia|split; reflexivity].
Qed.

Lemma no_footer_in_short_buffer_witness :
  objects (parseSLK (bytes_of "256 256 0
slots 1
1 2 3
")) = [] /\ citadels (parseSLK (bytes_of "256 256 0
slots 1
1 2 3
")) = [].
Proof.
  apply no_footer_in_short_buffer. unfold BLOCK_BYTES. vm_compute. discriminate.
Defined.

(** X7. The last row of the height grid is read from the footer: for
    [col >= 1], cell [(255, col)] lies at [off + 393215 + col], which is
    byte [col - 1] of the text that follows the binary block. *)
Theorem last_height_row_reads_footer (buffer : list byte) (off : Z) (col : nat) (b : byte) :
  locate (headerText buffer) = Some off ->
  (1 <= col < 256)%nat ->
  drop (Z.to_nat (off + BLOCK_BYTES)) buffer !! (col - 1)%nat = Some b ->
  heights (parseSLK buffer) !! (255 * 256 + col)%nat = Some (Z.of_N (Byte.to_N b)).
Proof.
  intros Hloc Hcol Hb.
  rewrite parseSLK_heights, Hloc, layer5_lookup by lia. cbv zeta.
  change (5 * 65536) with 327680.
  apply locate_text_bounds in Hloc.
  rewrite lookup_drop in Hb.
  assert (Hidx : (Z.to_nat (off + BLOCK_BYTES) + (col - 1))%nat
                 = Z.to_nat (off + 327680 + Z.of_nat 255 * 257 + Z.of_nat col)).
  { unfold BLOCK_BYTES. lia. }
  rewrite Hidx in Hb.
  pose proof (lookup_lt_Some _ _ _ Hb) as Hlt.
  destruct (Z.ltb_spec (off + 327680 + Z.of_nat 255 * 257 + Z.of_nat col) (blen buffer))
    as [_|Hge]; [|unfold blen in Hge; lia].
  unfold byte_at.
  destruct (Z.ltb_spec (off + 327680 + Z.of_nat 255 * 257 + Z.of_nat col) 0); [lia|].
  rewrite Hb. reflexivity.
Qed.

Lemma citadel_file_drop :
  drop (Z.to_nat (38 + BLOCK_BYTES)) citadel_file = citadel_footer.
Proof.
  unfold citadel_file.
  set (header := bytes_of _).
  assert (Hh : length header = 38%nat) by reflexivity.
  rewrite app_assoc.
  apply drop_app_length'. rewrite length_app, length_replicate, Hh.
  unfold BLOCK_BYTES. lia.
Qed.

Lemma last_height_row_reads_footer_witness :
  heights (parseSLK citadel_file) !! (255 * 256 + 1)%nat = Some 99
  /\ heights (parseSLK citadel_file) !! (255 * 256 + 2)%nat = Some 105.
Proof.
  split.
  - apply (last_height_row_reads_footer citadel_file 38 1 "c"%byte citadel_file_offset);
      [lia|]. rewrite citadel_file_drop. reflexivity.
  - apply (last_height_row_reads_footer citadel_file 38 2 "i"%byte citadel_file_offset);
      [lia|]. rewrite citadel_file_drop. reflexivity.
Defined.

(** ** The records of the footer *)

Lemma parseFooter_run (tbl : gmap Z jsstring) (footerBuffer : list byte) :
  parseFooter tbl footerBuffer = footer_run tbl (split_on NL (decode footerBuffer)).
Proof. reflexivity. Qed.

Lemma or0_number (v : jsfloat) : isNaN (or0 v) = false.
Proof. destruct v as [| |neg m e]; cbn; [reflexivity|reflexivity|]. now destruct (rounds_to_zero m e). Qed.

Lemma model_name_nonempty (tbl : gmap Z jsstring) (id : jsint) : model_name tbl id <> [].
Proof.
  assert (Hf : lit "Unknown_" ++ istr id <> []) by discriminate.
  unfold model_name. destruct id as [|n]; [exact Hf|].
  destruct (tbl !! n) as [name|]; [|exact Hf].
  destruct name; [exact Hf|discriminate].
Qed.

Lemma leave_if_done_inv (st : footer_state) (m : mode) :
  footer_inv st -> footer_inv (leave_if_done st m).
Proof. unfold leave_if_done. now destruct (ile0 _). Qed.

Lemma flush_inv (st : footer_state) : footer_inv st -> footer_inv (flush st).
Proof.
  intros Hinv. pose proof Hinv as (Ho & Hc & Hp). unfold flush.
  destruct (currentCitadel st) as [[[b|] ups]|] eqn:E; try exact Hinv.
  cbn [upgrades base] in Hp. destruct Hp as [Hups Hb].
  unfold footer_inv. cbn [f_objects f_citadels currentCitadel push_objects push_citadel].
  rewrite E. cbn [upgrades base]. split; [|split; [|split; assumption]].
  - apply Forall_app. split; [exact Ho|].
    eapply Forall_impl; [exact Hups|]. intros o (Ht & Hy & Hm & Hx & Hr).
    split; [exact Hx|]. split; [exact Hr|]. right. left. auto.
  - apply Forall_app. split; [exact Hc|]. constructor; [exact Hb|constructor].
Qed.

Lemma footer_step_inv (tbl : gmap Z jsstring) (st : footer_state) (raw : jsstring) :
  footer_inv st -> footer_inv (footer_step tbl st raw).
Proof.
  intros Hinv. pose proof Hinv as (Ho & Hc & Hp). unfold footer_step.
  destruct (_ || _); [exact Hinv|].
  set (parts := split_ws (trim raw)).
  destruct (f_mode st).
  - (* outside any section *)
    destruct (startsWith (lit "slots ") _); [exact Hinv|].
    destruct (startsWith (lit "citadel ") _).
    { split; [exact Ho|]. split; [exact Hc|]. cbn. split; [constructor|exact I]. }
    destruct (startsWith (lit "objects ") _); exact Hinv.
  - (* slots *)
    apply leave_if_done_inv. destruct (2 <=? length parts)%nat; [|exact Hinv].
    destruct (isNaN (x (slot_object parts))) eqn:Ex; cbn [negb]; [exact Hinv|].
    split; [|split; [exact Hc|exact Hp]].
    cbn [f_objects with_count push_objects]. apply Forall_app. split; [exact Ho|].
    constructor; [|constructor]. split; [exact Ex|]. split.
    + eexists. split; [reflexivity|apply or0_number].
    + left. repeat split.
  - (* citadel block *)
    destruct (startsWith (lit "base ") _).
    { destruct (currentCitadel st) as [c|] eqn:E; [|exact Hinv].
      split; [exact Ho|]. split; [exact Hc|].
      cbn [currentCitadel with_citadel upgrades base]. split; [apply Hp|].
      split; [reflexivity|]. split; [reflexivity|]. split; [reflexivity|].
      eexists. split; [reflexivity|apply or0_number]. }
    destruct (startsWith (lit "upgrades ") _); [exact Hinv|].
    destruct (startsWith (lit "citadel ") _).
    { destruct (flush_inv st Hinv) as (Ho' & Hc' & _).
      split; [exact Ho'|]. split; [exact Hc'|]. cbn. split; [constructor|exact I]. }
    destruct (startsWith (lit "objects ") _); [|exact Hinv].
    exact (flush_inv st Hinv).
  - (* citadel upgrades *)
    apply leave_if_done_inv. destruct (3 <=? length parts)%nat; [|exact Hinv].
    destruct (currentCitadel st) as [c|] eqn:E; [|exact Hinv].
    destruct (isNaN (x (upgrade_object parts))) eqn:Ex; cbn [negb]; [exact Hinv|].
    split; [exact Ho|]. split; [exact Hc|].
    cbn [currentCitadel with_count with_citadel upgrades base].
    destruct Hp as [Hups Hb]. split; [|exact Hb].
    apply Forall_app. split; [exact Hups|]. constructor; [|constructor].
    split; [reflexivity|]. split; [reflexivity|]. split; [reflexivity|].
    split; [exact Ex|]. eexists. split; [reflexivity|apply or0_number].
  - (* objects *)
    apply leave_if_done_inv. destruct (6 <=? length parts)%nat; [|exact Hinv].
    destruct (isNaN (x (placed_object tbl parts))) eqn:Ex; cbn [negb]; [exact Hinv|].
    split; [|split; [exact Hc|exact Hp]].
    cbn [f_objects with_count push_objects]. apply Forall_app. split; [exact Ho|].
    constructor; [|constructor]. split; [exact Ex|]. split.
    + eexists. split; [reflexivity|apply or0_number].
    + right. right. eexists _, _. split; [reflexivity|]. split; [reflexivity|].
      apply model_name_nonempty.
Qed.

Lemma footer_run_inv (tbl : gmap Z jsstring) (ls : list jsstring) : footer_inv (footer_run tbl ls).
Proof.
  unfold footer_run. apply flush_inv.
  assert (H0 : footer_inv footer_init) by (repeat split; constructor).
  revert H0. generalize footer_init. induction ls as [|l ls IH]; intros st Hst; [exact Hst|].
  cbn [fold_left]. apply IH, footer_step_inv, Hst.
Qed.

Lemma parseSLK_records (buffer : list byte) :
  Forall object_record (objects (parseSLK buffer))
  /\ Forall citadel_record (citadels (parseSLK buffer)).
Proof.
  unfold parseSLK. destruct (locate _) as [off|]; [|split; constructor].
  destruct (_ <? _); [|split; constructor].
  cbn [objects citadels]. rewrite parseFooter_run.
  destruct (footer_run_inv (model_table (lines (headerText buffer)))
              (split_on NL (decode (drop (Z.to_nat (off + BLOCK_BYTES)) buffer))))
    as (Ho & Hc & _).
  split; assumption.
Qed.

(** X8. The two lists of [parseSLK] never mix: every record of the
    citadels list is a [CITADEL_BASE], and no record of the objects list
    is one (it is a [SLOT], a [CITADEL_UPGRADE] or an [OBJ_<id>]). *)
Theorem citadels_and_objects_never_mix (buffer : list byte) :
  Forall (fun o => type o = lit "CITADEL_BASE") (citadels (parseSLK buffer))
  /\ Forall (fun o => type o <> lit "CITADEL_BASE"
                      /\ (type o = lit "SLOT" \/ type o = lit "CITADEL_UPGRADE"
                          \/ startsWith (lit "OBJ_") (type o) = true))
            (objects (parseSLK buffer)).
Proof.
  destruct (parseSLK_records buffer) as [Ho Hc]. split.
  - eapply Forall_impl; [exact Hc|]. now intros o (Ht & _).
  - eapply Forall_impl; [exact Ho|]. intros o (_ & _ & [(Ht & _)|[(Ht & _)|(id & name & Ht & _)]]);
      rewrite Ht.
    + split; [discriminate|now left].
    + split; [discriminate|right; now left].
    + split; [discriminate|]. right. right. apply startsWith_self.
Qed.

(** X9. Every record [parseSLK] returns has a rotation that is a number
    (an unparsable or missing rotation became 0); every object has an x
    that is a number, and a placed object has a model name that is not
    empty; slots, upgrades and citadel bases have y = 0. *)
Theorem records_are_well_formed (buffer : list byte) :
  Forall (fun o => isNaN (x o) = false
                   /\ (exists r, rotation o = Some r /\ isNaN r = false)
                   /\ (startsWith (lit "OBJ_") (type o) = true ->
                       exists name, modelName o = Some name /\ name <> [])
                   /\ (startsWith (lit "OBJ_") (type o) = false -> y o = fzero))
         (objects (parseSLK buffer))
  /\ Forall (fun o => (exists r, rotation o = Some r /\ isNaN r = false) /\ y o = fzero)
            (citadels (parseSLK buffer)).
Proof.
  destruct (parseSLK_records buffer) as [Ho Hc]. split.
  - eapply Forall_impl; [exact Ho|]. intros o (Hx & Hr & Hk).
    split; [exact Hx|]. split; [exact Hr|].
    destruct Hk as [(Ht & Hy & _)|[(Ht & Hy & _)|(id & name & Ht & Hm & Hn)]]; rewrite Ht.
    + split; [discriminate|intros _; exact Hy].
    + split; [discriminate|intros _; exact Hy].
    + split; [eauto|]. rewrite startsWith_self. discriminate.
  - eapply Forall_impl; [exact Hc|]. intros o (_ & Hy & _ & Hr). split; assumption.
Qed.

(** ** Lines of the footer *)

Lemma footer_step_skippable (tbl : gmap Z jsstring) (st : footer_state) (raw : jsstring) :
  skippable raw = true -> footer_step tbl st raw = st.
Proof. unfold skippable, footer_step. now intros ->. Qed.

(** X10. Blank lines and lines that start with [#] change nothing in any
    mode: the footer decodes as it does with those lines removed. *)
Theorem comments_and_blanks_are_transparent
    (tbl : gmap Z jsstring) (ls : list jsstring) (st : footer_state) :
  fold_left (footer_step tbl) ls st
  = fold_left (footer_step tbl) (List.filter (fun l => negb (skippable l)) ls) st
  /\ footer_run tbl ls = footer_run tbl (List.filter (fun l => negb (skippable l)) ls).
Proof.
  assert (H : forall st, fold_left (footer_step tbl) ls st
              = fold_left (footer_step tbl) (List.filter (fun l => negb (skippable l)) ls) st).
  { induction ls as [|l ls IH]; intros st0; [reflexivity|]. cbn [fold_left List.filter].
    destruct (skippable l) eqn:E; cbn [negb].
    - rewrite footer_step_skippable by exact E. apply IH.
    - cbn [fold_left]. apply IH. }
  split; [apply H|]. unfold footer_run. now rewrite H.
Qed.

(** X11. A counted section whose count did not parse ([slots x]) never
    ends: the count stays NaN and the mode stays what it is for every
    line that follows. *)
Theorem unparsable_count_traps_section
    (tbl : gmap Z jsstring) (ls : list jsstring) (st : footer_state) :
  counted (f_mode st) = true ->
  f_count st = INaN ->
  f_mode (fold_left (footer_step tbl) ls st) = f_mode st
  /\ f_count (fold_left (footer_step tbl) ls st) = INaN.
Proof.
  revert st. induction ls as [|l ls IH]; intros st Hm Hc; [now split|].
  cbn [fold_left].
  assert (Hstep : f_mode (footer_step tbl st l) = f_mode st
                  /\ f_count (footer_step tbl st l) = INaN).
  { unfold footer_step. destruct (_ || _); [now split|].
    destruct (f_mode st) eqn:Em; try discriminate.
    - destruct (2 <=? _)%nat; [destruct (negb _)|];
        unfold leave_if_done; cbn [f_count f_mode with_count push_objects];
        rewrite Hc; cbn [idec ile0]; rewrite ?Hc, ?Em; now split.
    - destruct (3 <=? _)%nat; [destruct (currentCitadel st); [destruct (negb _)|]|];
        unfold leave_if_done; cbn [f_count f_mode with_count with_citadel];
        rewrite Hc; cbn [idec ile0]; rewrite ?Hc, ?Em; now split.
    - destruct (6 <=? _)%nat; [destruct (negb _)|];
        unfold leave_if_done; cbn [f_count f_mode with_count push_objects];
        rewrite Hc; cbn [idec ile0]; rewrite ?Hc, ?Em; now split. }
  destruct Hstep as [Hm' Hc'].
  destruct (IH (footer_step tbl st l)) as [H1 H2]; [now rewrite Hm'|exact Hc'|].
  split; [now rewrite H1|exact H2].
Qed.

Lemma unparsable_count_traps_section_witness :
  let st := footer_step ∅ footer_init (lit "slots many") in
  let ls := [lit "1 2 3"; lit "objects 1"; lit "citadel 0"] in
  f_mode (fold_left (footer_step ∅) ls st) = f_mode st
  /\ f_count (fold_left (footer_step ∅) ls st) = INaN.
Proof.
  cbv zeta.
  apply (unparsable_count_traps_section ∅); vm_compute; reflexivity.
Defined.

Lemma slot_line_step (tbl : gmap Z jsstring) (st : footer_state) (raw : jsstring) :
  f_mode st = M_SLOTS -> slot_line raw = true ->
  footer_step tbl st raw
  = leave_if_done (with_count (push_objects st [slot_of raw]) (idec (f_count st))) M_NONE.
Proof.
  intros Hm Hl. unfold slot_line in Hl.
  apply andb_true_iff in Hl as [Hl Hx]. apply andb_true_iff in Hl as [Hs Hn].
  apply negb_true_iff in Hs. unfold skippable in Hs.
  unfold footer_step. rewrite Hs, Hm, Hn. cbn [x slot_object]. rewrite Hx. reflexivity.
Qed.

(** X12. A slots section that announces [n >= 1] records and is followed
    by [n] record lines yields the [n] slots of those lines, in order,
    and then is over: the mode is back to none with the count at 0. *)
Theorem slots_section_yields_its_records
    (tbl : gmap Z jsstring) (ls : list jsstring) (st : footer_state) :
  f_mode st = M_SLOTS ->
  f_count st = IInt (Z.of_nat (length ls)) ->
  ls <> [] ->
  Forall (fun l => slot_line l = true) ls ->
  fold_left (footer_step tbl) ls st
  = mkFooter M_NONE (IInt 0) (currentCitadel st)
             (f_objects st ++ List.map slot_of ls) (f_citadels st).
Proof.
  revert st. induction ls as [|l ls IH]; intros st Hm Hc Hne Hls; [congruence|].
  inversion Hls as [|? ? Hl Hls']; subst. cbn [fold_left].
  rewrite slot_line_step by assumption. rewrite Hc. cbn [idec length].
  replace (Z.of_nat (S (length ls)) - 1) with (Z.of_nat (length ls)) by lia.
  unfold leave_if_done. cbn [f_count with_count ile0].
  destruct ls as [|l' ls'].
  - cbn [length fold_left List.map]. destruct st; reflexivity.
  - destruct (Z.leb_spec (Z.of_nat (length (l' :: ls'))) 0) as [Hle|_];
      [cbn [length] in Hle; lia|].
    rewrite IH; [|cbn; exact Hm|reflexivity|discriminate|exact Hls'].
    cbn [currentCitadel f_objects f_citadels with_count push_objects List.map].
    rewrite <- app_assoc. reflexivity.
Qed.

Lemma slots_section_yields_its_records_witness :
  fold_left (footer_step ∅) [lit "10 20 0"; lit " 30 40 90 "]
            (footer_step ∅ footer_init (lit "slots 2"))
  = mkFooter M_NONE (IInt 0) None
             ([] ++ List.map slot_of [lit "10 20 0"; lit " 30 40 90 "]) [].
Proof.
  apply (slots_section_yields_its_records ∅ [lit "10 20 0"; lit " 30 40 90 "]
           (footer_step ∅ footer_init (lit "slots 2"))).
  - reflexivity.
  - reflexivity.
  - discriminate.
  - repeat constructor.
Defined.



(** ** The pending citadel *)

Lemma outside_citadel_step (tbl : gmap Z jsstring) (st : footer_state) (raw : jsstring) :
  outside_citadel (f_mode st) = true -> not_citadel_line raw ->
  outside_citadel (f_mode (footer_step tbl st raw)) = true
  /\ currentCitadel (footer_step tbl st raw) = currentCitadel st
  /\ f_citadels (footer_step tbl st raw) = f_citadels st.
Proof.
  intros Hm Hl. unfold not_citadel_line in Hl. unfold footer_step.
  destruct (_ || _); [now repeat split|].
  destruct (f_mode st) eqn:Em; try discriminate.
  - destruct (startsWith (lit "slots ") _); [now repeat split|].
    rewrite Hl. destruct (startsWith (lit "objects ") _); cbn; rewrite ?Em; now repeat split.
  - destruct (2 <=? _)%nat; [destruct (negb _)|];
      unfold leave_if_done; destruct (ile0 _); cbn; rewrite ?Em; now repeat split.
  - destruct (6 <=? _)%nat; [destruct (negb _)|];
      unfold leave_if_done; destruct (ile0 _); cbn; rewrite ?Em; now repeat split.
Qed.

Lemma outside_citadel_fold (tbl : gmap Z jsstring) (ls : list jsstring) (st : footer_state) :
  outside_citadel (f_mode st) = true -> Forall not_citadel_line ls ->
  currentCitadel (fold_left (footer_step tbl) ls st) = currentCitadel st
  /\ f_citadels (fold_left (footer_step tbl) ls st) = f_citadels st.
Proof.
  revert st. induction ls as [|l ls IH]; intros st Hm Hls; [now split|].
  inversion Hls as [|? ? Hl Hls']; subst. cbn [fold_left].
  destruct (outside_citadel_step tbl st l Hm Hl) as (Hm' & Hc' & Hk').
  destruct (IH _ Hm' Hls') as [H1 H2]. split; congruence.
Qed.

Lemma objects_line_head (t : jsstring) :
  startsWith (lit "objects ") t = true ->
  is_empty t || startsWith (lit "#") t = false
  /\ startsWith (lit "base ") t = false
  /\ startsWith (lit "upgrades ") t = false
  /\ startsWith (lit "citadel ") t = false.
Proof.
  destruct t as [|c r]; [discriminate|]. intros H.
  assert (Hc : c = 111).
  { change (lit "objects ") with (111 :: lit "bjects ") in H. cbn [startsWith] in H.
    apply andb_true_iff in H as [H _]. apply Z.eqb_eq in H. congruence. }
  subst c. repeat split; reflexivity.
Qed.

(** X14. A pending citadel with a base is pushed when an [objects] line
    ends its block, and, since it stays pending, once more at the end of
    the footer: unless a later line opens a new citadel, its base is in
    the citadels list twice. *)
Theorem citadel_before_objects_is_listed_twice
    (tbl : gmap Z jsstring) (st : footer_state) (raw : jsstring) (rest : list jsstring)
    (b : LevelObject) (ups : list LevelObject) :
  f_mode st = M_CITADEL_BLOCK ->
  currentCitadel st = Some (mkCitadel (Some b) ups) ->
  startsWith (lit "objects ") (trim raw) = true ->
  Forall not_citadel_line rest ->
  f_citadels (flush (fold_left (footer_step tbl) (raw :: rest) st))
  = f_citadels st ++ [b; b].
Proof.
  intros Hm Hc Hraw Hrest. cbn [fold_left].
  destruct (objects_line_head _ Hraw) as (Hs & Hb & Hu & Hk).
  assert (Hstep : footer_step tbl st raw
                  = with_count (with_mode (flush st) M_OBJECTS)
                               (parseInt (split_ws (trim raw) !! 1%nat))).
  { unfold footer_step. rewrite Hs, Hm, Hb, Hu, Hk, Hraw. reflexivity. }
  rewrite Hstep.
  set (st1 := with_count _ _).
  assert (H1 : currentCitadel st1 = Some (mkCitadel (Some b) ups)
               /\ f_citadels st1 = f_citadels st ++ [b]).
  { unfold st1, flush. rewrite Hc. cbn. now rewrite Hc. }
  destruct H1 as [Hc1 Hk1].
  destruct (outside_citadel_fold tbl rest st1 eq_refl Hrest) as [Hc2 Hk2].
  unfold flush. rewrite Hc2, Hc1. cbn [f_citadels push_objects push_citadel].
  rewrite Hk2, Hk1, <- app_assoc. reflexivity.
Qed.

Lemma citadel_before_objects_is_listed_twice_witness :
  let st := fold_left (footer_step ∅) [lit "citadel 0"; lit "base 5 5 0"] footer_init in
  let b := base_object (split_ws (lit "base 5 5 0")) in
  f_citadels (flush (fold_left (footer_step ∅)
                       (lit "objects 1" :: [lit "33 8 1 2 3 4"]) st))
  = f_citadels st ++ [b; b].
Proof.
  cbv zeta.
  apply (citadel_before_objects_is_listed_twice ∅ _ (lit "objects 1")
           [lit "33 8 1 2 3 4"] (base_object (split_ws (lit "base 5 5 0"))) []).
  - reflexivity.
  - reflexivity.
  - reflexivity.
  - repeat constructor.
Defined.

(** ** [parseLFL]: the entries of the configuration *)

Lemma join_In (sep : jsstring) (l : list jsstring) (x : Z) :
  In x (join sep l) -> In x sep \/ exists a, In a l /\ In x a.
Proof.
  induction l as [|a r IH]; [intros []|].
  destruct r as [|b r'].
  - intros H. right. exists a. split; [now left|exact H].
  - change (join sep (a :: b :: r')) with (a ++ sep ++ join sep (b :: r')).
    intros H. apply in_app_iff in H as [H|H]; [right; exists a; split; [now left|exact H]|].
    apply in_app_iff in H as [H|H]; [now left|].
    destruct (IH H) as [H'|[c [Hc Hx]]]; [now left|].
    right. exists c. split; [now right|exact Hx].
Qed.

Lemma lfl_step_inv (m : gmap jsstring jsstring) (line : jsstring) :
  ~ In NL line -> map_Forall lfl_entry m ->
  exists m', lfl_step (Some m) line = Some m' /\ map_Forall lfl_entry m'.
Proof.
  intros Hnl Hm. unfold lfl_step. destruct (_ || _); [eauto|].
  destruct (split_on 58 line) as [|key values] eqn:E; [now apply split_on_nonempty in E|].
  pose proof (split_on_pieces 58 line) as Hp. rewrite E in Hp.
  inversion Hp as [|? ? [Hk Hsub] Hvs]; subst.
  eexists. split; [reflexivity|]. unfold obj_set.
  destruct (str_eqb (trim key) (lit "__proto__")) eqn:Ek; [exact Hm|].
  apply map_Forall_insert_2; [|exact Hm]. unfold lfl_entry.
  split; [apply trim_idem|]. split; [apply trim_idem|].
  split; [intros H; apply trim_In in H; tauto|].
  split; [intros H; apply trim_In, Hsub in H; tauto|].
  split.
  - intros H. apply trim_In, join_In in H as [H|[a [Ha Hx]]].
    + destruct H as [H|[]]. discriminate H.
    + rewrite List.Forall_forall in Hvs. apply Hvs in Ha as [_ Ha]. apply Ha in Hx. tauto.
  - intros Heq. rewrite Heq, str_eqb_refl in Ek. discriminate.
Qed.

(** X15. [parseLFL] returns a configuration whose keys are trimmed, hold
    no colon and are never [__proto__], and whose values are trimmed;
    neither holds a line break. *)
Theorem parseLFL_entries_are_trimmed (content : jsstring) :
  exists m, parseLFL content = Some m /\ map_Forall lfl_entry m.
Proof.
  unfold parseLFL.
  assert (Hls : Forall (fun l => ~ In NL l) (split_on NL content)).
  { eapply Forall_impl; [apply split_on_pieces|]. now intros l [H _]. }
  assert (H0 : map_Forall lfl_entry (∅ : gmap jsstring jsstring)) by apply map_Forall_empty.
  revert H0. generalize (∅ : gmap jsstring jsstring) as m.
  induction Hls as [|l ls Hl _ IH]; intros m Hm; cbn [fold_left]; [eauto|].
  destruct (lfl_step_inv m l Hl Hm) as [m' [-> Hm']]. now apply IH.
Qed.

Lemma split_on_app (c : Z) (a b : jsstring) :
  split_on c (a ++ c :: b) = split_on c a ++ split_on c b.
Proof.
  induction a as [|x a IH]; cbn [app split_on].
  - now rewrite Z.eqb_refl.
  - destruct (x =? c); [now rewrite IH|]. rewrite IH.
    destruct (split_on c a) as [|l ls] eqn:E; [now apply split_on_nonempty in E|].
    reflexivity.
Qed.

Lemma join_split (c : Z) (v : jsstring) : join [c] (split_on c v) = v.
Proof.
  induction v as [|x v IH]; [reflexivity|]. cbn [split_on].
  destruct (Z.eqb_spec x c) as [->|Hne].
  - destruct (split_on c v) as [|l ls] eqn:E; [now apply split_on_nonempty in E|].
    change (join [c] ([] :: l :: ls)) with (c :: join [c] (l :: ls)). now rewrite IH.
  - destruct (split_on c v) as [|l ls] eqn:E; [now apply split_on_nonempty in E|].
    rewrite <- IH. destruct ls; reflexivity.
Qed.

Lemma includes_false (c : Z) (s : jsstring) : includes c s = false -> ~ In c s.
Proof.
  unfold includes. intros H Hin.
  assert (E : existsb (Z.eqb c) s = true).
  { apply existsb_exists. exists c. split; [exact Hin|apply Z.eqb_refl]. }
  congruence.
Qed.

Lemma fold_lfl_some (ls : list jsstring) (m : gmap jsstring jsstring) :
  is_Some (fold_left lfl_step ls (Some m)).
Proof.
  revert m. induction ls as [|l ls IH]; intros m; cbn [fold_left]; [eauto|].
  destruct (lfl_step_some m l) as [m' ->]. apply IH.
Qed.

(** X16. The last line of a configuration file, [k:v], defines [k]
    whatever came before it, and colons inside [v] belong to the value:
    the configuration maps the trimmed [k] to the trimmed [v]. *)
Theorem parseLFL_last_definition_wins (pre k v : jsstring) :
  includes NL k = false -> includes NL v = false -> includes 58 k = false ->
  startsWith (lit "#") (trim (k ++ 58 :: v)) = false ->
  str_eqb (trim k) (lit "__proto__") = false ->
  exists m, parseLFL (pre ++ NL :: k ++ 58 :: v) = Some m /\ m !! trim k = Some (trim v).
Proof.
  intros Hk Hv Hc Hcom Hproto.
  apply includes_false in Hk, Hv, Hc.
  unfold parseLFL. rewrite split_on_app, fold_left_app.
  rewrite (split_on_none NL (k ++ 58 :: v)).
  2:{ intros H. apply in_app_iff in H as [H|[H|H]]; [tauto|discriminate H|tauto]. }
  destruct (fold_lfl_some (split_on NL pre) ∅) as [m0 ->].
  cbn [fold_left]. unfold lfl_step. rewrite Hcom.
  assert (Hinc : includes 58 (k ++ 58 :: v) = true).
  { unfold includes. rewrite existsb_app. cbn [existsb]. rewrite Z.eqb_refl.
    cbn [orb]. apply orb_true_r. }
  rewrite Hinc. cbn [negb orb]. rewrite split_on_app_sep by exact Hc.
  change (lit ":") with [58]. rewrite join_split.
  eexists. split; [reflexivity|]. unfold obj_set. rewrite Hproto.
  apply lookup_insert_eq.
Qed.

Lemma parseLFL_last_definition_wins_witness :
  exists m, parseLFL (lit "SLK_FILE: a.slk" ++ NL :: lit " slk_file " ++ 58 :: lit " c:\maps\b.slk ")
            = Some m
            /\ m !! trim (lit " slk_file ") = Some (trim (lit " c:\maps\b.slk ")).
Proof.
  apply (parseLFL_last_definition_wins (lit "SLK_FILE: a.slk") (lit " slk_file ")
           (lit " c:\maps\b.slk ")); reflexivity.
Defined.

(** ** [parseCAM]: text outside the sections *)

Lemma cam_step_outside (d : CamData) (l : jsstring) :
  opener (trim l) = false -> cam_step (S_NONE, d) l = (S_NONE, d).
Proof.
  intros H. unfold opener in H. cbn [existsb] in H.
  repeat (apply orb_false_iff in H; destruct H as [? H]).
  unfold cam_step. cbv zeta.
  repeat match goal with E : str_eqb _ _ = false |- _ => rewrite E; clear E end.
  repeat (destruct (str_eqb (trim l) _); [reflexivity|]). reflexivity.
Qed.

(** X17. A narrative text in which no line is an opening marker gives
    the empty record: text outside the sections is dropped. *)
Theorem text_outside_sections_is_dropped (content : jsstring) :
  Forall (fun l => opener (trim l) = false) (cam_lines content) ->
  parseCAM content = mkCam None [] [] [].
Proof.
  intros H. unfold parseCAM.
  assert (E : fold_left cam_step (cam_lines content) (S_NONE, mkCam None [] [] [])
              = (S_NONE, mkCam None [] [] [])).
  { induction H as [|l ls Hl _ IH]; [reflexivity|].
    cbn [fold_left]. now rewrite cam_step_outside. }
  now rewrite E.
Qed.

Lemma text_outside_sections_is_dropped_witness :
  parseCAM (lit "Briefing
OBJECTIVE_END
 objective_begin
42
") = mkCam None [] [] [].
Proof.
  apply text_outside_sections_is_dropped.
  repeat (first [apply List.Forall_nil | apply List.Forall_cons; [reflexivity|]]).
Defined.

(** ** [parseCAM]: the shape of the fields *)

Lemma field_ok_whole (pi4 : bool) (c : jsstring) : field_ok pi4 c -> whole_lines c.
Proof.
  intros [ks (-> & Hk & _)]. rewrite List.Forall_forall in Hk.
  split; [|split].
  - intros H. apply flat_In in H as [H|[l [Hl Hx]]]; [discriminate H|].
    apply Hk in Hl as [(_ & Hl & _) _]. tauto.
  - intros H. apply flat_In in H as [H|[l [Hl Hx]]]; [discriminate H|].
    apply Hk in Hl as [(_ & _ & Hl) _]. tauto.
  - destruct ks as [|l ks' _] using rev_ind; [now left|].
    right. exists (flat ks' ++ l). now rewrite flat_app, app_assoc.
Qed.

(** X18. Each text field of the record of [parseCAM] is made of whole
    lines, every one closed by a line break, and holds no carriage
    return and no replacement character; a ranking is one trimmed line
    that is not empty. *)
Theorem parseCAM_fields_are_whole_lines (content : jsstring) :
  whole_lines (objective (parseCAM content))
  /\ whole_lines (spyInfo (parseCAM content))
  /\ whole_lines (description (parseCAM content))
  /\ match ranking (parseCAM content) with
     | Some r => r <> [] /\ trim r = r /\ clean r
     | None => True
     end.
Proof.
  destruct (parseCAM_inv content) as (Ho & Hs & Hd & Hr).
  split; [|split; [|split]]; try (eapply field_ok_whole; eassumption).
  destruct (ranking (parseCAM content)) as [r|]; [|exact I].
  destruct Hr as (Hc & _ & Ht & Hne). exact (conj Hne (conj Ht Hc)).
Qed.

Lemma lines_flat (ks : list jsstring) :
  Forall content_line ks -> lines (flat ks) = ks ++ [[]].
Proof.
  intros Hk. unfold lines. rewrite <- (app_nil_r (flat ks)). rewrite split_on_flat; [reflexivity|].
  eapply Forall_impl; [exact Hk|]. now intros l [[H _] _].
Qed.

Lemma head_not_number_lines (ks : list jsstring) :
  head_not_number ks -> head_not_number (ks ++ [[]]).
Proof. destruct ks as [|l ks]; [reflexivity|exact id]. Qed.

(** X19. In the record of [parseCAM] no line of the spy-info text starts,
    once trimmed, with [PI4], and the first line of a text field is never
    a number alone. *)
Theorem parseCAM_keeps_no_PI4_and_no_leading_number (content : jsstring) :
  Forall not_pi4 (lines (spyInfo (parseCAM content)))
  /\ head_not_number (lines (objective (parseCAM content)))
  /\ head_not_number (lines (spyInfo (parseCAM content)))
  /\ head_not_number (lines (description (parseCAM content))).
Proof.
  destruct (parseCAM_inv content) as (Ho & Hs & Hd & _).
  destruct Ho as [ko (-> & Hko & Hho & _)].
  destruct Hs as [ks (-> & Hks & Hhs & Hps)].
  destruct Hd as [kd (-> & Hkd & Hhd & _)].
  rewrite !lines_flat by assumption.
  split; [|split; [|split]]; try now apply head_not_number_lines.
  apply Forall_app. split; [now apply Hps|]. constructor; [reflexivity|constructor].
Qed.

(** ** [parseCAM]: a file with its three sections *)

Lemma cam_lines_flat (ls : list jsstring) : Forall clean ls -> cam_lines (flat ls) = ls ++ [[]].
Proof.
  intros Hk. unfold cam_lines. rewrite List.Forall_forall in Hk.
  rewrite (replace_all_id 65533).
  2:{ intros H. apply flat_In in H as [H|[l [Hl Hx]]]; [discriminate H|].
      apply Hk in Hl as (_ & _ & Hl). tauto. }
  rewrite (replace_all_id CR).
  2:{ intros H. apply flat_In in H as [H|[l [Hl Hx]]]; [discriminate H|].
      apply Hk in Hl as (_ & Hl & _). tauto. }
  rewrite <- (app_nil_r (flat ls)). rewrite split_on_flat; [reflexivity|].
  apply List.Forall_forall. intros l Hl. apply Hk in Hl. now destruct Hl.
Qed.

Lemma cam_step_open (sec : section) (d : CamData) :
  cam_step (sec, d) (lit "OBJECTIVE_BEGIN") = (S_OBJECTIVE, d)
  /\ cam_step (sec, d) (lit "SPYINFO_BEGIN") = (S_SPYINFO, d)
  /\ cam_step (sec, d) (lit "DESCRIPTION_BEGIN") = (S_DESCRIPTION, d)
  /\ cam_step (sec, d) (lit "CAMPAIGN_RANKING") = (S_RANKING, d).
Proof. repeat (apply conj); reflexivity. Qed.

Lemma cam_step_close (sec : section) (d : CamData) :
  cam_step (sec, d) (lit "OBJECTIVE_END") = (S_NONE, d)
  /\ cam_step (sec, d) (lit "SPYINFO_END") = (S_NONE, d)
  /\ cam_step (sec, d) (lit "DESCRIPTION_END") = (S_NONE, d).
Proof. repeat (apply conj); reflexivity. Qed.

Lemma count_header_no_marker (n : jsstring) : count_header n -> is_marker (trim n) = false.
Proof.
  intros [_ Hd]. destruct (is_marker (trim n)) eqn:E; [|reflexivity].
  apply is_marker_spec in E. unfold markers in E. cbn [In] in E.
  repeat (destruct E as [E|E]; [rewrite <- E in Hd; discriminate Hd|]). destruct E.
Qed.

Lemma count_header_skipped (n : jsstring) (r : option jsstring) (o s dd : jsstring) :
  count_header n ->
  cam_step (S_OBJECTIVE, mkCam r [] s dd) n = (S_OBJECTIVE, mkCam r [] s dd)
  /\ cam_step (S_SPYINFO, mkCam r o [] dd) n = (S_SPYINFO, mkCam r o [] dd)
  /\ cam_step (S_DESCRIPTION, mkCam r o s []) n = (S_DESCRIPTION, mkCam r o s []).
Proof.
  intros Hn. pose proof (count_header_no_marker n Hn) as Hm. destruct Hn as [_ Hd].
  rewrite !cam_step_content by exact Hm. cbn [in_section objective spyInfo description is_empty].
  rewrite Hd. repeat (apply conj); reflexivity.
Qed.

Lemma section_lines_clean (pi4 : bool) (ks : list jsstring) : section_lines pi4 ks -> Forall clean ks.
Proof. intros [H _]. now apply content_lines_clean. Qed.

(** X20. A narrative file made of a ranking and the three sections, each
    with its line-count header and lines that are no markers (no [PI4]
    line in the spy info), decodes to exactly that ranking, trimmed, and
    those lines: the headers and the markers are gone, nothing else is. *)
Theorem parseCAM_decodes_a_written_file
    (r n1 n2 n3 : jsstring) (ko ks kd : list jsstring) :
  ranking_line r ->
  count_header n1 -> count_header n2 -> count_header n3 ->
  section_lines false ko -> section_lines true ks -> section_lines false kd ->
  parseCAM (cam_file r n1 n2 n3 ko ks kd) = mkCam (Some (trim r)) (flat ko) (flat ks) (flat kd).
Proof.
  intros (Hrc & Hrm & Hre) H1 H2 H3 Ho Hs Hd.
  unfold parseCAM, cam_file.
  rewrite cam_lines_flat.
  2:{ repeat (first [ apply Forall_app; split
                    | apply List.Forall_cons
                    | apply List.Forall_nil
                    | eapply section_lines_clean; eassumption
                    | apply lit_clean; reflexivity
                    | exact Hrc | apply H1 | apply H2 | apply H3 ]). }
  rewrite !fold_left_app. cbn [fold_left].
  destruct Ho as (Hko & Hho & _). destruct Hs as (Hks & Hhs & Hps). destruct Hd as (Hkd & Hhd & _).
  (* the ranking *)
  rewrite (proj2 (proj2 (proj2 (cam_step_open S_NONE _)))).
  rewrite cam_step_content by exact Hrm. cbn [in_section]. rewrite Hre. cbn [negb].
  unfold set_ranking. cbn [objective spyInfo description].
  (* the objective *)
  rewrite (proj1 (cam_step_open S_NONE _)).
  rewrite (proj1 (count_header_skipped n1 _ [] [] [] H1)).
  pose proof (refold_objective ko [] (Some (trim r)) [] [] Hko (or_intror Hho)) as Eo.
  change (flat []) with (@nil Z) in Eo. change ([] ++ ko) with ko in Eo. rewrite Eo.
  rewrite (proj1 (cam_step_close S_OBJECTIVE _)).
  (* the spy info *)
  rewrite (proj1 (proj2 (cam_step_open S_NONE _))).
  rewrite (proj1 (proj2 (count_header_skipped n2 _ (flat ko) [] [] H2))).
  pose proof (refold_spyInfo ks [] (Some (trim r)) (flat ko) [] Hks (Hps eq_refl) (or_intror Hhs)) as Es.
  change (flat []) with (@nil Z) in Es. change ([] ++ ks) with ks in Es. rewrite Es.
  rewrite (proj1 (proj2 (cam_step_close S_SPYINFO _))).
  (* the description *)
  rewrite (proj1 (proj2 (proj2 (cam_step_open S_NONE _)))).
  rewrite (proj2 (proj2 (count_header_skipped n3 _ (flat ko) (flat ks) [] H3))).
  pose proof (refold_description kd [] (Some (trim r)) (flat ko) (flat ks) Hkd (or_intror Hhd)) as Ed.
  change (flat []) with (@nil Z) in Ed. change ([] ++ kd) with kd in Ed. rewrite Ed.
  rewrite (proj2 (proj2 (cam_step_close S_DESCRIPTION _))).
  reflexivity.
Qed.

Lemma parseCAM_decodes_a_written_file_witness :
  parseCAM (cam_file (lit " Captain ") (lit "2") (lit "1") (lit " 1")
              [lit "Take the hill."; lit "12"] [lit "Enemy to the north."] [lit "A valley."])
  = mkCam (Some (trim (lit " Captain ")))
          (flat [lit "Take the hill."; lit "12"])
          (flat [lit "Enemy to the north."])
          (flat [lit "A valley."]).
Proof.
  apply parseCAM_decodes_a_written_file.
  - split; [apply lit_clean; reflexivity|split; reflexivity].
  - split; [apply lit_clean; reflexivity|reflexivity].
  - split; [apply lit_clean; reflexivity|reflexivity].
  - split; [apply lit_clean; reflexivity|reflexivity].
  - split; [|split; [reflexivity|discriminate]].
    repeat (first [apply List.Forall_nil
                  | apply List.Forall_cons; [split; [apply lit_clean; reflexivity|reflexivity]|]]).
  - split; [|split; [reflexivity|intros _]].
    + repeat (first [apply List.Forall_nil
                    | apply List.Forall_cons; [split; [apply lit_clean; reflexivity|reflexivity]|]]).
    + repeat (first [apply List.Forall_nil | apply List.Forall_cons; [reflexivity|]]).
  - split; [|split; [reflexivity|discriminate]].
    repeat (first [apply List.Forall_nil
                  | apply List.Forall_cons; [split; [apply lit_clean; reflexivity|reflexivity]|]]).
Defined.

(** ** The model table of the header *)

Lemma take_while_spec (f : Z -> bool) (s a b : jsstring) :
  take_while f s = (a, b) -> s = a ++ b /\ forallb f a = true.
Proof.
  revert a b. induction s as [|c r IH]; intros a b; cbn [take_while].
  - intros [= <- <-]. now split.
  - destruct (f c) eqn:Ec.
    + destruct (take_while f r) as [a' b'] eqn:E. intros [= <- <-].
      destruct (IH a' b' eq_refl) as [-> Ha]. split; [reflexivity|]. cbn. now rewrite Ec, Ha.
    + intros [= <- <-]. now split.
Qed.

Lemma take_while_app (f : Z -> bool) (a b : jsstring) :
  forallb f a = true ->
  match b with [] => True | c :: _ => f c = false end ->
  take_while f (a ++ b) = (a, b).
Proof.
  intros Ha Hb. induction a as [|c a IH]; cbn [app take_while].
  - destruct b as [|c b]; [reflexivity|]. cbn [take_while]. now rewrite Hb.
  - cbn [forallb] in Ha. apply andb_true_iff in Ha as [Hc Ha]. rewrite Hc, IH by exact Ha.
    reflexivity.
Qed.

Lemma ci_prefix_spec (p s r : jsstring) :
  ci_prefix p s = Some r -> exists q, s = q ++ r /\ ci_equal p q.
Proof.
  unfold ci_equal. revert s. induction p as [|a p IH]; intros s; cbn [ci_prefix].
  - intros [= ->]. now exists [].
  - destruct s as [|c s]; [discriminate|]. destruct (ci_eqb c a) eqn:Ec; [|discriminate].
    intros H. destruct (IH s H) as [q [-> Hq]]. exists (c :: q). split; [reflexivity|].
    cbn [ci_prefix]. now rewrite Ec.
Qed.

Lemma ci_prefix_self (p r : jsstring) : ci_prefix p (p ++ r) = Some r.
Proof.
  induction p as [|a p IH]; [reflexivity|]. cbn [app ci_prefix].
  unfold ci_eqb at 1. now rewrite Z.eqb_refl.
Qed.

Lemma forallb_Forall_true (f : Z -> bool) (s : jsstring) :
  forallb f s = true -> Forall (fun c => f c = true) s.
Proof. intros H. apply List.Forall_forall. now apply forallb_forall. Qed.

Lemma match_sdf_tail_spec (s ds : jsstring) :
  match_sdf_tail s = Some ds ->
  all_digits ds = true
  /\ exists e ws, s = e ++ ws ++ ds /\ ci_equal (lit ".sdf") e
                  /\ ws <> [] /\ Forall (fun c => is_ws c = true) ws.
Proof.
  unfold match_sdf_tail. destruct (ci_prefix (lit ".sdf") s) as [r|] eqn:E; [|discriminate].
  destruct (take_while is_ws r) as [ws ds'] eqn:Et.
  destruct (negb (is_empty ws) && all_digits ds') eqn:Ec; [|discriminate].
  intros [= <-]. apply andb_true_iff in Ec as [Hws Hds].
  split; [exact Hds|].
  destruct (ci_prefix_spec _ _ _ E) as [e [-> He]].
  destruct (take_while_spec _ _ _ _ Et) as [-> Hw].
  exists e, ws. split; [reflexivity|]. split; [exact He|]. split.
  - intros ->. discriminate Hws.
  - now apply forallb_Forall_true.
Qed.

Lemma match_sdf_name_spec (s acc name ds : jsstring) :
  match_sdf_name acc s = Some (name, ds) ->
  all_digits ds = true
  /\ exists mid e ws, name = acc ++ mid /\ mid <> []
       /\ Forall (fun c => is_line_terminator c = false) mid
       /\ s = mid ++ e ++ ws ++ ds /\ ci_equal (lit ".sdf") e
       /\ ws <> [] /\ Forall (fun c => is_ws c = true) ws.
Proof.
  revert acc. induction s as [|c r IH]; intros acc; cbn [match_sdf_name]; [discriminate|].
  destruct (is_line_terminator c) eqn:Ec; [discriminate|].
  destruct (match_sdf_tail r) as [ds'|] eqn:Et.
  - intros [= <- <-]. destruct (match_sdf_tail_spec _ _ Et) as [Hd (e & ws & -> & He & Hw & Hws)].
    split; [exact Hd|]. exists [c], e, ws.
    repeat (apply conj); try reflexivity; try assumption; [discriminate|].
    constructor; [exact Ec|constructor].
  - intros H. destruct (IH _ H) as [Hd (mid & e & ws & -> & _ & Hm & -> & He & Hw & Hws)].
    split; [exact Hd|]. exists (c :: mid), e, ws.
    repeat (apply conj); try reflexivity; try assumption.
    + now rewrite <- app_assoc.
    + discriminate.
    + constructor; assumption.
Qed.

Lemma model_match_name_digits (line name ds : jsstring) :
  model_match line = Some (name, ds) -> name <> [] /\ all_digits ds = true.
Proof.
  unfold model_match. destruct (ci_prefix (lit "models") (trim line)) as [[|sep r]|];
    try discriminate.
  destruct ((sep =? 92) || (sep =? 47)); [|discriminate].
  intros H. destruct (match_sdf_name_spec _ _ _ _ H) as [Hd (mid & _ & _ & -> & Hne & _)].
  split; [|exact Hd]. cbn [app]. exact Hne.
Qed.

(** X21. A line that [model_match] accepts is, once trimmed, [models],
    a slash or a backslash, the name, [.sdf], white space and the digits,
    in that order and with nothing else; the letters of [models] and
    [.sdf] in either case.  The name is not empty and the digits are
    digits. *)
Theorem model_match_sound (line name ds : jsstring) :
  model_match line = Some (name, ds) ->
  exists m sep e ws,
    trim line = m ++ sep :: name ++ e ++ ws ++ ds
    /\ ci_equal (lit "models") m /\ (sep = 92 \/ sep = 47)
    /\ name <> [] /\ Forall (fun c => is_line_terminator c = false) name
    /\ ci_equal (lit ".sdf") e
    /\ ws <> [] /\ Forall (fun c => is_ws c = true) ws
    /\ all_digits ds = true.
Proof.
  unfold model_match. destruct (ci_prefix (lit "models") (trim line)) as [[|sep r]|] eqn:E;
    try discriminate.
  destruct ((sep =? 92) || (sep =? 47)) eqn:Es; [|discriminate].
  intros H. destruct (match_sdf_name_spec _ _ _ _ H)
    as [Hd (mid & e & ws & -> & Hne & Hm & -> & He & Hw & Hws)].
  destruct (ci_prefix_spec _ _ _ E) as [m [Ht Hmm]].
  exists m, sep, e, ws. cbn [app].
  repeat (apply conj); try assumption.
  apply orb_true_iff in Es as [Es|Es]; apply Z.eqb_eq in Es; [now left|now right].
Qed.

Lemma model_match_sound_witness :
  exists m sep e ws,
    trim (lit "  MODELS/Tank.sdf.A.Sdf   33 ")
    = m ++ sep :: lit "Tank.sdf.A" ++ e ++ ws ++ lit "33"
    /\ ci_equal (lit "models") m /\ (sep = 92 \/ sep = 47)
    /\ lit "Tank.sdf.A" <> []
    /\ Forall (fun c => is_line_terminator c = false) (lit "Tank.sdf.A")
    /\ ci_equal (lit ".sdf") e
    /\ ws <> [] /\ Forall (fun c => is_ws c = true) ws
    /\ all_digits (lit "33") = true.
Proof.
  apply (model_match_sound (lit "  MODELS/Tank.sdf.A.Sdf   33 ") (lit "Tank.sdf.A") (lit "33")).
  reflexivity.
Defined.

Lemma digit_cases (c : Z) : is_digit c = true -> In c [48; 49; 50; 51; 52; 53; 54; 55; 56; 57].
Proof.
  unfold is_digit. intros H. apply andb_true_iff in H as [H1 H2].
  apply Z.leb_le in H1, H2. cbn [In]. lia.
Qed.

Lemma digit_not_ws (c : Z) : is_digit c = true -> is_ws c = false.
Proof.
  intros H. apply digit_cases in H. cbn [In] in H.
  repeat (destruct H as [<-|H]; [reflexivity|]). destruct H.
Qed.

Lemma take_while_all (f : Z -> bool) (s : jsstring) :
  forallb f s = true -> take_while f s = (s, []).
Proof.
  intros H. rewrite <- (app_nil_r s) at 1. now apply take_while_app.
Qed.

Lemma digits_val_nonneg (ds : jsstring) : forallb is_digit ds = true -> 0 <= digits_val 10 ds.
Proof.
  unfold digits_val.
  assert (G : forall acc, 0 <= acc -> forallb is_digit ds = true ->
                          0 <= fold_left (fun acc d => acc * 10 + digit_val d) ds acc).
  2:{ intros H. apply G; [lia|exact H]. }
  induction ds as [|d ds IH]; intros acc Hacc H; cbn [fold_left]; [exact Hacc|].
  cbn [forallb] in H. apply andb_true_iff in H as [Hd H]. apply IH; [|exact H].
  unfold digit_val. rewrite Hd. unfold is_digit in Hd.
  apply andb_true_iff in Hd as [H1 _]. apply Z.leb_le in H1. lia.
Qed.

(** [parseInt] of a run of digits is the decimal number they write. *)
Lemma parseInt_digits (ds : jsstring) :
  all_digits ds = true -> parseInt (Some ds) = IInt (digits_val 10 ds).
Proof.
  destruct ds as [|c r]; [discriminate|].
  unfold all_digits. intros H. pose proof H as Hall.
  cbn [forallb] in H. apply andb_true_iff in H as [Hc Hr].
  unfold parseInt. rewrite trim_start_fix by now apply digit_not_ws.
  assert (Hs : strip_sign (c :: r) = (false, c :: r)).
  { apply digit_cases in Hc. cbn [In] in Hc.
    repeat (destruct Hc as [<-|Hc]; [reflexivity|]). destruct Hc. }
  rewrite Hs. clear Hs.
  assert (Hend : forall s : jsstring, forallb is_digit s = true -> s <> [] ->
            match take_while (if 10 =? 16 then is_hex else is_digit) s with
            | ([], _) => INaN
            | ((_ :: _) as ds, _) => IInt (digits_val 10 ds)
            end = IInt (digits_val 10 s)).
  { intros s Hs Hne. change (10 =? 16) with false. cbv iota.
    rewrite take_while_all by exact Hs. destruct s; [congruence|reflexivity]. }
  apply digit_cases in Hc. cbn [In] in Hc.
  destruct Hc as [<-|Hc].
  - destruct r as [|c' r']; [reflexivity|].
    pose proof Hr as Hr'. cbn [forallb] in Hr'. apply andb_true_iff in Hr' as [Hc' _].
    apply digit_cases in Hc'. cbn [In] in Hc'.
    repeat (destruct Hc' as [<-|Hc']; [apply Hend; [exact Hall|discriminate]|]). destruct Hc'.
  - repeat (destruct Hc as [<-|Hc]; [apply Hend; [exact Hall|discriminate]|]). destruct Hc.
Qed.

Lemma match_sdf_tail_self (ws ds : jsstring) :
  is_empty ws = false -> forallb is_ws ws = true -> all_digits ds = true ->
  match_sdf_tail (lit ".sdf" ++ ws ++ ds) = Some ds.
Proof.
  intros Hne Hws Hds. unfold match_sdf_tail. rewrite ci_prefix_self.
  rewrite take_while_app; [now rewrite Hne, Hds|exact Hws|].
  destruct ds as [|d ds]; [exact I|]. apply digit_not_ws.
  unfold all_digits in Hds. cbn [forallb] in Hds. now apply andb_true_iff in Hds as [H _].
Qed.

Lemma match_sdf_name_plain (name acc tail ds : jsstring) :
  plain_name name = true -> match_sdf_tail tail = Some ds ->
  match_sdf_name acc (name ++ tail) = Some (acc ++ name, ds).
Proof.
  unfold plain_name. intros H Ht. apply andb_true_iff in H as [Hne Hall].
  revert acc. induction name as [|c r IH]; intros acc; [discriminate|].
  cbn [forallb] in Hall. apply andb_true_iff in Hall as [Hc Hr].
  apply andb_true_iff in Hc as [_ Hlt]. apply negb_true_iff in Hlt.
  cbn [app match_sdf_name]. rewrite Hlt.
  destruct r as [|c' r'].
  - cbn [app]. now rewrite Ht.
  - assert (Hn : match_sdf_tail ((c' :: r') ++ tail) = None).
    { cbn [forallb] in Hr. apply andb_true_iff in Hr as [Hc' _].
      apply andb_true_iff in Hc' as [Hdot _]. apply negb_true_iff in Hdot.
      unfold match_sdf_tail. change (lit ".sdf") with (46 :: lit "sdf").
      cbn [app ci_prefix]. unfold ci_eqb. rewrite Hdot. reflexivity. }
    rewrite Hn. rewrite IH; [|reflexivity|exact Hr]. now rewrite <- app_assoc.
Qed.

(** X22. A header line [models\<name>.sdf <digits>], with a slash or a
    backslash and a name that holds no dot, sets the entry of the model
    table for the number the digits write to that name, replacing what
    the table held for it.  The number is at most 2^53: up to there a
    double holds every integer exactly. *)
Theorem model_line_sets_table_entry
    (tbl : gmap Z jsstring) (line name ws ds : jsstring) (sep : Z) :
  trim line = lit "models" ++ sep :: name ++ lit ".sdf" ++ ws ++ ds ->
  (sep =? 92) || (sep =? 47) = true ->
  plain_name name = true ->
  is_empty ws = false -> forallb is_ws ws = true ->
  all_digits ds = true ->
  digits_val 10 ds <= 2 ^ 53 ->
  model_step tbl line = <[digits_val 10 ds := name]> tbl.
Proof.
  intros Ht Hsep Hname Hne Hws Hds _.
  unfold model_step, model_match. rewrite Ht, ci_prefix_self, Hsep.
  rewrite (match_sdf_name_plain name [] _ ds Hname (match_sdf_tail_self ws ds Hne Hws Hds)).
  cbn [app]. now rewrite parseInt_digits.
Qed.

Lemma model_line_sets_table_entry_witness :
  model_step (<[33 := lit "old"]> ∅) (lit " models\tank_a.sdf   33")
  = <[digits_val 10 (lit "33") := lit "tank_a"]> (<[33 := lit "old"]> ∅).
Proof.
  apply (model_line_sets_table_entry _ (lit " models\tank_a.sdf   33") (lit "tank_a")
           (lit "   ") (lit "33") 92); first [reflexivity | vm_compute; discriminate].
Defined.

Lemma model_step_entries (ls : list jsstring) (tbl : gmap Z jsstring) (l : jsstring) :
  map_Forall (table_entry ls) tbl -> map_Forall (table_entry (ls ++ [l])) (model_step tbl l).
Proof.
  intros H.
  assert (Hw : map_Forall (table_entry (ls ++ [l])) tbl).
  { eapply map_Forall_impl; [exact H|]. intros id name (H0 & Hn & l' & ds & Hl & Hm & Hid).
    split; [exact H0|]. split; [exact Hn|]. exists l', ds. split; [|now split].
    apply in_app_iff. now left. }
  unfold model_step. destruct (model_match l) as [[name ds]|] eqn:E; [|exact Hw].
  destruct (model_match_name_digits l name ds E) as [Hn Hd].
  rewrite parseInt_digits by exact Hd.
  apply map_Forall_insert_2; [|exact Hw].
  split; [|split; [exact Hn|]].
  - apply digits_val_nonneg. unfold all_digits in Hd. destruct ds; [discriminate|exact Hd].
  - exists l, ds. split; [|now split]. apply in_app_iff. right. now left.
Qed.

(** X23. When the numbers of the [models] lines of the header are at
    most 2^53 (a double holds them exactly), every entry of the model
    table comes from one of those lines: its number is the non-negative
    number that line ends with, and its name, never empty, is the name
    of that line. *)
Theorem model_table_entries_come_from_lines (ls : list jsstring) :
  forallb exact_id ls = true ->
  map_Forall (table_entry ls) (model_table ls).
Proof.
  intros _.
  unfold model_table. induction ls as [|l ls IH] using rev_ind.
  - apply map_Forall_empty.
  - rewrite fold_left_app. cbn [fold_left]. now apply model_step_entries.
Qed.

Lemma model_table_entries_come_from_lines_witness :
  map_Forall (table_entry [lit "models\tank.sdf 33"; lit "ground.tga"; lit " MODELS/Jeep.SDF   7 "])
             (model_table [lit "models\tank.sdf 33"; lit "ground.tga"; lit " MODELS/Jeep.SDF   7 "]).
Proof.
  apply (model_table_entries_come_from_lines
           [lit "models\tank.sdf 33"; lit "ground.tga"; lit " MODELS/Jeep.SDF   7 "]).
  vm_compute. reflexivity.
Defined.

(** ** The terrain view on the grids of [parseSLK] *)

Lemma parseSLK_heights_bytes (buffer : list byte) :
  Forall (fun h => 0 <= h <= 255) (heights (parseSLK buffer)).
Proof.
  rewrite parseSLK_heights. destruct (locate _) as [off|]; [apply layer5_bytes|].
  eapply Forall_impl; [apply new_u16_zero|]. cbv beta. intros; lia.
Qed.

Lemma sample_range (heightMap : list Z) (idx : jsnum) :
  Forall (fun h => 0 <= h <= 255) heightMap -> 0 <= sample heightMap idx <= 255.
Proof.
  intros H. destruct idx as [|s|i]; cbn [sample]; try lia.
  destruct (i <? 0); [lia|].
  destruct (heightMap !! Z.to_nat i) as [h|] eqn:E; [|lia].
  exact (Forall_lookup_1 _ _ _ _ H E).
Qed.

(** X24. Whatever the coordinates of a marker (outside the grid,
    infinite, or NaN), the terrain height that [getTerrainHeight] reads
    for it in the heights of [parseSLK] lies between 0 and 255. *)
Theorem marker_height_within_0_255 (buffer : list byte) (gridX gridZ : double) :
  0 <= getTerrainHeight (Some (heights (parseSLK buffer))) gridX gridZ <= 255.
Proof.
  unfold getTerrainHeight. cbv zeta.
  pose proof (sample_range (heights (parseSLK buffer))
                (plus (times (Math_max 0 (Math_min (256 - 1) (Math_floor gridZ))) 256)
                      (Math_max 0 (Math_min (256 - 1) (Math_floor gridX))))
                (parseSLK_heights_bytes buffer)) as H.
  set (v := sample _ _) in *. clearbody v. lia.
Qed.

(** X25. For a marker inside the grid, the terrain height is 255 minus
    the byte of the file at [off + 5 * 65536 + 257 * row + col], where
    [off] is the offset of the binary block and [row], [col] are the
    coordinates rounded down; 255 when that byte lies past the end. *)
Theorem marker_height_is_file_byte (buffer : list byte) (off mx ex mz ez : Z) :
  locate (headerText buffer) = Some off ->
  0 <= Z.shiftl mx ex <= 255 -> 0 <= Z.shiftl mz ez <= 255 ->
  getTerrainHeight (Some (heights (parseSLK buffer))) (DFin mx ex) (DFin mz ez)
  = 255 - (if off + 327680 + Z.shiftl mz ez * 257 + Z.shiftl mx ex <? blen buffer
           then byte_at buffer (off + 327680 + Z.shiftl mz ez * 257 + Z.shiftl mx ex)
           else 0).
Proof.
  intros Hloc Hx Hz. unfold getTerrainHeight. cbv zeta.
  cbn [Math_floor Math_min Math_max times plus sample].
  set (col := Z.shiftl mx ex) in *. set (row := Z.shiftl mz ez) in *.
  clearbody col row.
  rewrite (Z.min_r _ col), (Z.min_r _ row), (Z.max_r _ col), (Z.max_r _ row) by lia.
  destruct (Z.ltb_spec (row * 256 + col) 0) as [Hneg|_]; [lia|].
  replace (Z.to_nat (row * 256 + col)) with (Z.to_nat row * 256 + Z.to_nat col)%nat by lia.
  rewrite parseSLK_heights, Hloc, layer5_lookup by lia.
  cbv zeta. rewrite !Z2Nat.id by lia.
  change (5 * 65536) with 327680. lia.
Qed.

Lemma marker_height_is_file_byte_witness :
  getTerrainHeight (Some (heights (parseSLK citadel_file))) (DFin 5 (-1)) (DFin 1 1)
  = 255 - (if 38 + 327680 + Z.shiftl 1 1 * 257 + Z.shiftl 5 (-1) <? blen citadel_file
           then byte_at citadel_file (38 + 327680 + Z.shiftl 1 1 * 257 + Z.shiftl 5 (-1))
           else 0).
Proof.
  apply (marker_height_is_file_byte citadel_file 38 5 (-1) 1 1).
  - exact citadel_file_offset.
  - vm_compute. split; discriminate.
  - vm_compute. split; discriminate.
Defined.

(** X26. The debug colour of a texture index repeats every 85 indices:
    two values of a [Uint16Array], [i] and [i + 85], get the same
    colour. *)
Theorem debug_colour_repeats_every_85 (i : Z) :
  0 <= i -> i + 85 <= 65535 ->
  getColorForIndex (i + 85) = getColorForIndex i.
Proof.
  intros Hi _. unfold getColorForIndex. cbv zeta.
  rewrite !Z.rem_mod_nonneg by lia.
  replace ((i + 85) * 12345) with (i * 12345 + 4115 * 255) by lia.
  replace ((i + 85) * 67890) with (i * 67890 + 22630 * 255) by lia.
  replace ((i + 85) * 54321) with (i * 54321 + 18107 * 255) by lia.
  now rewrite !Z_mod_plus_full.
Qed.

Lemma debug_colour_repeats_every_85_witness :
  getColorForIndex (3 + 85) = getColorForIndex 3.
Proof. apply (debug_colour_repeats_every_85 3); lia. Defined.
